(** * Kanye Says: the quote manager and its callers, embedded from [main.py]

    The development follows the layout of the source file:
    - [Py]: the Python primitives the program relies on (list membership,
      [list.remove], the slice [l[-n:]], [random.choice], truthiness);
    - [IO]: exceptions, the files under [Config.DATA_DIR] and a small
      state-and-exception monad in which the methods are written;
    - [Config]: the constants of class [Config] that the logic reads;
    - [QuoteManager]: class [QuoteManager], method by method;
    - [KanyeQuoteApp]: the handlers of class [KanyeQuoteApp] that call the
      manager, together with the Tk callback queue and the fetch threads;
    - [Desktop], [FavoritesWindow], [AutoRefresh]: the remaining handlers,
      [copy_quote] and [share_quote], the window of [show_favorites] and
      the auto-refresh timer, each with the state it adds.

    Modelling conventions.  A file is [Absent], [Garbage] (it exists but
    opening or parsing it raises), [Unreachable] (its status cannot be read,
    as under a directory without search permission: [Path.exists()] itself
    raises) or [Holds] a value of the shape [save_data] writes;
    serialisation itself ([json.dump] followed by [json.load]) is the
    identity on such values.  A Python [str] is the string of its UTF-8
    bytes, a lone surrogate standing as the three bytes its code point
    would take.  [datetime.now().isoformat()] and the random
    generator are supplied by the caller as explicit arguments.  Pictographs
    in user-interface texts are left out of the string literals. *)

From Stdlib Require Import List String Ascii Bool Arith Lia DecimalString.
Import ListNotations.
Open Scope string_scope.
Open Scope list_scope.

Set Implicit Arguments.

(* ================================================================== *)
(** ** Python primitives *)

Module Py.

(** [x in l] on a list of strings. *)
Fixpoint py_in (x : string) (l : list string) : bool :=
  match l with
  | [] => false
  | y :: l' => if String.eqb y x then true else py_in x l'
  end.

(** [l.remove(x)]: drops the first element equal to [x]; [None] stands for
    the [ValueError] Python raises when there is none. *)
Fixpoint list_remove (x : string) (l : list string) : option (list string) :=
  match l with
  | [] => None
  | y :: l' =>
      if String.eqb y x then Some l'
      else match list_remove x l' with
           | Some r => Some (y :: r)
           | None => None
           end
  end.

(** [l[-n:]] for [n > 0]: the slice starts at [max (len l - n) 0]. *)
Definition slice_last {A : Type} (n : nat) (l : list A) : list A :=
  skipn (List.length l - n) l.

(** [random.choice(l)] with the generator's draw [r] made explicit;
    [None] stands for the [IndexError] raised on an empty sequence. *)
Definition random_choice {A : Type} (r : nat) (l : list A) : option A :=
  match l with
  | [] => None
  | _ => nth_error l (r mod List.length l)
  end.

(** Values a handler hands back to its caller. *)
Inductive pyval : Type :=
| PyNone
| PyBool (b : bool).

(** [bool(v)]. *)
Definition truthy (v : pyval) : bool :=
  match v with
  | PyNone => false
  | PyBool b => b
  end.

(** [bool(s)] for a string: false exactly for the empty string. *)
Definition str_truthy (s : string) : bool :=
  match s with
  | EmptyString => false
  | String _ _ => true
  end.

Definition dquote : string := String (ascii_of_nat 34) EmptyString.

(** The f-string [f'"{q}"']. *)
Definition quoted (q : string) : string :=
  String.append dquote (String.append q dquote).

End Py.

(* ================================================================== *)
(** ** Exceptions, files and the monad of the methods *)

Module IO.

Inductive exn : Type :=
| OSError (msg : string)
| JSONDecodeError (msg : string)
| ValueError (msg : string)
| IndexError (msg : string).

Definition exn_msg (e : exn) : string :=
  match e with
  | OSError m | JSONDecodeError m | ValueError m | IndexError m => m
  end.

Inductive result (A : Type) : Type :=
| Ok (a : A)
| Raise (e : exn).
Arguments Ok {A} a.
Arguments Raise {A} e.

Inductive file (A : Type) : Type :=
| Absent
| Garbage
| Holds (content : A)
| Unreachable.
Arguments Absent {A}.
Arguments Garbage {A}.
Arguments Holds {A} content.
Arguments Unreachable {A}.

(** [Path.exists()]: [False] for a missing file, [True] for one that is
    there; it swallows only the errors that mean the file is missing, so
    where the status cannot be read the [PermissionError] comes out. *)
Definition file_exists {A : Type} (f : file A) : result bool :=
  match f with
  | Absent => Ok false
  | Unreachable => Raise (OSError "Permission denied")
  | _ => Ok true
  end.

(** What opening a file for writing and dumping into it will do. *)
Inductive write_fault : Type :=
| NoFault      (* the write goes through *)
| OpenFails    (* [open(..., 'w')] raises: the file is left as it was *)
| DumpFails.   (* [json.dump] raises after the file was truncated *)

Inductive path : Type :=
| FAVORITES_FILE
| HISTORY_FILE.

(** An entry of the history: the dict [{"quote": ..., "timestamp": ...}]. *)
Record entry : Type := { quote : string; timestamp : string }.

(** Everything outside the process that the manager touches. *)
Record world : Type := {
  mkdir_ok : bool;          (* [DATA_DIR.mkdir(parents=True, exist_ok=True)] succeeds *)
  fav_fault : write_fault;  (* fate of a write to the favorites file *)
  hist_fault : write_fault; (* fate of a write to the history file *)
  favorites_file : file (list string);
  history_file : file (list entry);
  writes : list path;       (* files opened for writing so far, oldest first *)
  requests_made : nat;      (* calls of [requests.get] so far *)
  stdout : list string      (* lines printed so far, oldest first *)
}.

Section Monad.
Variable S : Type.

Definition M (A : Type) : Type := S -> result A * S.

Definition ret {A : Type} (a : A) : M A := fun s => (Ok a, s).

Definition bind {A B : Type} (c : M A) (k : A -> M B) : M B :=
  fun s =>
    match c s with
    | (Ok a, s') => k a s'
    | (Raise e, s') => (Raise e, s')
    end.

Definition raise {A : Type} (e : exn) : M A := fun s => (Raise e, s).

(** [try: body / except Exception as e: handler e]; the effects of the
    body up to the point of the exception stay. *)
Definition try_except {A : Type} (body : M A) (handler : exn -> M A) : M A :=
  fun s =>
    match body s with
    | (Ok a, s') => (Ok a, s')
    | (Raise e, s') => handler e s'
    end.

Definition get : M S := fun s => (Ok s, s).
Definition put (s : S) : M unit := fun _ => (Ok tt, s).
Definition modify (f : S -> S) : M unit := fun s => (Ok tt, f s).
End Monad.

Arguments ret {S A} a.
Arguments bind {S A B} c k.
Arguments raise {S A} e.
Arguments try_except {S A} body handler.
Arguments get {S}.
Arguments put {S} s.
Arguments modify {S} f.

Declare Scope io_scope.
Delimit Scope io_scope with io.
Notation "x <- c ;; k" := (bind c (fun x => k))
  (at level 61, c at next level, right associativity) : io_scope.
Notation "c ;;; k" := (bind c (fun _ => k))
  (at level 61, right associativity) : io_scope.

(** A result that was computed without the state. *)
Definition lift {S A : Type} (r : result A) : M S A := fun s => (r, s).

(** Run a computation over the world inside a larger state [S * world]. *)
Definition in_world {S A : Type} (c : M world A) : M (S * world) A :=
  fun sw =>
    match c (snd sw) with
    | (r, w') => (r, (fst sw, w'))
    end.

(** *** Operations on the world *)

Definition mkdir_DATA_DIR : M world unit :=
  fun w =>
    if mkdir_ok w then (Ok tt, w)
    else (Raise (OSError "cannot create the data directory"), w).

Definition print (line : string) : M world unit :=
  modify (fun w =>
    {| mkdir_ok := mkdir_ok w; fav_fault := fav_fault w;
       hist_fault := hist_fault w;
       favorites_file := favorites_file w; history_file := history_file w;
       writes := writes w; requests_made := requests_made w;
       stdout := stdout w ++ [line] |}).

Definition set_favorites_file (f : file (list string)) (w : world) : world :=
  {| mkdir_ok := mkdir_ok w; fav_fault := fav_fault w;
     hist_fault := hist_fault w;
     favorites_file := f; history_file := history_file w;
     writes := writes w ++ [FAVORITES_FILE];
     requests_made := requests_made w; stdout := stdout w |}.

Definition set_history_file (f : file (list entry)) (w : world) : world :=
  {| mkdir_ok := mkdir_ok w; fav_fault := fav_fault w;
     hist_fault := hist_fault w;
     favorites_file := favorites_file w; history_file := f;
     writes := writes w ++ [HISTORY_FILE];
     requests_made := requests_made w; stdout := stdout w |}.

(** [requests.get(...)] was called once more. *)
Definition count_request : M world unit :=
  modify (fun w =>
    {| mkdir_ok := mkdir_ok w; fav_fault := fav_fault w;
       hist_fault := hist_fault w;
       favorites_file := favorites_file w; history_file := history_file w;
       writes := writes w; requests_made := S (requests_made w);
       stdout := stdout w |}).

(** [with open(FAVORITES_FILE, 'w') as f: json.dump(v, f, indent=2)] *)
Definition dump_favorites (v : list string) : M world unit :=
  fun w =>
    match fav_fault w with
    | NoFault => (Ok tt, set_favorites_file (Holds v) w)
    | OpenFails => (Raise (OSError "cannot open favorites.json"), w)
    | DumpFails =>
        (Raise (OSError "cannot write favorites.json"),
         set_favorites_file Garbage w)
    end.

(** [with open(HISTORY_FILE, 'w') as f: json.dump(v, f, indent=2)] *)
Definition dump_history (v : list entry) : M world unit :=
  fun w =>
    match hist_fault w with
    | NoFault => (Ok tt, set_history_file (Holds v) w)
    | OpenFails => (Raise (OSError "cannot open history.json"), w)
    | DumpFails =>
        (Raise (OSError "cannot write history.json"),
         set_history_file Garbage w)
    end.

(** [FAVORITES_FILE.exists()] and [HISTORY_FILE.exists()] *)
Definition favorites_exists : M world bool :=
  fun w => (file_exists (favorites_file w), w).

Definition history_exists : M world bool :=
  fun w => (file_exists (history_file w), w).

(** [with open(FAVORITES_FILE, 'r') as f: json.load(f)] *)
Definition load_favorites : M world (list string) :=
  fun w =>
    match favorites_file w with
    | Holds v => (Ok v, w)
    | Garbage => (Raise (JSONDecodeError "favorites.json"), w)
    | Absent => (Raise (OSError "favorites.json not found"), w)
    | Unreachable => (Raise (OSError "Permission denied"), w)
    end.

(** [with open(HISTORY_FILE, 'r') as f: json.load(f)] *)
Definition load_history : M world (list entry) :=
  fun w =>
    match history_file w with
    | Holds v => (Ok v, w)
    | Garbage => (Raise (JSONDecodeError "history.json"), w)
    | Absent => (Raise (OSError "history.json not found"), w)
    | Unreachable => (Raise (OSError "Permission denied"), w)
    end.

End IO.

(* ================================================================== *)
(** ** class Config *)

Module Config.

Definition FALLBACK_QUOTES : list string :=
  [ "I'm not a businessman, I'm a business, man!";
    "I refuse to accept other people's ideas of happiness for me.";
    "Everything I'm not made me everything I am.";
    "I feel like I'm too busy writing history to read it.";
    "Life is 5% what happens and 95% how you react.";
    "Believe in your flyness, conquer your shyness.";
    "I don't even listen to rap. My apartment is too nice to listen to rap in.";
    "Keep your nose out the sky, keep your heart to God, and keep your face to the rising sun.";
    "I am Warhol. I am the No. 1 most impactful artist of our generation.";
    "My greatest pain in life is that I will never be able to see myself perform live.";
    "I hate when I'm on a flight and I wake up with a water bottle next to me.";
    "I feel calm but energized.";
    "I'm on the pursuit of awesomeness.";
    "Would you believe in what you believe in if you were the only one who believed it?" ].

(** The slice bound in [save_data]: [self.history[-50:]]. *)
Definition HISTORY_KEPT : nat := 50.

End Config.

(* ================================================================== *)
(** ** class QuoteManager *)

Module QuoteManager.
Import Py IO.
Local Open Scope io_scope.

(** The attributes of an instance. *)
Record t : Type := {
  history : list entry;
  favorites : list string;
  current_quote : string
}.

(** A method runs on [self] and the world, and may raise. *)
Definition method (A : Type) : Type := M (t * world) A.

Definition self : method t := fun sw => (Ok (fst sw), sw).

Definition with_history (h : list entry) (m : t) : t :=
  {| history := h; favorites := favorites m;
     current_quote := current_quote m |}.

Definition with_favorites (f : list string) (m : t) : t :=
  {| history := history m; favorites := f;
     current_quote := current_quote m |}.

Definition with_current_quote (q : string) (m : t) : t :=
  {| history := history m; favorites := favorites m;
     current_quote := q |}.

(** The assignments [self.history = h], [self.favorites = f] and
    [self.current_quote = q]. *)
Definition set_history (h : list entry) : method unit :=
  modify (fun sw => (with_history h (fst sw), snd sw)).

Definition set_favorites (f : list string) : method unit :=
  modify (fun sw => (with_favorites f (fst sw), snd sw)).

Definition set_current_quote (q : string) : method unit :=
  modify (fun sw => (with_current_quote q (fst sw), snd sw)).

(** [_load_data]: the [mkdir] and the two [exists()] tests stand outside
    every [try]. *)
Definition _load_data : method unit :=
  in_world mkdir_DATA_DIR ;;;
  there <- in_world favorites_exists ;;
  (if there : bool then
     try_except
       (v <- in_world load_favorites ;; set_favorites v)
       (fun _ => set_favorites [])
   else ret tt) ;;;
  there <- in_world history_exists ;;
  (if there : bool then
     try_except
       (v <- in_world load_history ;; set_history v)
       (fun _ => set_history [])
   else ret tt).

(** [__init__], run on the attributes of the object under construction. *)
Definition __init__ : method unit :=
  set_history [] ;;;
  set_favorites [] ;;;
  set_current_quote "" ;;;
  _load_data.

Definition blank : t :=
  {| history := []; favorites := []; current_quote := "" |}.

(** [QuoteManager()]: the new instance, or the exception that escapes
    [__init__]. *)
Definition new (w : world) : result t * world :=
  match __init__ (blank, w) with
  | (Ok _, (m, w')) => (Ok m, w')
  | (Raise e, (_, w')) => (Raise e, w')
  end.

(** [save_data] *)
Definition save_data : method unit :=
  try_except
    (in_world mkdir_DATA_DIR ;;;
     m <- self ;;
     in_world (dump_favorites (favorites m)) ;;;
     in_world (dump_history (slice_last Config.HISTORY_KEPT (history m))))
    (fun e => in_world (print (String.append "Error saving data: " (exn_msg e)))).

(** [add_to_history]; [now] is [datetime.now().isoformat()]. *)
Definition add_to_history (q : string) (now : string) : method unit :=
  m <- self ;;
  set_history (history m ++ [ {| quote := q; timestamp := now |} ]) ;;;
  set_current_quote q.

(** [toggle_favorite] *)
Definition toggle_favorite (q : string) : method bool :=
  m <- self ;;
  if py_in q (favorites m) then
    match list_remove q (favorites m) with
    | Some l => set_favorites l ;;; ret false
    | None => raise (ValueError "list.remove(x): x not in list")
    end
  else
    set_favorites (favorites m ++ [q]) ;;; ret true.

(** [is_favorite] *)
Definition is_favorite (q : string) : method bool :=
  m <- self ;;
  ret (py_in q (favorites m)).

(** [get_random_favorite]; [r] is the generator's draw. *)
Definition get_random_favorite (r : nat) : method string :=
  m <- self ;;
  match favorites m with
  | [] => ret ""
  | _ => match random_choice r (favorites m) with
         | Some q => ret q
         | None => raise (IndexError "Cannot choose from an empty sequence")
         end
  end.

End QuoteManager.

(* ================================================================== *)
(** ** class KanyeQuoteApp: the handlers around the manager *)

Module KanyeQuoteApp.
Import Py IO.
Local Open Scope io_scope.

(** What [window.after] can be asked to run later. *)
Inductive callback : Type :=
| CbShowLoading (show : bool)          (* [lambda: self._show_loading(show)] *)
| CbDisplayQuote (q : string)          (* [lambda: self._display_quote(q)] *)
| CbHandleError (error_type : string)  (* [lambda: self._handle_error(error_type)] *)
| CbClearLoadingText.                  (* the lambda of [_flash_message] *)

(** Where a thread running [_fetch_quote] stands. *)
Inductive thread_pc : Type :=
| AtSchedule   (* started, about to schedule [_show_loading(True)] *)
| AtRequest    (* about to call [requests.get] *)
| Finished.

(** What [requests.get], [raise_for_status] and [response.json] yield. *)
Inductive response : Type :=
| Json (quote_field : option string)  (* a JSON object, with its "quote" entry if any *)
| Timeout                             (* [requests.exceptions.Timeout] *)
| ConnectionError                     (* [requests.exceptions.ConnectionError] *)
| OtherError (msg : string).          (* any other exception *)

(** The attributes of the application the handlers read or write. *)
Record t : Type := {
  quote_manager : QuoteManager.t;
  is_loading : bool;
  quote_text : string;          (* canvas item [quote_text] *)
  loading_text : string;        (* canvas item [loading_text] *)
  favorite_indicator : bool;    (* the heart is shown *)
  stats_label : nat * nat;      (* quotes viewed, favorites *)
  quote_button_enabled : bool;
  after_queue : list callback;  (* [after(0, ...)] callbacks not yet run, oldest first *)
  timers : list callback;       (* [after(1500, ...)] callbacks not yet run *)
  threads : list thread_pc      (* the threads started by [get_quote], oldest first *)
}.

Definition handler (A : Type) : Type := M (t * world) A.

Definition this : handler t := fun sw => (Ok (fst sw), sw).

Definition update (f : t -> t) : handler unit :=
  modify (fun sw => (f (fst sw), snd sw)).

Definition with_quote_manager (m : QuoteManager.t) (a : t) : t :=
  {| quote_manager := m; is_loading := is_loading a;
     quote_text := quote_text a; loading_text := loading_text a;
     favorite_indicator := favorite_indicator a;
     stats_label := stats_label a;
     quote_button_enabled := quote_button_enabled a;
     after_queue := after_queue a; timers := timers a;
     threads := threads a |}.

Definition with_loading (flag : bool) (button : bool) (a : t) : t :=
  {| quote_manager := quote_manager a; is_loading := flag;
     quote_text := quote_text a; loading_text := loading_text a;
     favorite_indicator := favorite_indicator a;
     stats_label := stats_label a;
     quote_button_enabled := button;
     after_queue := after_queue a; timers := timers a;
     threads := threads a |}.

Definition with_quote_text (s : string) (a : t) : t :=
  {| quote_manager := quote_manager a; is_loading := is_loading a;
     quote_text := s; loading_text := loading_text a;
     favorite_indicator := favorite_indicator a;
     stats_label := stats_label a;
     quote_button_enabled := quote_button_enabled a;
     after_queue := after_queue a; timers := timers a;
     threads := threads a |}.

Definition with_loading_text (s : string) (a : t) : t :=
  {| quote_manager := quote_manager a; is_loading := is_loading a;
     quote_text := quote_text a; loading_text := s;
     favorite_indicator := favorite_indicator a;
     stats_label := stats_label a;
     quote_button_enabled := quote_button_enabled a;
     after_queue := after_queue a; timers := timers a;
     threads := threads a |}.

Definition with_favorite_indicator (b : bool) (a : t) : t :=
  {| quote_manager := quote_manager a; is_loading := is_loading a;
     quote_text := quote_text a; loading_text := loading_text a;
     favorite_indicator := b;
     stats_label := stats_label a;
     quote_button_enabled := quote_button_enabled a;
     after_queue := after_queue a; timers := timers a;
     threads := threads a |}.

Definition with_stats_label (n : nat * nat) (a : t) : t :=
  {| quote_manager := quote_manager a; is_loading := is_loading a;
     quote_text := quote_text a; loading_text := loading_text a;
     favorite_indicator := favorite_indicator a;
     stats_label := n;
     quote_button_enabled := quote_button_enabled a;
     after_queue := after_queue a; timers := timers a;
     threads := threads a |}.

Definition with_after_queue (q : list callback) (a : t) : t :=
  {| quote_manager := quote_manager a; is_loading := is_loading a;
     quote_text := quote_text a; loading_text := loading_text a;
     favorite_indicator := favorite_indicator a;
     stats_label := stats_label a;
     quote_button_enabled := quote_button_enabled a;
     after_queue := q; timers := timers a;
     threads := threads a |}.

Definition with_timers (q : list callback) (a : t) : t :=
  {| quote_manager := quote_manager a; is_loading := is_loading a;
     quote_text := quote_text a; loading_text := loading_text a;
     favorite_indicator := favorite_indicator a;
     stats_label := stats_label a;
     quote_button_enabled := quote_button_enabled a;
     after_queue := after_queue a; timers := q;
     threads := threads a |}.

Definition with_threads (ts : list thread_pc) (a : t) : t :=
  {| quote_manager := quote_manager a; is_loading := is_loading a;
     quote_text := quote_text a; loading_text := loading_text a;
     favorite_indicator := favorite_indicator a;
     stats_label := stats_label a;
     quote_button_enabled := quote_button_enabled a;
     after_queue := after_queue a; timers := timers a;
     threads := ts |}.

(** A call [self.quote_manager.meth(...)]. *)
Definition on_manager {A : Type} (c : QuoteManager.method A) : handler A :=
  fun sw =>
    match c (quote_manager (fst sw), snd sw) with
    | (r, (m', w')) => (r, (with_quote_manager m' (fst sw), w'))
    end.

(** [self.window.after(0, cb)] *)
Definition after0 (cb : callback) : handler unit :=
  update (fun a => with_after_queue (after_queue a ++ [cb]) a).

(** [self.window.after(1500, cb)] *)
Definition after1500 (cb : callback) : handler unit :=
  update (fun a => with_timers (timers a ++ [cb]) a).

(** [_update_stats] with [_get_stats_text] *)
Definition _update_stats : handler unit :=
  a <- this ;;
  update (with_stats_label
            (List.length (QuoteManager.history (quote_manager a)),
             List.length (QuoteManager.favorites (quote_manager a)))).

(** [_show_loading] *)
Definition _show_loading (show : bool) : handler unit :=
  if show then
    update (with_loading true false) ;;;
    update (with_quote_text "") ;;;
    update (with_loading_text "Loading...")
  else
    update (with_loading false true) ;;;
    update (with_loading_text "").

(** [_update_favorite_indicator] *)
Definition _update_favorite_indicator : handler unit :=
  a <- this ;;
  fav <- on_manager
           (QuoteManager.is_favorite
              (QuoteManager.current_quote (quote_manager a))) ;;
  update (with_favorite_indicator fav).

(** [get_quote]: the guard, then [threading.Thread(...).start()]. *)
Definition get_quote : handler pyval :=
  a <- this ;;
  if is_loading a then ret PyNone
  else
    update (fun a => with_threads (threads a ++ [AtSchedule]) a) ;;;
    ret PyNone.

(** [_display_quote] *)
Definition _display_quote (q : string) (now : string) : handler unit :=
  _show_loading false ;;;
  update (with_quote_text (quoted q)) ;;;
  on_manager (QuoteManager.add_to_history q now) ;;;
  on_manager QuoteManager.save_data ;;;
  _update_favorite_indicator ;;;
  _update_stats.

(** [_handle_error]; [r] is the draw of [random.choice]. *)
Definition _handle_error (error_type : string) (r : nat) (now : string)
  : handler unit :=
  _show_loading false ;;;
  match random_choice r Config.FALLBACK_QUOTES with
  | None => raise (IndexError "Cannot choose from an empty sequence")
  | Some fallback =>
      let msg :=
        if String.eqb error_type "timeout" then
          "API timeout - here's a saved quote:"
        else if String.eqb error_type "connection" then
          "No internet - here's a saved quote:"
        else
          "Error occurred - here's a saved quote:" in
      update (with_quote_text (quoted fallback)) ;;;
      on_manager (QuoteManager.add_to_history fallback now) ;;;
      _update_favorite_indicator ;;;
      _update_stats ;;;
      in_world (print msg)
  end.

(** [_flash_message] *)
Definition _flash_message (message : string) : handler unit :=
  update (with_loading_text message) ;;;
  after1500 CbClearLoadingText.

(** [toggle_favorite] of the application: the handler of the Favorite
    button and of the [f] key. *)
Definition toggle_favorite : handler pyval :=
  a <- this ;;
  let q := QuoteManager.current_quote (quote_manager a) in
  if negb (str_truthy q) then ret PyNone
  else
    is_added <- on_manager (QuoteManager.toggle_favorite q) ;;
    on_manager QuoteManager.save_data ;;;
    _update_favorite_indicator ;;;
    _update_stats ;;;
    (if is_added : bool then _flash_message "Added to favorites!"
     else _flash_message "Removed from favorites") ;;;
    ret PyNone.

(** [remove_selected] of the favorites window, for the selected [index]. *)
Definition remove_selected (index : nat) : handler unit :=
  a <- this ;;
  match nth_error (QuoteManager.favorites (quote_manager a)) index with
  | None => raise (IndexError "list index out of range")
  | Some q =>
      match list_remove q (QuoteManager.favorites (quote_manager a)) with
      | None => raise (ValueError "list.remove(x): x not in list")
      | Some l =>
          on_manager (QuoteManager.set_favorites l) ;;;
          on_manager QuoteManager.save_data ;;;
          _update_stats
      end
  end.

(** [use_selected] of the favorites window, for the selected [index]: the
    favorite at that position is displayed.  The window itself, which the
    handler then destroys, is added in [FavoritesWindow]. *)
Definition use_selected (index : nat) (now : string) : handler unit :=
  a <- this ;;
  match nth_error (QuoteManager.favorites (quote_manager a)) index with
  | None => raise (IndexError "list index out of range")
  | Some q => _display_quote q now
  end.

(** The Random Favorite button of the favorites window:
    [self._display_quote(self.quote_manager.get_random_favorite())]. *)
Definition random_favorite (r : nat) (now : string) : handler unit :=
  q <- on_manager (QuoteManager.get_random_favorite r) ;;
  _display_quote q now.

(** What [quit_app] does to the manager and to storage: its [save_data]
    call.  The call of [_stop_auto_refresh] that comes first writes only the
    timer attributes, which this record does not hold; the handler with
    both calls is [AutoRefresh.quit_app]. *)
Definition quit_app_save : handler unit :=
  on_manager QuoteManager.save_data.

(** *** The thread body [_fetch_quote], in its two steps *)

(** Line 428: schedule the loading indicator. *)
Definition _fetch_quote_schedule : handler unit :=
  after0 (CbShowLoading true).

(** Lines 430-450: the request and the callback chosen from its outcome. *)
Definition _fetch_quote_request (resp : response) : handler unit :=
  in_world count_request ;;;
  match resp with
  | Json field =>
      let q := match field with Some s => s | None => "" end in
      if str_truthy q then after0 (CbDisplayQuote q)
      else
        in_world (print "API Error: Empty quote received") ;;;
        after0 (CbHandleError "unknown")
  | Timeout => after0 (CbHandleError "timeout")
  | ConnectionError => after0 (CbHandleError "connection")
  | OtherError msg =>
      in_world (print (String.append "API Error: " msg)) ;;;
      after0 (CbHandleError "unknown")
  end.

(** *** The application as a transition system *)

Inductive event : Type :=
| EvGetQuote                          (* [get_quote] is called on the main thread *)
| EvThread (i : nat) (resp : response)  (* thread [i] runs its next step *)
| EvMainloop (r : nat) (now : string) (* the main loop runs the oldest [after(0)] callback *)
| EvTimer                             (* the main loop runs the oldest [after(1500)] callback *)
| EvToggleFavorite                    (* the Favorite button or the [f] key *)
| EvRemoveSelected (index : nat)      (* the Remove button of the favorites window *)
| EvUseSelected (index : nat) (now : string)
                                      (* the Use This Quote button of that window *)
| EvRandomFavorite (r : nat) (now : string)
                                      (* the Random Favorite button of that window *)
| EvQuit.                             (* Escape or closing the window: the save of [quit_app] *)

Definition run_callback (cb : callback) (r : nat) (now : string)
  : handler unit :=
  match cb with
  | CbShowLoading show => _show_loading show
  | CbDisplayQuote q => _display_quote q now
  | CbHandleError e => _handle_error e r now
  | CbClearLoadingText => update (with_loading_text "")
  end.

Fixpoint set_nth {A : Type} (i : nat) (x : A) (l : list A) : list A :=
  match l, i with
  | [], _ => []
  | _ :: l', 0 => x :: l'
  | y :: l', S i' => y :: set_nth i' x l'
  end.

(** A handler run from the event loop: an exception that escapes it is
    reported by Tk and the loop goes on with the state reached. *)
Definition dispatch {A : Type} (h : handler A) (sw : t * world) : t * world :=
  snd (h sw).

Definition step (ev : event) (sw : t * world) : t * world :=
  match ev with
  | EvGetQuote => dispatch get_quote sw
  | EvToggleFavorite => dispatch toggle_favorite sw
  | EvRemoveSelected index => dispatch (remove_selected index) sw
  | EvUseSelected index now => dispatch (use_selected index now) sw
  | EvRandomFavorite r now => dispatch (random_favorite r now) sw
  | EvQuit => dispatch quit_app_save sw
  | EvTimer =>
      match timers (fst sw) with
      | [] => sw
      | cb :: rest =>
          dispatch (update (with_timers rest) ;;; run_callback cb 0 "") sw
      end
  | EvThread i resp =>
      match nth_error (threads (fst sw)) i with
      | Some AtSchedule =>
          dispatch
            (_fetch_quote_schedule ;;;
             update (fun a => with_threads (set_nth i AtRequest (threads a)) a))
            sw
      | Some AtRequest =>
          dispatch
            (_fetch_quote_request resp ;;;
             update (fun a => with_threads (set_nth i Finished (threads a)) a))
            sw
      | _ => sw
      end
  | EvMainloop r now =>
      match after_queue (fst sw) with
      | [] => sw
      | cb :: rest =>
          dispatch
            (update (with_after_queue rest) ;;; run_callback cb r now)
            sw
      end
  end.

Fixpoint run (evs : list event) (sw : t * world) : t * world :=
  match evs with
  | [] => sw
  | ev :: evs' => run evs' (step ev sw)
  end.

(** The application once [__init__] has built the manager [m] and the
    widgets, before its own first [get_quote]. *)
Definition started (m : QuoteManager.t) : t :=
  {| quote_manager := m; is_loading := false;
     quote_text := "Click Kanye to get a quote!"; loading_text := "";
     favorite_indicator := false;
     stats_label := (List.length (QuoteManager.history m),
                     List.length (QuoteManager.favorites m));
     quote_button_enabled := true;
     after_queue := []; timers := []; threads := [] |}.

(** A fetch cycle is in flight: a thread has not finished, or the callback
    that completes a cycle is still queued. *)
Definition completes_cycle (cb : callback) : bool :=
  match cb with
  | CbDisplayQuote _ | CbHandleError _ => true
  | _ => false
  end.

Definition running (pc : thread_pc) : bool :=
  match pc with
  | Finished => false
  | _ => true
  end.

Definition in_flight (a : t) : bool :=
  existsb running (threads a) || existsb completes_cycle (after_queue a).

Definition fetches_started (a : t) : nat := List.length (threads a).

End KanyeQuoteApp.

(* ================================================================== *)
(** ** Vocabulary of the properties *)

Module Props.
Import Py IO.

(** Nothing stands in the way of a save: the directory can be made and
    both files can be written. *)
Definition unhindered (w : world) : bool :=
  mkdir_ok w &&
  match fav_fault w, hist_fault w with
  | NoFault, NoFault => true
  | _, _ => false
  end.

(** A persisted file that is missing or fails to parse. *)
Definition unusable {A : Type} (f : file A) : bool :=
  match f with
  | Absent | Garbage => true
  | _ => false
  end.

(** [exists()] answers for the file instead of raising. *)
Definition reachable {A : Type} (f : file A) : bool :=
  match f with
  | Unreachable => false
  | _ => true
  end.

(** Nothing stands in the way of [_load_data]: the directory is there or
    can be made, and the status of both files can be read. *)
Definition startable (w : world) : bool :=
  mkdir_ok w && reachable (favorites_file w) && reachable (history_file w).

(** Toggling [q] twice from the manager [m]: both calls return, the second
    result is the negation of the first, and [is_favorite q] answers as it
    did before the two calls. *)
Definition toggle_twice_restores (q : string) (m : QuoteManager.t) (w : world)
  : Prop :=
  exists (b1 b2 : bool) (m1 m2 : QuoteManager.t),
    QuoteManager.toggle_favorite q (m, w) = (Ok b1, (m1, w)) /\
    QuoteManager.toggle_favorite q (m1, w) = (Ok b2, (m2, w)) /\
    b2 = negb b1 /\
    fst (QuoteManager.is_favorite q (m2, w))
      = fst (QuoteManager.is_favorite q (m, w)).

(** A world with nothing on disk and nothing in the way. *)
Definition fresh_world : world :=
  {| mkdir_ok := true; fav_fault := NoFault; hist_fault := NoFault;
     favorites_file := Absent; history_file := Absent;
     writes := []; requests_made := 0; stdout := [] |}.

Definition with_favorites_file (f : file (list string)) (w : world) : world :=
  {| mkdir_ok := mkdir_ok w; fav_fault := fav_fault w;
     hist_fault := hist_fault w;
     favorites_file := f; history_file := history_file w;
     writes := writes w; requests_made := requests_made w;
     stdout := stdout w |}.

Definition with_history_file (f : file (list entry)) (w : world) : world :=
  {| mkdir_ok := mkdir_ok w; fav_fault := fav_fault w;
     hist_fault := hist_fault w;
     favorites_file := favorites_file w; history_file := f;
     writes := writes w; requests_made := requests_made w;
     stdout := stdout w |}.

Definition with_mkdir_ok (b : bool) (w : world) : world :=
  {| mkdir_ok := b; fav_fault := fav_fault w;
     hist_fault := hist_fault w;
     favorites_file := favorites_file w; history_file := history_file w;
     writes := writes w; requests_made := requests_made w;
     stdout := stdout w |}.

Definition with_faults (ff fh : write_fault) (w : world) : world :=
  {| mkdir_ok := mkdir_ok w; fav_fault := ff; hist_fault := fh;
     favorites_file := favorites_file w; history_file := history_file w;
     writes := writes w; requests_made := requests_made w;
     stdout := stdout w |}.

(** The manager once [add_to_history q] has run at time [now]. *)
Definition recorded (q now : string) (m : QuoteManager.t) : QuoteManager.t :=
  QuoteManager.with_current_quote q
    (QuoteManager.with_history
       (QuoteManager.history m ++ [ {| quote := q; timestamp := now |} ]) m).

(** Every parsed favorites file is free of duplicates. *)
Definition file_unique (f : file (list string)) : Prop :=
  forall v, f = Holds v -> NoDup v.

(** How one event may change the manager: it records a quote, or it
    leaves history and current quote alone and keeps the favorites, appends
    a text that was not among them, or removes one occurrence of a text. *)
Definition manager_move (m m' : QuoteManager.t) : Prop :=
  (exists q now, m' = recorded q now m) \/
  (QuoteManager.history m' = QuoteManager.history m /\
   QuoteManager.current_quote m' = QuoteManager.current_quote m /\
   (QuoteManager.favorites m' = QuoteManager.favorites m \/
    (exists q, ~ In q (QuoteManager.favorites m) /\
               QuoteManager.favorites m' = QuoteManager.favorites m ++ [q]) \/
    (exists q, list_remove q (QuoteManager.favorites m)
               = Some (QuoteManager.favorites m')))).

(** How one event may change the favorites file: not at all, cut short by
    a failed dump, or rewritten with the favorites in memory. *)
Definition file_move (m' : QuoteManager.t) (w w' : world) : Prop :=
  favorites_file w' = favorites_file w \/
  favorites_file w' = Garbage \/
  favorites_file w' = Holds (QuoteManager.favorites m').

(** The world [save_data] leaves behind, case by case. *)
Definition after_save (m : QuoteManager.t) (w : world) : world :=
  let say e := snd (print (String.append "Error saving data: " (exn_msg e)) w) in
  if mkdir_ok w then
    match fav_fault w with
    | NoFault =>
        let w1 := set_favorites_file (Holds (QuoteManager.favorites m)) w in
        match hist_fault w with
        | NoFault =>
            set_history_file
              (Holds (slice_last Config.HISTORY_KEPT (QuoteManager.history m))) w1
        | OpenFails =>
            snd (print "Error saving data: cannot open history.json" w1)
        | DumpFails =>
            snd (print "Error saving data: cannot write history.json"
                   (set_history_file Garbage w1))
        end
    | OpenFails => say (OSError "cannot open favorites.json")
    | DumpFails =>
        snd (print "Error saving data: cannot write favorites.json"
               (set_favorites_file Garbage w))
    end
  else say (OSError "cannot create the data directory").

(** What [QuoteManager()] returns when it returns. *)
Definition loaded (w : world) : QuoteManager.t :=
  {| QuoteManager.history :=
       match history_file w with Holds v => v | _ => [] end;
     QuoteManager.favorites :=
       match favorites_file w with Holds v => v | _ => [] end;
     QuoteManager.current_quote := "" |}.

(** A manager whose favorites hold the same text twice, as [_load_data]
    builds it from a favorites file that lists the text twice. *)
Definition twice_listed : QuoteManager.t :=
  {| QuoteManager.history := [];
     QuoteManager.favorites := ["A"; "A"];
     QuoteManager.current_quote := "" |}.

Definition twice_listed_world : world :=
  with_favorites_file (Holds ["A"; "A"]) fresh_world.

(** A manager with 52 history entries, to see the cut at 50. *)
Definition numbered (n : nat) : entry :=
  {| quote := String (ascii_of_nat (48 + n mod 10)) EmptyString;
     timestamp := "2024-01-01T00:00:00" |}.

Definition long_session : QuoteManager.t :=
  {| QuoteManager.history := map numbered (seq 0 52);
     QuoteManager.favorites := ["B"; "A"];
     QuoteManager.current_quote := "1" |}.

(** The events of one fetch cycle that nothing interleaves with: the call,
    the thread scheduling the indicator, the main loop showing it, the
    request with its outcome [resp], and the main loop running the callback
    the thread queued. *)
Definition fetch_cycle (resp : KanyeQuoteApp.response) (r : nat) (now : string)
  : list KanyeQuoteApp.event :=
  [ KanyeQuoteApp.EvGetQuote;
    KanyeQuoteApp.EvThread 0 resp;
    KanyeQuoteApp.EvMainloop 0 now;
    KanyeQuoteApp.EvThread 0 resp;
    KanyeQuoteApp.EvMainloop r now ].

(** The application right after start-up on an empty data directory. *)
Definition first_start : KanyeQuoteApp.t * world :=
  (KanyeQuoteApp.started QuoteManager.blank, fresh_world).

(** The history and the current quote of [m] continue those of [m0]: some
    entries were added, and the current quote is the last one added, or
    still that of [m0] when none was. *)
Definition continues (m0 m : QuoteManager.t) : Prop :=
  exists added,
    QuoteManager.history m = QuoteManager.history m0 ++ added /\
    QuoteManager.current_quote m
      = last (map quote added) (QuoteManager.current_quote m0).

(** What the two threads of an overlapping pair of fetches and the main
    loop do after both were started: each schedules the indicator, the main
    loop shows it twice, each thread gets its answer, and the main loop
    runs the two callbacks. *)
Definition overlapping_fetches : list KanyeQuoteApp.event :=
  [ KanyeQuoteApp.EvThread 0 KanyeQuoteApp.Timeout;
    KanyeQuoteApp.EvThread 1 KanyeQuoteApp.Timeout;
    KanyeQuoteApp.EvMainloop 0 "t0";
    KanyeQuoteApp.EvMainloop 0 "t0";
    KanyeQuoteApp.EvThread 0 (KanyeQuoteApp.Json (Some "a"));
    KanyeQuoteApp.EvThread 1 (KanyeQuoteApp.Json (Some "b"));
    KanyeQuoteApp.EvMainloop 0 "t1";
    KanyeQuoteApp.EvMainloop 0 "t2" ].

(** The fourth entry of the fallback corpus. *)
Definition fourth_fallback : string :=
  "I feel like I'm too busy writing history to read it.".

End Props.

(* ================================================================== *)
(** ** The clipboard and the browser: [copy_quote] and [share_quote] *)

Module Desktop.
Import Py IO.
Local Open Scope io_scope.

(** What the Tk clipboard calls will do. *)
Inductive tk_fault : Type :=
| TkOk          (* both calls go through *)
| ClearFails    (* [clipboard_clear] raises *)
| AppendFails.  (* [clipboard_append] raises after the clipboard was cleared *)

(** The desktop services the two handlers use. *)
Record env : Type := {
  pyperclip_works : bool;   (* [pyperclip.copy] finds a copy mechanism *)
  tk_clipboard : tk_fault;
  clipboard : string;       (* the text on the system clipboard *)
  opened : list string      (* the URLs handed to [webbrowser.open], oldest first *)
}.

Definition with_clipboard (text : string) (e : env) : env :=
  {| pyperclip_works := pyperclip_works e; tk_clipboard := tk_clipboard e;
     clipboard := text; opened := opened e |}.

Definition with_opened (urls : list string) (e : env) : env :=
  {| pyperclip_works := pyperclip_works e; tk_clipboard := tk_clipboard e;
     clipboard := clipboard e; opened := urls |}.

(** A handler that also reaches the desktop. *)
Definition action (A : Type) : Type := M ((KanyeQuoteApp.t * world) * env) A.

Definition on_app {A : Type} (h : KanyeQuoteApp.handler A) : action A :=
  fun s =>
    match h (fst s) with
    | (r, sw') => (r, (sw', snd s))
    end.

Definition on_env {A : Type} (c : M env A) : action A :=
  fun s =>
    match c (snd s) with
    | (r, e') => (r, (fst s, e'))
    end.

(** [pyperclip.copy(text)] *)
Definition pyperclip_copy (text : string) : M env unit :=
  fun e =>
    if pyperclip_works e then (Ok tt, with_clipboard text e)
    else (Raise (OSError "Pyperclip could not find a copy/paste mechanism"), e).

(** [self.window.clipboard_clear()] *)
Definition clipboard_clear : M env unit :=
  fun e =>
    match tk_clipboard e with
    | ClearFails => (Raise (OSError "TclError: clipboard_clear"), e)
    | _ => (Ok tt, with_clipboard "" e)
    end.

(** [self.window.clipboard_append(text)] *)
Definition clipboard_append (text : string) : M env unit :=
  fun e =>
    match tk_clipboard e with
    | TkOk => (Ok tt, with_clipboard (String.append (clipboard e) text) e)
    | _ => (Raise (OSError "TclError: clipboard_append"), e)
    end.

(** [webbrowser.open(url)] *)
Definition webbrowser_open (url : string) : M env unit :=
  modify (fun e => with_opened (opened e ++ [url]) e).

(** The characters [urllib.parse.quote] leaves as they are: letters, digits,
    [_.-~], and its default [safe] character, the slash. *)
Definition always_safe (c : ascii) : bool :=
  let n := nat_of_ascii c in
  (Nat.leb 65 n && Nat.leb n 90) || (Nat.leb 97 n && Nat.leb n 122) ||
  (Nat.leb 48 n && Nat.leb n 57) ||
  Nat.eqb n 95 || Nat.eqb n 46 || Nat.eqb n 45 || Nat.eqb n 126 ||
  Nat.eqb n 47.

(** One upper-case hexadecimal digit. *)
Definition hex_digit (n : nat) : ascii :=
  if Nat.ltb n 10 then ascii_of_nat (48 + n) else ascii_of_nat (55 + n).

(** [urllib.parse.quote_from_bytes(bs)]: every byte that is not always
    safe becomes a percent sign and two hexadecimal digits. *)
Fixpoint quote_from_bytes (s : string) : string :=
  match s with
  | EmptyString => EmptyString
  | String c s' =>
      if always_safe c then String c (quote_from_bytes s')
      else
        String "%"
          (String (hex_digit (nat_of_ascii c / 16))
             (String (hex_digit (nat_of_ascii c mod 16)) (quote_from_bytes s')))
  end.

(** The text holds a lone surrogate (as [json.loads] builds one from an
    unpaired escape such as [\ud800]): the byte 0xED followed by a byte
    from 0xA0 to 0xBF, a pair no UTF-8 text has. *)
Fixpoint has_lone_surrogate (s : string) : bool :=
  match s with
  | EmptyString => false
  | String c s' =>
      (Nat.eqb (nat_of_ascii c) 237 &&
       match s' with
       | String c' _ =>
           Nat.leb 160 (nat_of_ascii c') && Nat.leb (nat_of_ascii c') 191
       | EmptyString => false
       end)
      || has_lone_surrogate s'
  end.

(** [urllib.parse.quote(s)]: the text is first encoded with
    [s.encode('utf-8', 'strict')], which raises [UnicodeEncodeError], a
    [ValueError], on a lone surrogate; the bytes are then quoted. *)
Definition urllib_quote (s : string) : result string :=
  if has_lone_surrogate s then
    Raise (ValueError "'utf-8' codec can't encode character: surrogates not allowed")
  else Ok (quote_from_bytes s).

(** [copy_quote] *)
Definition copy_quote : action pyval :=
  a <- on_app KanyeQuoteApp.this ;;
  let q := QuoteManager.current_quote (KanyeQuoteApp.quote_manager a) in
  if negb (str_truthy q) then ret PyNone
  else
    let full_quote := String.append (quoted q) " - Kanye West" in
    try_except
      (on_env (pyperclip_copy full_quote) ;;;
       on_app (KanyeQuoteApp._flash_message "Copied to clipboard!"))
      (fun _ =>
         try_except
           (on_env clipboard_clear ;;;
            on_env (clipboard_append full_quote) ;;;
            on_app (KanyeQuoteApp._flash_message "Copied to clipboard!"))
           (fun _ => on_app (KanyeQuoteApp._flash_message "Could not copy"))) ;;;
    ret PyNone.

Definition TWEET_INTENT : string := "https://twitter.com/intent/tweet?text=".

(** [share_quote] *)
Definition share_quote : action pyval :=
  a <- on_app KanyeQuoteApp.this ;;
  let q := QuoteManager.current_quote (KanyeQuoteApp.quote_manager a) in
  if negb (str_truthy q) then ret PyNone
  else
    let tweet_text := String.append (quoted q) " - Kanye West #KanyeSays" in
    encoded_text <- lift (urllib_quote tweet_text) ;;
    let twitter_url := String.append TWEET_INTENT encoded_text in
    on_env (webbrowser_open twitter_url) ;;;
    on_app (KanyeQuoteApp._flash_message "Opening Twitter...") ;;;
    ret PyNone.

End Desktop.

(* ================================================================== *)
(** ** The favorites window of [show_favorites] *)

Module FavoritesWindow.
Import Py IO.
Local Open Scope io_scope.

(** The window: the rows of its listbox, and whether it was destroyed. *)
Record win : Type := {
  rows : list string;
  destroyed : bool
}.

Definition action (A : Type) : Type := M (win * (KanyeQuoteApp.t * world)) A.

Definition on_app {A : Type} (h : KanyeQuoteApp.handler A) : action A :=
  fun s =>
    match h (snd s) with
    | (r, sw') => (r, (fst s, sw'))
    end.

Definition on_win (f : win -> win) : action unit :=
  modify (fun s => (f (fst s), snd s)).

(** [str(n)] *)
Definition decimal (n : nat) : string :=
  NilEmpty.string_of_uint (Nat.to_uint n).

(** The row [f"{i}. {quote}"]. *)
Definition row_text (i : nat) (q : string) : string :=
  String.append (decimal i) (String.append ". " q).

(** [enumerate(l, start)] *)
Fixpoint enumerate {A : Type} (start : nat) (l : list A) : list (nat * A) :=
  match l with
  | [] => []
  | x :: l' => (start, x) :: enumerate (S start) l'
  end.

(** What [show_favorites] puts on the screen. *)
Inductive shown : Type :=
| MessageBox (title : string)
| Window (w : win).

(** [show_favorites], up to the widgets: the message box when there are no
    favorites, else the window with one numbered row for each favorite. *)
Definition show_favorites (a : KanyeQuoteApp.t) : shown :=
  match QuoteManager.favorites (KanyeQuoteApp.quote_manager a) with
  | [] => MessageBox "No Favorites"
  | favs =>
      Window {| rows := map (fun iq => row_text (fst iq) (snd iq))
                            (enumerate 1 favs);
                destroyed := false |}
  end.

(** [listbox.delete(index)] *)
Fixpoint delete_row {A : Type} (index : nat) (l : list A) : list A :=
  match l, index with
  | [], _ => []
  | _ :: l', 0 => l'
  | x :: l', S i => x :: delete_row i l'
  end.

Definition destroy : action unit :=
  on_win (fun v => {| rows := rows v; destroyed := true |}).

(** [use_selected]; [selection] is [listbox.curselection()]. *)
Definition use_selected (selection : option nat) (now : string) : action unit :=
  match selection with
  | None => ret tt
  | Some index =>
      a <- on_app KanyeQuoteApp.this ;;
      match nth_error (QuoteManager.favorites (KanyeQuoteApp.quote_manager a))
                      index with
      | None => raise (IndexError "list index out of range")
      | Some q =>
          on_app (KanyeQuoteApp._display_quote q now) ;;;
          destroy
      end
  end.

(** [remove_selected], with the listbox. *)
Definition remove_selected (selection : option nat) : action unit :=
  match selection with
  | None => ret tt
  | Some index =>
      a <- on_app KanyeQuoteApp.this ;;
      match nth_error (QuoteManager.favorites (KanyeQuoteApp.quote_manager a))
                      index with
      | None => raise (IndexError "list index out of range")
      | Some q =>
          match list_remove q (QuoteManager.favorites
                                 (KanyeQuoteApp.quote_manager a)) with
          | None => raise (ValueError "list.remove(x): x not in list")
          | Some l =>
              on_app (KanyeQuoteApp.on_manager (QuoteManager.set_favorites l)) ;;;
              on_app (KanyeQuoteApp.on_manager QuoteManager.save_data) ;;;
              on_win (fun v => {| rows := delete_row index (rows v);
                                  destroyed := destroyed v |}) ;;;
              on_app KanyeQuoteApp._update_stats
          end
      end
  end.

(** The Random Favorite button:
    [self._display_quote(self.quote_manager.get_random_favorite())
     or fav_window.destroy()]. *)
Definition random_favorite (r : nat) (now : string) : action unit :=
  q <- on_app (KanyeQuoteApp.on_manager (QuoteManager.get_random_favorite r)) ;;
  on_app (KanyeQuoteApp._display_quote q now) ;;;
  destroy.

End FavoritesWindow.

(* ================================================================== *)
(** ** Auto-refresh *)

Module AutoRefresh.
Import Py IO.
Local Open Scope io_scope.

(** The auto-refresh attributes and Tk's [after(10000, ...)] callbacks. *)
Record auto : Type := {
  auto_refresh_var : bool;          (* the checkbox variable *)
  auto_refresh_id : option nat;     (* [None], or the identifier [after] returned *)
  scheduled : list nat;             (* identifiers of the callbacks still to fire *)
  next_id : nat                     (* the identifier [after] hands out next *)
}.

Definition action (A : Type) : Type := M (auto * (KanyeQuoteApp.t * world)) A.

Definition on_app {A : Type} (h : KanyeQuoteApp.handler A) : action A :=
  fun s =>
    match h (snd s) with
    | (r, sw') => (r, (fst s, sw'))
    end.

Definition the_auto : action auto := fun s => (Ok (fst s), s).

Definition on_auto (f : auto -> auto) : action unit :=
  modify (fun s => (f (fst s), snd s)).

(** [self.window.after(10000, self._start_auto_refresh)] *)
Definition after10000 : action nat :=
  u <- the_auto ;;
  on_auto (fun u =>
    {| auto_refresh_var := auto_refresh_var u;
       auto_refresh_id := auto_refresh_id u;
       scheduled := scheduled u ++ [next_id u];
       next_id := S (next_id u) |}) ;;;
  ret (next_id u).

(** [self.window.after_cancel(id)] *)
Definition after_cancel (id : nat) : action unit :=
  on_auto (fun u =>
    {| auto_refresh_var := auto_refresh_var u;
       auto_refresh_id := auto_refresh_id u;
       scheduled := filter (fun j => negb (Nat.eqb j id)) (scheduled u);
       next_id := next_id u |}).

Definition set_auto_refresh_id (v : option nat) : action unit :=
  on_auto (fun u =>
    {| auto_refresh_var := auto_refresh_var u;
       auto_refresh_id := v;
       scheduled := scheduled u;
       next_id := next_id u |}).

(** [_start_auto_refresh] *)
Definition _start_auto_refresh : action unit :=
  on_app KanyeQuoteApp.get_quote ;;;
  id <- after10000 ;;
  set_auto_refresh_id (Some id).

(** [_stop_auto_refresh] *)
Definition _stop_auto_refresh : action unit :=
  u <- the_auto ;;
  match auto_refresh_id u with
  | Some id => after_cancel id ;;; set_auto_refresh_id None
  | None => ret tt
  end.

(** [_toggle_auto_refresh] *)
Definition _toggle_auto_refresh : action unit :=
  u <- the_auto ;;
  if auto_refresh_var u then _start_auto_refresh else _stop_auto_refresh.

(** [quit_app] in full, up to [window.quit()]. *)
Definition quit_app : action unit :=
  _stop_auto_refresh ;;;
  on_app (KanyeQuoteApp.on_manager QuoteManager.save_data).

Inductive event : Type :=
| EvCheckbox                        (* a click on the checkbox: the variable flips, then the command runs *)
| EvTick (id : nat)                 (* Tk fires the scheduled callback [id] *)
| EvQuitApp                         (* Escape or closing the window *)
| EvApp (ev : KanyeQuoteApp.event). (* any event of the application *)

Definition dispatch {A : Type} (h : action A)
           (s : auto * (KanyeQuoteApp.t * world)) : auto * (KanyeQuoteApp.t * world) :=
  snd (h s).

Definition step (ev : event) (s : auto * (KanyeQuoteApp.t * world))
  : auto * (KanyeQuoteApp.t * world) :=
  match ev with
  | EvCheckbox =>
      dispatch
        (on_auto (fun u =>
           {| auto_refresh_var := negb (auto_refresh_var u);
              auto_refresh_id := auto_refresh_id u;
              scheduled := scheduled u;
              next_id := next_id u |}) ;;;
         _toggle_auto_refresh) s
  | EvTick id =>
      if existsb (Nat.eqb id) (scheduled (fst s)) then
        dispatch
          (on_auto (fun u =>
             {| auto_refresh_var := auto_refresh_var u;
                auto_refresh_id := auto_refresh_id u;
                scheduled := filter (fun j => negb (Nat.eqb j id)) (scheduled u);
                next_id := next_id u |}) ;;;
           _start_auto_refresh) s
      else s
  | EvQuitApp => dispatch quit_app s
  | EvApp ev => (fst s, KanyeQuoteApp.step ev (snd s))
  end.

Fixpoint run (evs : list event) (s : auto * (KanyeQuoteApp.t * world))
  : auto * (KanyeQuoteApp.t * world) :=
  match evs with
  | [] => s
  | ev :: evs' => run evs' (step ev s)
  end.

(** The attributes as [__init__] sets them. *)
Definition initial : auto :=
  {| auto_refresh_var := false; auto_refresh_id := None;
     scheduled := []; next_id := 0 |}.

End AutoRefresh.

(* ================================================================== *)
(** ** Vocabulary of the further properties *)

Module Props2.
Import Py IO Props.

(** Storage holds what the manager has in memory: all favorites, and the
    last 50 entries of the history. *)
Definition synced (m : QuoteManager.t) (w : world) : Prop :=
  favorites_file w = Holds (QuoteManager.favorites m) /\
  history_file w = Holds (slice_last 50 (QuoteManager.history m)).

(** The statistics label shows the counts of the manager. *)
Definition stats_current (a : KanyeQuoteApp.t) : Prop :=
  KanyeQuoteApp.stats_label a =
    (List.length (QuoteManager.history (KanyeQuoteApp.quote_manager a)),
     List.length (QuoteManager.favorites (KanyeQuoteApp.quote_manager a))).

(** The heart tells whether the current quote is a favorite. *)
Definition indicator_current (a : KanyeQuoteApp.t) : Prop :=
  KanyeQuoteApp.favorite_indicator a =
    py_in (QuoteManager.current_quote (KanyeQuoteApp.quote_manager a))
          (QuoteManager.favorites (KanyeQuoteApp.quote_manager a)).

Definition is_removal (ev : KanyeQuoteApp.event) : bool :=
  match ev with
  | KanyeQuoteApp.EvRemoveSelected _ => true
  | _ => false
  end.

(** The event displays a favorite from the favorites window: Use This
    Quote on a row that is there, or Random Favorite. *)
Definition shows_favorite (ev : KanyeQuoteApp.event)
           (s : KanyeQuoteApp.t * world) : bool :=
  match ev with
  | KanyeQuoteApp.EvUseSelected index _ =>
      Nat.ltb index
        (List.length (QuoteManager.favorites (KanyeQuoteApp.quote_manager (fst s))))
  | KanyeQuoteApp.EvRandomFavorite _ _ => true
  | _ => false
  end.





(** Every character of [s] satisfies [p]. *)
Fixpoint all_chars (p : ascii -> bool) (s : string) : bool :=
  match s with
  | EmptyString => true
  | String c s' => p c && all_chars p s'
  end.

(** The characters of a percent-encoded text. *)
Definition url_char (c : ascii) : bool :=
  Desktop.always_safe c || Nat.eqb (nat_of_ascii c) 37.

(** Row [k] of the listbox shows favorite [k]: the rows are the favorites,
    each behind some number. *)
Definition rows_show (rows : list string) (favs : list string) : Prop :=
  exists numbers,
    List.length numbers = List.length favs /\
    rows = map (fun iq => FavoritesWindow.row_text (fst iq) (snd iq))
               (combine numbers favs).

(** At most one auto-refresh callback is scheduled, the one whose
    identifier is stored, and none when the box is not checked. *)
Definition one_timer (u : AutoRefresh.auto) : Prop :=
  AutoRefresh.scheduled u =
    match AutoRefresh.auto_refresh_id u with
    | Some id => [id]
    | None => []
    end /\
  (AutoRefresh.auto_refresh_var u = false -> AutoRefresh.auto_refresh_id u = None) /\
  (forall id, In id (AutoRefresh.scheduled u) -> id < AutoRefresh.next_id u).

(** A session with auto-refresh: the box is checked, the fetch this starts
    times out and a fallback quote is shown. *)
Definition auto_session : list AutoRefresh.event :=
  [ AutoRefresh.EvCheckbox;
    AutoRefresh.EvApp (KanyeQuoteApp.EvThread 0 KanyeQuoteApp.Timeout);
    AutoRefresh.EvApp (KanyeQuoteApp.EvMainloop 0 "t");
    AutoRefresh.EvApp (KanyeQuoteApp.EvThread 0 KanyeQuoteApp.Timeout);
    AutoRefresh.EvApp (KanyeQuoteApp.EvMainloop 3 "t") ].

(** The application after [_display_quote q] has run at time [now]. *)
Definition displayed (q now : string) (a : KanyeQuoteApp.t) : KanyeQuoteApp.t :=
  let m := recorded q now (KanyeQuoteApp.quote_manager a) in
  KanyeQuoteApp.with_stats_label
    (List.length (QuoteManager.history m), List.length (QuoteManager.favorites m))
    (KanyeQuoteApp.with_favorite_indicator (py_in q (QuoteManager.favorites m))
       (KanyeQuoteApp.with_quote_manager m
          (KanyeQuoteApp.with_quote_text (quoted q)
             (KanyeQuoteApp.with_loading_text ""
                (KanyeQuoteApp.with_loading false true a))))).

(** The application after the manager was replaced by [m'], the indicator
    and the statistics were refreshed and [message] was flashed. *)
Definition refreshed_with (m' : QuoteManager.t) (message : string)
           (a : KanyeQuoteApp.t) : KanyeQuoteApp.t :=
  KanyeQuoteApp.with_timers
    (KanyeQuoteApp.timers a ++ [KanyeQuoteApp.CbClearLoadingText])
    (KanyeQuoteApp.with_loading_text message
       (KanyeQuoteApp.with_stats_label
          (List.length (QuoteManager.history m'),
           List.length (QuoteManager.favorites m'))
          (KanyeQuoteApp.with_favorite_indicator
             (py_in (QuoteManager.current_quote m') (QuoteManager.favorites m'))
             (KanyeQuoteApp.with_quote_manager m' a)))).

(** The application after a removal in the favorites window left the
    favorites [l]. *)
Definition after_removal (l : list string) (a : KanyeQuoteApp.t) : KanyeQuoteApp.t :=
  let m' := QuoteManager.with_favorites l (KanyeQuoteApp.quote_manager a) in
  KanyeQuoteApp.with_stats_label
    (List.length (QuoteManager.history m'), List.length l)
    (KanyeQuoteApp.with_quote_manager m' a).

(** The mkdir and write faults of the world are those of [w]. *)
Definition same_faults (w w' : world) : Prop :=
  mkdir_ok w' = mkdir_ok w /\
  fav_fault w' = fav_fault w /\
  hist_fault w' = hist_fault w.

(** A flash message of [copy_quote]. *)
Definition flashed (message : string) (a : KanyeQuoteApp.t) : KanyeQuoteApp.t :=
  KanyeQuoteApp.with_timers
    (KanyeQuoteApp.timers a ++ [KanyeQuoteApp.CbClearLoadingText])
    (KanyeQuoteApp.with_loading_text message a).

(** The application after [_show_loading show]. *)
Definition shown_loading (show : bool) (a : KanyeQuoteApp.t) : KanyeQuoteApp.t :=
  if show then
    KanyeQuoteApp.with_loading_text "Loading..."
      (KanyeQuoteApp.with_quote_text "" (KanyeQuoteApp.with_loading true false a))
  else
    KanyeQuoteApp.with_loading_text "" (KanyeQuoteApp.with_loading false true a).

(** The world after one more request, with [lines] printed. *)
Definition requested (lines : list string) (w : world) : world :=
  {| mkdir_ok := mkdir_ok w; fav_fault := fav_fault w;
     hist_fault := hist_fault w;
     favorites_file := favorites_file w; history_file := history_file w;
     writes := writes w; requests_made := S (requests_made w);
     stdout := stdout w ++ lines |}.

(** What running a callback does. *)
Inductive cb_moves :
  KanyeQuoteApp.callback ->
  KanyeQuoteApp.t * world -> KanyeQuoteApp.t * world -> Prop :=
| cbm_show (show : bool) a w :
    cb_moves (KanyeQuoteApp.CbShowLoading show) (a, w) (shown_loading show a, w)
| cbm_display (q now : string) a w :
    cb_moves (KanyeQuoteApp.CbDisplayQuote q) (a, w)
      (displayed q now a,
       after_save (recorded q now (KanyeQuoteApp.quote_manager a)) w)
| cbm_error (e fallback now line : string) a w :
    In fallback Config.FALLBACK_QUOTES ->
    cb_moves (KanyeQuoteApp.CbHandleError e) (a, w)
      (displayed fallback now a, snd (print line w))
| cbm_clear a w :
    cb_moves KanyeQuoteApp.CbClearLoadingText (a, w)
      (KanyeQuoteApp.with_loading_text "" a, w).

(** The kinds of moves: a removal in the favorites window, a favorite
    displayed from that window, and the rest. *)
Inductive kind : Type :=
| Plain
| Removal
| Shown.

(** History entries a move of this kind adds without a request. *)
Definition unrequested (k : kind) : nat :=
  match k with
  | Shown => 1
  | _ => 0
  end.

(** What one event of the application does, case by case. *)
Inductive moves :
  kind -> KanyeQuoteApp.t * world -> KanyeQuoteApp.t * world -> Prop :=
| mv_nothing a w :
    moves Plain (a, w) (a, w)
| mv_get_quote a w :
    KanyeQuoteApp.is_loading a = false ->
    moves Plain (a, w)
      (KanyeQuoteApp.with_threads
         (KanyeQuoteApp.threads a ++ [KanyeQuoteApp.AtSchedule]) a, w)
| mv_schedule (i : nat) a w :
    nth_error (KanyeQuoteApp.threads a) i = Some KanyeQuoteApp.AtSchedule ->
    moves Plain (a, w)
      (KanyeQuoteApp.with_threads
         (KanyeQuoteApp.set_nth i KanyeQuoteApp.AtRequest (KanyeQuoteApp.threads a))
         (KanyeQuoteApp.with_after_queue
            (KanyeQuoteApp.after_queue a ++ [KanyeQuoteApp.CbShowLoading true]) a),
       w)
| mv_request (i : nat) (cb : KanyeQuoteApp.callback) (lines : list string) a w :
    nth_error (KanyeQuoteApp.threads a) i = Some KanyeQuoteApp.AtRequest ->
    KanyeQuoteApp.completes_cycle cb = true ->
    moves Plain (a, w)
      (KanyeQuoteApp.with_threads
         (KanyeQuoteApp.set_nth i KanyeQuoteApp.Finished (KanyeQuoteApp.threads a))
         (KanyeQuoteApp.with_after_queue (KanyeQuoteApp.after_queue a ++ [cb]) a),
       requested lines w)
| mv_mainloop (cb : KanyeQuoteApp.callback) (rest : list KanyeQuoteApp.callback)
              a w s' :
    KanyeQuoteApp.after_queue a = cb :: rest ->
    cb_moves cb (KanyeQuoteApp.with_after_queue rest a, w) s' ->
    moves Plain (a, w) s'
| mv_timer (cb : KanyeQuoteApp.callback) (rest : list KanyeQuoteApp.callback)
           a w s' :
    KanyeQuoteApp.timers a = cb :: rest ->
    cb_moves cb (KanyeQuoteApp.with_timers rest a, w) s' ->
    moves Plain (a, w) s'
| mv_toggle (b : bool) (m' : QuoteManager.t) a w :
    str_truthy (QuoteManager.current_quote (KanyeQuoteApp.quote_manager a)) = true ->
    QuoteManager.toggle_favorite
      (QuoteManager.current_quote (KanyeQuoteApp.quote_manager a))
      (KanyeQuoteApp.quote_manager a, w) = (Ok b, (m', w)) ->
    moves Plain (a, w)
      (refreshed_with m'
         (if b then "Added to favorites!" else "Removed from favorites") a,
       after_save m' w)
| mv_remove (index : nat) (q : string) (l : list string) a w :
    nth_error (QuoteManager.favorites (KanyeQuoteApp.quote_manager a)) index
      = Some q ->
    list_remove q (QuoteManager.favorites (KanyeQuoteApp.quote_manager a))
      = Some l ->
    moves Removal (a, w)
      (after_removal l a,
       after_save (QuoteManager.with_favorites l (KanyeQuoteApp.quote_manager a)) w)
| mv_shown (q now : string) a w :
    moves Shown (a, w)
      (displayed q now a,
       after_save (recorded q now (KanyeQuoteApp.quote_manager a)) w)
| mv_quit a w :
    moves Plain (a, w) (a, after_save (KanyeQuoteApp.quote_manager a) w).


(** The loading flag once the main loop has run every callback of
    [queue], starting from [flag]. *)
Definition flag_after (flag : bool) (queue : list KanyeQuoteApp.callback) : bool :=
  fold_left
    (fun f cb =>
       match cb with
       | KanyeQuoteApp.CbShowLoading show => show
       | KanyeQuoteApp.CbDisplayQuote _ | KanyeQuoteApp.CbHandleError _ => false
       | KanyeQuoteApp.CbClearLoadingText => f
       end)
    queue flag.

Definition at_request (pc : KanyeQuoteApp.thread_pc) : bool :=
  match pc with
  | KanyeQuoteApp.AtRequest => true
  | _ => false
  end.

(** The loading indicator is bound to come off: the button mirrors the
    flag, the timers only clear the flash text, nothing queued hides the
    indicator by itself, and unless a thread is at its request the queued
    callbacks leave the flag unset. *)
Definition settles (a : KanyeQuoteApp.t) : Prop :=
  KanyeQuoteApp.quote_button_enabled a = negb (KanyeQuoteApp.is_loading a) /\
  Forall (fun cb => cb = KanyeQuoteApp.CbClearLoadingText) (KanyeQuoteApp.timers a) /\
  Forall (fun cb => cb <> KanyeQuoteApp.CbShowLoading false)
         (KanyeQuoteApp.after_queue a) /\
  (existsb at_request (KanyeQuoteApp.threads a) = false ->
   flag_after (KanyeQuoteApp.is_loading a) (KanyeQuoteApp.after_queue a) = false).

End Props2.

(* ================================================================== *)
(** * Properties *)

(** ** Facts about the Python primitives *)

Section PyFacts.
Import Py.

Lemma py_in_In (x : string) (l : list string) :
  py_in x l = true <-> In x l.
Proof.
  induction l as [|y l IH]; simpl.
  - split; [discriminate | tauto].
  - destruct (String.eqb_spec y x) as [Hyx|Hne].
    + split; auto.
    + rewrite IH. split; [auto | intros [H|H]; [congruence | exact H]].
Qed.

Lemma py_in_false (x : string) (l : list string) :
  py_in x l = false <-> ~ In x l.
Proof.
  rewrite <- py_in_In. destruct (py_in x l); split; congruence.
Qed.

Lemma py_in_app_self (x : string) (l : list string) :
  py_in x (l ++ [x]) = true.
Proof. apply py_in_In, in_or_app. right. simpl. auto. Qed.

(** [l.remove(x)] raises exactly when [x] is not in [l]. *)
Lemma list_remove_None (x : string) (l : list string) :
  list_remove x l = None <-> ~ In x l.
Proof.
  induction l as [|y l IH]; simpl.
  - tauto.
  - destruct (String.eqb_spec y x) as [Hyx|Hne].
    + split; [discriminate | intros H; exfalso; auto].
    + destruct (list_remove x l).
      * split; [discriminate|]. intros H. exfalso.
        assert (Some l0 = None) by (apply IH; tauto). discriminate.
      * split; auto. intros _ [H|H]; [congruence|]. apply IH in H; auto.
Qed.

(** What is left after [l.remove(x)]: one occurrence of [x] fewer, every
    other string as often as before. *)
Lemma list_remove_count (x y : string) (l r : list string) :
  list_remove x l = Some r ->
  count_occ string_dec r y =
    if String.eqb x y then count_occ string_dec l y - 1
    else count_occ string_dec l y.
Proof.
  revert r. induction l as [|z l IH]; simpl; intros r H; [discriminate|].
  destruct (String.eqb_spec z x) as [Hzx|Hzx].
  - injection H as <-. subst z.
    destruct (String.eqb_spec x y) as [Hxy|Hxy];
      destruct (string_dec x y); try congruence; lia.
  - destruct (list_remove x l) as [r'|]; [|discriminate].
    injection H as <-. specialize (IH r' eq_refl). simpl.
    destruct (String.eqb_spec x y) as [Hxy|Hxy];
      destruct (string_dec z y); try congruence; lia.
Qed.

Lemma list_remove_subset (x y : string) (l r : list string) :
  list_remove x l = Some r -> In y r -> In y l.
Proof.
  revert r. induction l as [|z l IH]; simpl; intros r H; [discriminate|].
  destruct (String.eqb z x).
  - injection H as <-. intros E. right. exact E.
  - destruct (list_remove x l) as [r'|]; [|discriminate].
    injection H as <-. simpl. intros [E|E]; [left; exact E|].
    right. exact (IH r' eq_refl E).
Qed.

Lemma list_remove_others (x y : string) (l r : list string) :
  list_remove x l = Some r -> y <> x -> In y l -> In y r.
Proof.
  revert r. induction l as [|z l IH]; simpl; intros r H Hne; [discriminate|].
  destruct (String.eqb_spec z x) as [Hzx|Hzx].
  - injection H as <-. intros [E|E]; [congruence | exact E].
  - destruct (list_remove x l) as [r'|]; [|discriminate].
    injection H as <-. simpl. intros [E|E]; [left; exact E|].
    right. exact (IH r' eq_refl Hne E).
Qed.

Lemma list_remove_NoDup (x : string) (l r : list string) :
  list_remove x l = Some r -> NoDup l -> NoDup r /\ ~ In x r.
Proof.
  revert r. induction l as [|z l IH]; simpl; intros r H Hnd; [discriminate|].
  inversion Hnd as [|? ? Hz Hl]; subst.
  destruct (String.eqb_spec z x) as [Hzx|Hzx].
  - injection H as <-. subst z. split; assumption.
  - destruct (list_remove x l) as [r'|] eqn:E; [|discriminate].
    injection H as <-. destruct (IH r' eq_refl Hl) as [Hr Hx]. split.
    + constructor; [|exact Hr]. intro Hin. apply Hz.
      eapply list_remove_subset; eauto.
    + simpl. intros [F|F]; [congruence | auto].
Qed.

Lemma NoDup_snoc (x : string) (l : list string) :
  NoDup l -> ~ In x l -> NoDup (l ++ [x]).
Proof.
  intros Hl Hx. apply NoDup_app; [exact Hl | repeat constructor; simpl; tauto |].
  intros a Ha [<-|[]]. auto.
Qed.

Lemma py_in_count (x : string) (l : list string) :
  py_in x l = true <-> 0 < count_occ string_dec l x.
Proof. rewrite py_in_In. apply count_occ_In. Qed.

Lemma slice_last_length {A : Type} (n : nat) (l : list A) :
  List.length (slice_last n l) = Nat.min n (List.length l).
Proof. unfold slice_last. rewrite length_skipn. lia. Qed.

(** [l[-n:]] is what is left of [l] after its oldest elements. *)
Lemma slice_last_suffix {A : Type} (n : nat) (l : list A) :
  l = firstn (List.length l - n) l ++ slice_last n l.
Proof. unfold slice_last. symmetry. apply firstn_skipn. Qed.

Lemma slice_last_short {A : Type} (n : nat) (l : list A) :
  List.length l <= n -> slice_last n l = l.
Proof.
  intros H. unfold slice_last.
  replace (List.length l - n) with 0 by lia. reflexivity.
Qed.

Lemma random_choice_In {A : Type} (r : nat) (l : list A) (x : A) :
  random_choice r l = Some x -> In x l.
Proof.
  unfold random_choice. destruct l; [discriminate|]. apply nth_error_In.
Qed.

Lemma random_choice_nonempty {A : Type} (r : nat) (l : list A) :
  l <> [] -> exists x, random_choice r l = Some x.
Proof.
  intros H. unfold random_choice. destruct l as [|a l]; [congruence|].
  destruct (nth_error (a :: l) (r mod List.length (a :: l))) eqn:E; eauto.
  apply nth_error_None in E.
  pose proof (Nat.mod_upper_bound r (List.length (a :: l))) as B.
  simpl in *. lia.
Qed.

End PyFacts.

(** ** The methods of the manager, as equations *)

Section ManagerFacts.
Import Py IO Props.

Lemma add_to_history_run (q now : string) (m : QuoteManager.t) (w : world) :
  QuoteManager.add_to_history q now (m, w) =
    (Ok tt,
     (QuoteManager.with_current_quote q
        (QuoteManager.with_history
           (QuoteManager.history m ++ [ {| quote := q; timestamp := now |} ]) m),
      w)).
Proof. reflexivity. Qed.

Lemma is_favorite_run (q : string) (m : QuoteManager.t) (w : world) :
  QuoteManager.is_favorite q (m, w) =
    (Ok (py_in q (QuoteManager.favorites m)), (m, w)).
Proof. reflexivity. Qed.

Lemma toggle_favorite_run (q : string) (m : QuoteManager.t) (w : world) :
  QuoteManager.toggle_favorite q (m, w) =
    if py_in q (QuoteManager.favorites m) then
      match list_remove q (QuoteManager.favorites m) with
      | Some l => (Ok false, (QuoteManager.with_favorites l m, w))
      | None => (Raise (ValueError "list.remove(x): x not in list"), (m, w))
      end
    else
      (Ok true,
       (QuoteManager.with_favorites (QuoteManager.favorites m ++ [q]) m, w)).
Proof.
  unfold QuoteManager.toggle_favorite, bind, QuoteManager.self. simpl.
  destruct (py_in q (QuoteManager.favorites m)); [|reflexivity].
  destruct (list_remove q (QuoteManager.favorites m)); reflexivity.
Qed.

(** The guard of [toggle_favorite] keeps [list.remove] from raising. *)
Lemma toggle_favorite_returns (q : string) (m : QuoteManager.t) (w : world) :
  exists b m', QuoteManager.toggle_favorite q (m, w) = (Ok b, (m', w)).
Proof.
  rewrite toggle_favorite_run.
  destruct (py_in q (QuoteManager.favorites m)) eqn:E; [|eauto].
  destruct (list_remove q (QuoteManager.favorites m)) eqn:R; [eauto|].
  apply list_remove_None in R. apply py_in_In in E. contradiction.
Qed.

Lemma list_remove_snoc_fresh (q : string) (l : list string) :
  ~ In q l -> list_remove q (l ++ [q]) = Some l.
Proof.
  induction l as [|y l IH]; simpl; intros H.
  - rewrite String.eqb_refl. reflexivity.
  - destruct (String.eqb_spec y q) as [E|E]; [tauto|].
    rewrite IH by tauto. reflexivity.
Qed.

Lemma with_favorites_same (m : QuoteManager.t) :
  QuoteManager.with_favorites (QuoteManager.favorites m) m = m.
Proof. destruct m. reflexivity. Qed.

Lemma save_data_run (m : QuoteManager.t) (w : world) :
  QuoteManager.save_data (m, w) = (Ok tt, (m, after_save m w)).
Proof.
  unfold QuoteManager.save_data, after_save, try_except, bind, in_world,
    mkdir_DATA_DIR, dump_favorites, dump_history, QuoteManager.self.
  destruct w as [d ff fh f h ws n out]. simpl.
  destruct d; simpl; [|reflexivity].
  destruct ff; simpl; try reflexivity.
  destruct fh; simpl; reflexivity.
Qed.

Lemma snoc_neq {A : Type} (l : list A) (x : A) : l ++ [x] <> l.
Proof.
  intros H. apply (f_equal (@List.length A)) in H.
  rewrite length_app in H. simpl in H. lia.
Qed.

(** A save prints nothing exactly when nothing stood in its way. *)
Lemma save_data_silent (m : QuoteManager.t) (w : world) :
  stdout (after_save m w) = stdout w <-> unhindered w = true.
Proof.
  unfold after_save, unhindered.
  destruct (mkdir_ok w), (fav_fault w), (hist_fault w); simpl;
    split; intros H; try reflexivity; try discriminate;
    exfalso; eapply snoc_neq; exact H.
Qed.

Lemma new_run (w : world) :
  QuoteManager.new w =
    if startable w then (Ok (loaded w), w)
    else (Raise (OSError (if mkdir_ok w then "Permission denied"
                          else "cannot create the data directory")), w).
Proof.
  unfold QuoteManager.new, QuoteManager.__init__, QuoteManager._load_data,
    loaded, startable, bind, try_except, in_world, mkdir_DATA_DIR,
    favorites_exists, history_exists, load_favorites,
    load_history, QuoteManager.set_history, QuoteManager.set_favorites,
    QuoteManager.set_current_quote, modify, get, ret.
  destruct w as [d ff fh f h ws n out]. simpl.
  destruct d; simpl; [|reflexivity].
  destruct f, h; reflexivity.
Qed.

Lemma new_returns (w w' : world) (m : QuoteManager.t) :
  QuoteManager.new w = (Ok m, w') ->
  startable w = true /\ m = loaded w /\ w' = w.
Proof.
  rewrite new_run. destruct (startable w); [|discriminate].
  intros H. injection H as <- <-. repeat split.
Qed.

Lemma get_random_favorite_returns (r : nat) (m : QuoteManager.t) (w : world) :
  exists q,
    QuoteManager.get_random_favorite r (m, w) = (Ok q, (m, w)) /\
    (QuoteManager.favorites m = [] -> q = "") /\
    (QuoteManager.favorites m <> [] -> In q (QuoteManager.favorites m)).
Proof.
  unfold QuoteManager.get_random_favorite, bind, QuoteManager.self, ret.
  simpl. destruct (QuoteManager.favorites m) as [|x l] eqn:F.
  - exists "". repeat split. congruence.
  - destruct (@random_choice_nonempty string r (x :: l)) as [q E];
      [discriminate|].
    exists q. rewrite E. repeat split; [discriminate|].
    intros _. exact (random_choice_In _ _ E).
Qed.

End ManagerFacts.

(* ================================================================== *)
(** ** Toggling a favorite twice *)

Section ToggleTwice.
Import Py IO Props.

(** C3, as amended: for every quote [q] and every favorites list in which
    [q] occurs at most once (every duplicate-free list in particular), two
    successive calls of [toggle_favorite q] both return, the second result
    is the negation of the first, and [is_favorite q] is back to its
    original answer. *)
Theorem toggle_favorite_twice (q : string) (m : QuoteManager.t) (w : world) :
  count_occ string_dec (QuoteManager.favorites m) q <= 1 ->
  toggle_twice_restores q m w.
Proof.
  intros Hc. unfold toggle_twice_restores.
  destruct (py_in q (QuoteManager.favorites m)) eqn:E.
  - (* q is a favorite: removed, then appended again *)
    destruct (list_remove q (QuoteManager.favorites m)) as [l|] eqn:R.
    + assert (Hl : py_in q l = false).
      { pose proof (@list_remove_count q q _ _ R) as C.
        rewrite String.eqb_refl in C.
        destruct (py_in q l) eqn:P; [|reflexivity].
        apply py_in_count in P. lia. }
      exists false, true, (QuoteManager.with_favorites l m),
        (QuoteManager.with_favorites (l ++ [q]) (QuoteManager.with_favorites l m)).
      repeat split.
      * rewrite toggle_favorite_run, E, R. reflexivity.
      * rewrite toggle_favorite_run. simpl. rewrite Hl. reflexivity.
      * rewrite !is_favorite_run. simpl. rewrite py_in_app_self, E.
        reflexivity.
    + apply list_remove_None in R. apply py_in_In in E. contradiction.
  - (* q is not a favorite: appended, then removed again *)
    assert (Hn : ~ In q (QuoteManager.favorites m)) by (apply py_in_false, E).
    exists true, false,
      (QuoteManager.with_favorites (QuoteManager.favorites m ++ [q]) m), m.
    repeat split.
    + rewrite toggle_favorite_run, E. reflexivity.
    + rewrite toggle_favorite_run. simpl.
      rewrite py_in_app_self, (@list_remove_snoc_fresh q _ Hn).
      destruct m; reflexivity.
Qed.

Lemma toggle_favorite_twice_witness :
  toggle_twice_restores "A"
    {| QuoteManager.history := [];
       QuoteManager.favorites := ["B"; "A"];
       QuoteManager.current_quote := "A" |} fresh_world.
Proof.
  apply toggle_favorite_twice. simpl. lia.
Defined.

(** The bound of the amended claim is exact: with two or more occurrences
    of [q] both calls remove one and both return [False]. *)
Lemma toggle_favorite_twice_only_if (q : string) (m : QuoteManager.t) (w : world) :
  toggle_twice_restores q m w ->
  count_occ string_dec (QuoteManager.favorites m) q <= 1.
Proof.
  intros (b1 & b2 & m1 & m2 & H1 & H2 & Hb & _).
  rewrite toggle_favorite_run in H1.
  destruct (py_in q (QuoteManager.favorites m)) eqn:E.
  - destruct (list_remove q (QuoteManager.favorites m)) as [l|] eqn:R;
      [|discriminate].
    injection H1 as <- <-. rewrite toggle_favorite_run in H2. simpl in H2.
    destruct (py_in q l) eqn:P.
    + destruct (list_remove q l); [|discriminate].
      injection H2 as <- _. discriminate.
    + pose proof (@list_remove_count q q _ _ R) as C.
      rewrite String.eqb_refl in C.
      assert (~ 0 < count_occ string_dec l q).
      { intro H. apply py_in_count in H. congruence. }
      lia.
  - assert (~ 0 < count_occ string_dec (QuoteManager.favorites m) q).
    { intro H. apply py_in_count in H. congruence. }
    lia.
Qed.

(** C3 as stated fails: the manager built from a favorites file that lists
    "A" twice answers [False] to both calls and ends with "A" no longer a
    favorite. *)
Lemma toggle_favorite_twice_counterexample :
  QuoteManager.new twice_listed_world = (Ok twice_listed, twice_listed_world) /\
  QuoteManager.toggle_favorite "A" (twice_listed, twice_listed_world)
    = (Ok false, (QuoteManager.with_favorites ["A"] twice_listed,
                  twice_listed_world)) /\
  QuoteManager.toggle_favorite "A"
    (QuoteManager.with_favorites ["A"] twice_listed, twice_listed_world)
    = (Ok false, (QuoteManager.with_favorites [] twice_listed,
                  twice_listed_world)) /\
  ~ toggle_twice_restores "A" twice_listed twice_listed_world.
Proof.
  repeat split; try reflexivity.
  intros H. apply toggle_favorite_twice_only_if in H. simpl in H. lia.
Qed.

End ToggleTwice.

(* ================================================================== *)
(** ** Saving and loading *)

Section Persistence.
Import Py IO Props.

(** C4: whatever the history in memory, [save_data] hands [json.dump] at
    most 50 entries, and they are the newest ones in their order: the
    history is some dropped older entries followed by the kept ones, and
    entries are dropped only when 50 are kept.  The history file then holds
    the kept entries; when an I/O error stopped the save, it was left alone
    or cut short instead. *)
Theorem save_data_history_window (m : QuoteManager.t) (w : world) :
  let kept := slice_last 50 (QuoteManager.history m) in
  let w' := snd (snd (QuoteManager.save_data (m, w))) in
  List.length kept <= 50 /\
  (exists dropped,
      QuoteManager.history m = dropped ++ kept /\
      (dropped <> [] -> List.length kept = 50)) /\
  (history_file w' = Holds kept \/
   history_file w' = Garbage \/
   history_file w' = history_file w) /\
  (unhindered w = true -> history_file w' = Holds kept).
Proof.
  cbv zeta. rewrite save_data_run. simpl. repeat split.
  - rewrite slice_last_length. lia.
  - exists (firstn (List.length (QuoteManager.history m) - 50)
              (QuoteManager.history m)).
    split; [apply slice_last_suffix|].
    intros Hne. rewrite slice_last_length.
    destruct (Nat.le_gt_cases (List.length (QuoteManager.history m)) 50)
      as [Hle|Hgt]; [|lia].
    exfalso. apply Hne.
    replace (List.length (QuoteManager.history m) - 50) with 0 by lia.
    reflexivity.
  - unfold after_save.
    destruct (mkdir_ok w), (fav_fault w), (hist_fault w); simpl; auto.
  - unfold after_save, unhindered.
    destruct (mkdir_ok w), (fav_fault w), (hist_fault w); simpl;
      intros H; try discriminate; reflexivity.
Qed.

(** C5: after a save that nothing hindered, the two files hold the
    favorites and the last 50 history entries, and a manager constructed
    from the same storage has exactly these favorites and this history,
    values and order. *)
Theorem persist_then_reload (m : QuoteManager.t) (w : world) :
  unhindered w = true ->
  let w' := snd (snd (QuoteManager.save_data (m, w))) in
  favorites_file w' = Holds (QuoteManager.favorites m) /\
  history_file w' = Holds (slice_last 50 (QuoteManager.history m)) /\
  exists m',
    QuoteManager.new w' = (Ok m', w') /\
    QuoteManager.favorites m' = QuoteManager.favorites m /\
    QuoteManager.history m' = slice_last 50 (QuoteManager.history m).
Proof.
  intros H. cbv zeta. rewrite save_data_run. simpl.
  unfold unhindered in H. unfold after_save.
  destruct (mkdir_ok w) eqn:D; [|discriminate].
  destruct (fav_fault w); try discriminate.
  destruct (hist_fault w); try discriminate.
  simpl. repeat split.
  rewrite new_run. unfold startable. simpl. rewrite D. simpl.
  eexists. split; [reflexivity|]. split; reflexivity.
Qed.

Lemma persist_then_reload_witness :
  let w' := snd (snd (QuoteManager.save_data (long_session, fresh_world))) in
  favorites_file w' = Holds ["B"; "A"] /\
  history_file w' = Holds (map numbered (seq 2 50)) /\
  exists m',
    QuoteManager.new w' = (Ok m', w') /\
    QuoteManager.favorites m' = ["B"; "A"] /\
    QuoteManager.history m' = map numbered (seq 2 50).
Proof.
  exact (persist_then_reload long_session fresh_world eq_refl).
Defined.

(** C6, as amended: whenever the data directory exists or can be created
    and [exists()] can read the status of both file paths, construction
    succeeds and leaves storage as it was; a favorites or history file that
    is missing or does not parse gives an empty favorites list or history,
    and a file that parses gives its content.  Construction fails only
    where [mkdir] or [exists()] raises, never because a file is missing or
    corrupt. *)
Theorem construction_tolerates_bad_files (w : world) :
  mkdir_ok w = true ->
  reachable (favorites_file w) = true ->
  reachable (history_file w) = true ->
  exists m,
    QuoteManager.new w = (Ok m, w) /\
    (unusable (favorites_file w) = true -> QuoteManager.favorites m = []) /\
    (unusable (history_file w) = true -> QuoteManager.history m = []) /\
    (forall v, favorites_file w = Holds v -> QuoteManager.favorites m = v) /\
    (forall v, history_file w = Holds v -> QuoteManager.history m = v).
Proof.
  intros D Rf Rh. exists (loaded w). rewrite new_run.
  unfold startable. rewrite D, Rf, Rh. split; [reflexivity|].
  unfold loaded, unusable. simpl.
  repeat split.
  - destruct (favorites_file w); try reflexivity; discriminate.
  - destruct (history_file w); try reflexivity; discriminate.
  - intros v ->. reflexivity.
  - intros v ->. reflexivity.
Qed.

Lemma construction_tolerates_bad_files_witness :
  exists m,
    QuoteManager.new (with_favorites_file Garbage fresh_world)
      = (Ok m, with_favorites_file Garbage fresh_world) /\
    (true = true -> QuoteManager.favorites m = []) /\
    (true = true -> QuoteManager.history m = []) /\
    (forall v, Garbage = Holds v -> QuoteManager.favorites m = v) /\
    (forall v, Absent = Holds v -> QuoteManager.history m = v).
Proof.
  exact (construction_tolerates_bad_files
           (with_favorites_file Garbage fresh_world)
           eq_refl eq_refl eq_refl).
Defined.

(** Construction raises exactly when the directory cannot be created or
    the status of one of the two paths cannot be read, whatever the files
    hold; the world is left as it was. *)
Lemma construction_raises_iff (w : world) :
  (exists e, QuoteManager.new w = (Raise e, w)) <->
  (mkdir_ok w = false \/ reachable (favorites_file w) = false \/
   reachable (history_file w) = false).
Proof.
  rewrite new_run. unfold startable.
  destruct (mkdir_ok w), (reachable (favorites_file w)),
    (reachable (history_file w)); simpl; split;
    try (intros [e H]; discriminate);
    try (intros [H|[H|H]]; discriminate);
    try (intros _; eexists; reflexivity);
    try (intros _; auto).
Qed.

(** A data directory that is there but may not be searched: [mkdir] is
    content, the first [exists()] raises, and no manager is built. *)
Example construction_fails_on_closed_directory :
  QuoteManager.new
    (with_favorites_file Unreachable
       (with_history_file Unreachable fresh_world))
  = (Raise (OSError "Permission denied"),
     with_favorites_file Unreachable
       (with_history_file Unreachable fresh_world)).
Proof. reflexivity. Qed.

(** C6 as stated fails: with both files missing and a data directory that
    cannot be created, [_load_data] raises at its first statement and no
    manager is constructed. *)
Lemma construction_fails_without_directory :
  unusable (favorites_file (with_mkdir_ok false fresh_world)) = true /\
  unusable (history_file (with_mkdir_ok false fresh_world)) = true /\
  QuoteManager.new (with_mkdir_ok false fresh_world)
    = (Raise (OSError "cannot create the data directory"),
       with_mkdir_ok false fresh_world).
Proof. repeat split. Qed.

(** C7: [save_data] returns normally on every world; the manager in memory
    is the one it was called on; after a save that nothing hindered nothing
    was printed, and otherwise exactly one line, the diagnostic with the
    message of the exception, was printed. *)
Theorem save_data_never_raises (m : QuoteManager.t) (w : world) :
  exists w',
    QuoteManager.save_data (m, w) = (Ok tt, (m, w')) /\
    (unhindered w = true -> stdout w' = stdout w) /\
    (unhindered w = false ->
     exists e,
       stdout w' = stdout w ++ [String.append "Error saving data: " (exn_msg e)]).
Proof.
  exists (after_save m w). split; [apply save_data_run|]. split.
  - apply save_data_silent.
  - unfold unhindered, after_save.
    destruct (mkdir_ok w), (fav_fault w), (hist_fault w); simpl;
      intros H; try discriminate;
      solve [ exists (OSError "cannot create the data directory"); reflexivity
            | exists (OSError "cannot open favorites.json"); reflexivity
            | exists (OSError "cannot write favorites.json"); reflexivity
            | exists (OSError "cannot open history.json"); reflexivity
            | exists (OSError "cannot write history.json"); reflexivity ].
Qed.

(** A save whose history file cannot be opened: the favorites file is
    written, the history file keeps its old content, one line is printed,
    and the call returns normally. *)
Example save_data_with_unwritable_history :
  let w := with_faults NoFault OpenFails
             (with_history_file (Holds [numbered 1]) fresh_world) in
  let out := QuoteManager.save_data (long_session, w) in
  fst out = Ok tt /\
  fst (snd out) = long_session /\
  favorites_file (snd (snd out)) = Holds ["B"; "A"] /\
  history_file (snd (snd out)) = Holds [numbered 1] /\
  writes (snd (snd out)) = [FAVORITES_FILE] /\
  stdout (snd (snd out)) = ["Error saving data: cannot open history.json"].
Proof. cbv zeta. repeat split. Qed.

End Persistence.

(* ================================================================== *)
(** ** The handlers of the application *)

Section HandlerFacts.
Import Py IO Props.

Arguments QuoteManager.save_data : simpl never.
Arguments random_choice : simpl never.
Arguments slice_last : simpl never.
Arguments after_save : simpl never.

(** Unfold the plumbing of the monad and of the small handlers, leaving
    [save_data], [toggle_favorite] and [random_choice] folded. *)
Ltac plumb :=
  cbv beta iota zeta delta
    [bind ret raise try_except get put modify in_world fst snd print
     KanyeQuoteApp.this KanyeQuoteApp.update KanyeQuoteApp.on_manager
     KanyeQuoteApp.after0 KanyeQuoteApp.after1500
     KanyeQuoteApp._update_stats KanyeQuoteApp._show_loading
     KanyeQuoteApp._update_favorite_indicator KanyeQuoteApp._flash_message
     KanyeQuoteApp.dispatch
     QuoteManager.is_favorite QuoteManager.add_to_history QuoteManager.self
     QuoteManager.set_history QuoteManager.set_favorites
     QuoteManager.set_current_quote].

Lemma with_quote_manager_same (a : KanyeQuoteApp.t) :
  KanyeQuoteApp.with_quote_manager (KanyeQuoteApp.quote_manager a) a = a.
Proof. destruct a. reflexivity. Qed.

Lemma on_manager_save_data (a : KanyeQuoteApp.t) (w : world) :
  KanyeQuoteApp.on_manager QuoteManager.save_data (a, w) =
    (Ok tt, (a, after_save (KanyeQuoteApp.quote_manager a) w)).
Proof.
  plumb. rewrite save_data_run. rewrite with_quote_manager_same.
  reflexivity.
Qed.

(** [_show_loading] touches the flag, the button and two canvas texts. *)
Lemma show_loading_run (show : bool) (a : KanyeQuoteApp.t) (w : world) :
  exists a',
    KanyeQuoteApp._show_loading show (a, w) = (Ok tt, (a', w)) /\
    KanyeQuoteApp.quote_manager a' = KanyeQuoteApp.quote_manager a /\
    KanyeQuoteApp.is_loading a' = show /\
    KanyeQuoteApp.after_queue a' = KanyeQuoteApp.after_queue a /\
    KanyeQuoteApp.timers a' = KanyeQuoteApp.timers a /\
    KanyeQuoteApp.threads a' = KanyeQuoteApp.threads a.
Proof.
  destruct show; eexists; (split; [reflexivity|]); simpl; auto.
Qed.

(** [_display_quote] records the quote and saves. *)
Lemma display_quote_run (q now : string) (a : KanyeQuoteApp.t) (w : world) :
  exists a',
    KanyeQuoteApp._display_quote q now (a, w)
      = (Ok tt,
         (a', after_save (recorded q now (KanyeQuoteApp.quote_manager a)) w)) /\
    KanyeQuoteApp.quote_manager a' = recorded q now (KanyeQuoteApp.quote_manager a) /\
    KanyeQuoteApp.is_loading a' = false /\
    KanyeQuoteApp.after_queue a' = KanyeQuoteApp.after_queue a /\
    KanyeQuoteApp.timers a' = KanyeQuoteApp.timers a /\
    KanyeQuoteApp.threads a' = KanyeQuoteApp.threads a.
Proof.
  destruct a as [m ld qt lt fi sl qb aq tm th].
  unfold KanyeQuoteApp._display_quote. plumb. simpl.
  rewrite save_data_run. plumb. simpl.
  eexists. split; [reflexivity|]. simpl. auto.
Qed.

(** [_handle_error] records a quote of the corpus and prints; it opens no
    file. *)
Lemma handle_error_run (error_type : string) (r : nat) (now : string)
      (a : KanyeQuoteApp.t) (w : world) :
  exists fallback a' line,
    random_choice r Config.FALLBACK_QUOTES = Some fallback /\
    In fallback Config.FALLBACK_QUOTES /\
    KanyeQuoteApp._handle_error error_type r now (a, w)
      = (Ok tt, (a', snd (print line w))) /\
    KanyeQuoteApp.quote_manager a'
      = recorded fallback now (KanyeQuoteApp.quote_manager a) /\
    KanyeQuoteApp.is_loading a' = false /\
    KanyeQuoteApp.after_queue a' = KanyeQuoteApp.after_queue a /\
    KanyeQuoteApp.timers a' = KanyeQuoteApp.timers a /\
    KanyeQuoteApp.threads a' = KanyeQuoteApp.threads a.
Proof.
  destruct (@random_choice_nonempty string r Config.FALLBACK_QUOTES)
    as [fallback E]; [discriminate|].
  pose proof (random_choice_In _ _ E) as Hin.
  exists fallback.
  destruct a as [m ld qt lt fi sl qb aq tm th].
  unfold KanyeQuoteApp._handle_error. rewrite E. plumb.
  eexists. eexists.
  split; [reflexivity|]. split; [exact Hin|].
  split; [reflexivity|]. simpl. auto.
Qed.

Lemma after_save_file_move (m : QuoteManager.t) (w : world) :
  file_move m w (after_save m w).
Proof.
  unfold file_move, after_save.
  destruct w as [d ff fh f h ws n out]. simpl.
  destruct d, ff, fh; simpl; auto.
Qed.

Lemma manager_move_refl (m : QuoteManager.t) : manager_move m m.
Proof. right. auto. Qed.

Lemma file_move_refl (m : QuoteManager.t) (w : world) : file_move m w w.
Proof. left. reflexivity. Qed.

(** The manager's [toggle_favorite] is a [manager_move]. *)
Lemma toggle_favorite_move (q : string) (m : QuoteManager.t) (w : world) :
  exists b m',
    QuoteManager.toggle_favorite q (m, w) = (Ok b, (m', w)) /\
    manager_move m m'.
Proof.
  rewrite toggle_favorite_run.
  destruct (py_in q (QuoteManager.favorites m)) eqn:E.
  - destruct (list_remove q (QuoteManager.favorites m)) as [l|] eqn:R.
    + do 2 eexists. split; [reflexivity|]. right. simpl.
      repeat split. right. right. exists q. exact R.
    + apply list_remove_None in R. apply py_in_In in E. contradiction.
  - do 2 eexists. split; [reflexivity|]. right. simpl.
    repeat split. right. left. exists q. split; [|reflexivity].
    apply py_in_false, E.
Qed.

(** The application's [toggle_favorite]: the guard, or a toggle followed
    by a save. *)
Lemma app_toggle_favorite_run (a : KanyeQuoteApp.t) (w : world) :
  exists a' w',
    KanyeQuoteApp.toggle_favorite (a, w) = (Ok PyNone, (a', w')) /\
    manager_move (KanyeQuoteApp.quote_manager a) (KanyeQuoteApp.quote_manager a') /\
    file_move (KanyeQuoteApp.quote_manager a') w w'.
Proof.
  destruct a as [m ld qt lt fi sl qb aq tm th].
  unfold KanyeQuoteApp.toggle_favorite. plumb. simpl.
  destruct (str_truthy (QuoteManager.current_quote m)); simpl.
  - destruct (toggle_favorite_move (QuoteManager.current_quote m) m w)
      as (b & m' & T & Hm).
    rewrite T. plumb. simpl. rewrite save_data_run. plumb. simpl.
    destruct b; plumb; simpl; do 2 eexists;
      (split; [reflexivity|]); simpl;
      (split; [exact Hm | apply after_save_file_move]).
  - do 2 eexists. split; [reflexivity|]. simpl.
    split; [apply manager_move_refl | apply file_move_refl].
Qed.

(** [remove_selected]: a removal followed by a save, or an exception
    before anything changed. *)
Lemma remove_selected_run (index : nat) (a : KanyeQuoteApp.t) (w : world) :
  exists r a' w',
    KanyeQuoteApp.remove_selected index (a, w) = (r, (a', w')) /\
    manager_move (KanyeQuoteApp.quote_manager a) (KanyeQuoteApp.quote_manager a') /\
    file_move (KanyeQuoteApp.quote_manager a') w w'.
Proof.
  destruct a as [m ld qt lt fi sl qb aq tm th].
  unfold KanyeQuoteApp.remove_selected. plumb. simpl.
  destruct (nth_error (QuoteManager.favorites m) index) as [q|].
  - destruct (list_remove q (QuoteManager.favorites m)) as [l|] eqn:R.
    + plumb. simpl. rewrite save_data_run. plumb. simpl.
      do 3 eexists. split; [reflexivity|]. simpl. split.
      * right. simpl. repeat split. right. right. exists q. exact R.
      * apply after_save_file_move.
    + do 3 eexists. split; [reflexivity|]. simpl.
      split; [apply manager_move_refl | apply file_move_refl].
  - do 3 eexists. split; [reflexivity|]. simpl.
    split; [apply manager_move_refl | apply file_move_refl].
Qed.

Lemma run_callback_effect (cb : KanyeQuoteApp.callback) (r : nat) (now : string)
      (a : KanyeQuoteApp.t) (w : world) :
  let s' := snd (KanyeQuoteApp.run_callback cb r now (a, w)) in
  manager_move (KanyeQuoteApp.quote_manager a)
               (KanyeQuoteApp.quote_manager (fst s')) /\
  file_move (KanyeQuoteApp.quote_manager (fst s')) w (snd s').
Proof.
  cbv zeta. destruct cb as [show|q|e|]; simpl.
  - destruct (show_loading_run show a w) as (a' & -> & Hm & _). simpl.
    rewrite Hm. split; [apply manager_move_refl | (left; reflexivity)].
  - destruct (display_quote_run q now a w) as (a' & -> & Hm & _). simpl.
    rewrite Hm. split; [left; eauto | apply after_save_file_move].
  - destruct (handle_error_run e r now a w)
      as (fb & a' & line & _ & _ & -> & Hm & _). simpl.
    rewrite Hm. split; [left; eauto | (left; reflexivity)].
  - split; [apply manager_move_refl | (left; reflexivity)].
Qed.

(** One event of the application moves the manager and the favorites file
    in one of the ways above. *)
Lemma step_effect (ev : KanyeQuoteApp.event) (a : KanyeQuoteApp.t) (w : world) :
  let s' := KanyeQuoteApp.step ev (a, w) in
  manager_move (KanyeQuoteApp.quote_manager a)
               (KanyeQuoteApp.quote_manager (fst s')) /\
  file_move (KanyeQuoteApp.quote_manager (fst s')) w (snd s').
Proof.
  cbv zeta. destruct ev as [|i resp|r now| | |index|index now|r now|]; simpl.
  - (* get_quote *)
    unfold KanyeQuoteApp.get_quote. plumb.
    destruct (KanyeQuoteApp.is_loading a); simpl;
      (split; [apply manager_move_refl | (left; reflexivity)]).
  - (* a thread of _fetch_quote *)
    destruct (nth_error (KanyeQuoteApp.threads a) i) as [[| |]|];
      try (split; [apply manager_move_refl | (left; reflexivity)]).
    unfold KanyeQuoteApp._fetch_quote_request, count_request. plumb.
    destruct resp as [[q|]| | |msg]; simpl;
      try destruct (str_truthy q); simpl;
      (split; [apply manager_move_refl | (left; reflexivity)]).
  - (* the main loop and an after(0) callback *)
    destruct (KanyeQuoteApp.after_queue a) as [|cb rest];
      [split; [apply manager_move_refl | (left; reflexivity)]|].
    plumb.
    apply (run_callback_effect cb r now
             (KanyeQuoteApp.with_after_queue rest a) w).
  - (* the main loop and an after(1500) callback *)
    destruct (KanyeQuoteApp.timers a) as [|cb rest];
      [split; [apply manager_move_refl | (left; reflexivity)]|].
    plumb.
    apply (run_callback_effect cb 0 ""
             (KanyeQuoteApp.with_timers rest a) w).
  - (* toggle_favorite *)
    destruct (app_toggle_favorite_run a w) as (a' & w' & E & Hm & Hf).
    unfold KanyeQuoteApp.dispatch. rewrite E. simpl. auto.
  - (* remove_selected *)
    destruct (remove_selected_run index a w) as (r & a' & w' & E & Hm & Hf).
    unfold KanyeQuoteApp.dispatch. rewrite E. simpl. auto.
  - (* use_selected *)
    unfold KanyeQuoteApp.dispatch, KanyeQuoteApp.use_selected, bind,
      KanyeQuoteApp.this. cbn [fst snd].
    destruct (nth_error (QuoteManager.favorites (KanyeQuoteApp.quote_manager a))
                        index) as [q|].
    + destruct (display_quote_run q now a w) as (a' & -> & Hm & _). simpl.
      rewrite Hm. split; [left; eauto | apply after_save_file_move].
    + simpl. split; [apply manager_move_refl | (left; reflexivity)].
  - (* the Random Favorite button *)
    destruct (get_random_favorite_returns r (KanyeQuoteApp.quote_manager a) w)
      as (q & E & _).
    unfold KanyeQuoteApp.dispatch, KanyeQuoteApp.random_favorite, bind,
      KanyeQuoteApp.on_manager. cbn [fst snd]. rewrite E. cbn [fst snd].
    rewrite with_quote_manager_same.
    destruct (display_quote_run q now a w) as (a' & -> & Hm & _). simpl.
    rewrite Hm. split; [left; eauto | apply after_save_file_move].
  - (* quit_app *)
    unfold KanyeQuoteApp.quit_app_save, KanyeQuoteApp.dispatch.
    rewrite on_manager_save_data. simpl.
    split; [apply manager_move_refl | apply after_save_file_move].
Qed.

End HandlerFacts.

(* ================================================================== *)
(** ** Runs of the application *)

Section Runs.
Import Py IO Props.

Lemma run_invariant (P : KanyeQuoteApp.t * world -> Prop) :
  (forall ev s, P s -> P (KanyeQuoteApp.step ev s)) ->
  forall evs s, P s -> P (KanyeQuoteApp.run evs s).
Proof.
  intros Hstep evs. induction evs as [|ev evs IH]; simpl; intros s Hs.
  - exact Hs.
  - apply IH, Hstep, Hs.
Qed.

Lemma manager_move_NoDup (m m' : QuoteManager.t) :
  manager_move m m' ->
  NoDup (QuoteManager.favorites m) -> NoDup (QuoteManager.favorites m').
Proof.
  intros [(q & now & ->)|(_ & _ & [E|[(q & Hq & E)|(q & R)]])] H.
  - exact H.
  - rewrite E. exact H.
  - rewrite E. apply NoDup_snoc; assumption.
  - exact (proj1 (@list_remove_NoDup _ _ _ R H)).
Qed.

Lemma manager_move_continues (m0 m m' : QuoteManager.t) :
  manager_move m m' -> continues m0 m -> continues m0 m'.
Proof.
  intros [(q & now & ->)|(Hh & Hc & _)] (added & Ha & Hl).
  - exists (added ++ [ {| quote := q; timestamp := now |} ]). simpl. split.
    + rewrite Ha, app_assoc. reflexivity.
    + rewrite map_app. simpl. rewrite last_last. reflexivity.
  - exists added. rewrite Hh, Hc. auto.
Qed.

(** C8, as amended: when the favorites file is missing, unparseable or
    free of duplicates, the constructed manager has duplicate-free
    favorites, and after every sequence of events of the application
    (fetches, toggles, removals, saves) the favorites in memory and every
    favorites file written are still duplicate free.  Membership is
    equality of strings: [is_favorite q] answers [True] exactly when [q] is
    an element of the favorites; and on duplicate-free favorites
    [toggle_favorite q] leaves [q] a favorite exactly when it was none and
    changes the membership of no other text. *)
Theorem favorites_stay_unique
        (w : world) (m : QuoteManager.t) (w' : world)
        (evs : list KanyeQuoteApp.event) :
  file_unique (favorites_file w) ->
  QuoteManager.new w = (Ok m, w') ->
  NoDup (QuoteManager.favorites m) /\
  NoDup (QuoteManager.favorites
           (KanyeQuoteApp.quote_manager
              (fst (KanyeQuoteApp.run evs (KanyeQuoteApp.started m, w'))))) /\
  file_unique
    (favorites_file (snd (KanyeQuoteApp.run evs (KanyeQuoteApp.started m, w')))) /\
  (forall q m1 w1,
      fst (QuoteManager.is_favorite q (m1, w1)) = Ok true
      <-> In q (QuoteManager.favorites m1)) /\
  (forall q m1 w1,
      NoDup (QuoteManager.favorites m1) ->
      exists b m2,
        QuoteManager.toggle_favorite q (m1, w1) = (Ok b, (m2, w1)) /\
        NoDup (QuoteManager.favorites m2) /\
        (In q (QuoteManager.favorites m2) <-> ~ In q (QuoteManager.favorites m1)) /\
        (forall y, y <> q ->
                   (In y (QuoteManager.favorites m2)
                    <-> In y (QuoteManager.favorites m1)))).
Proof.
  intros Hfile Hnew.
  assert (Hm : NoDup (QuoteManager.favorites m) /\ file_unique (favorites_file w')).
  { destruct (@new_returns _ _ _ Hnew) as (_ & -> & ->). split; [|exact Hfile].
    unfold loaded. simpl.
    destruct (favorites_file w) as [| |v|] eqn:E; try constructor.
    apply Hfile. reflexivity. }
  split; [exact (proj1 Hm)|].
  assert (Hrun :
    (fun s => NoDup (QuoteManager.favorites (KanyeQuoteApp.quote_manager (fst s)))
              /\ file_unique (favorites_file (snd s)))
      (KanyeQuoteApp.run evs (KanyeQuoteApp.started m, w'))).
  { apply run_invariant; [|exact Hm].
    intros ev [a w0] [Ha Hw]. simpl in Ha, Hw.
    destruct (step_effect ev a w0) as [Hmove Hf].
    pose proof (manager_move_NoDup Hmove Ha) as Ha'.
    split; [exact Ha'|].
    destruct Hf as [E|[E|E]]; rewrite E.
    - exact Hw.
    - intros v Hv. discriminate.
    - intros v Hv. injection Hv as <-. exact Ha'. }
  split; [exact (proj1 Hrun)|]. split; [exact (proj2 Hrun)|]. split.
  - intros q m1 w1. rewrite is_favorite_run. simpl. rewrite <- py_in_In.
    split; [intros [= ->]; reflexivity | intros ->; reflexivity].
  - intros q m1 w1 Hnd. rewrite toggle_favorite_run.
    destruct (py_in q (QuoteManager.favorites m1)) eqn:E.
    + apply py_in_In in E.
      destruct (list_remove q (QuoteManager.favorites m1)) as [l|] eqn:R.
      * destruct (@list_remove_NoDup _ _ _ R Hnd) as [Hl Hq].
        do 2 eexists. split; [reflexivity|]. simpl.
        split; [exact Hl|]. split; [tauto|].
        intros y Hy. split.
        -- eapply list_remove_subset; exact R.
        -- eapply list_remove_others; eassumption.
      * apply list_remove_None in R. contradiction.
    + apply py_in_false in E.
      do 2 eexists. split; [reflexivity|]. simpl.
      split; [apply NoDup_snoc; assumption|]. split.
      * split; [tauto|]. intros _. apply in_or_app. right. simpl. auto.
      * intros y Hy. rewrite in_app_iff. simpl.
        split; [intros [H|[H|[]]]; [exact H | congruence] | auto].
Qed.

(** A session on a favorites file that lists two texts. *)
Lemma favorites_stay_unique_witness :
  NoDup ["B"; "A"] /\
  NoDup (QuoteManager.favorites
           (KanyeQuoteApp.quote_manager
              (fst (KanyeQuoteApp.run
                      (fetch_cycle KanyeQuoteApp.Timeout 1 "t"
                         ++ [KanyeQuoteApp.EvToggleFavorite;
                             KanyeQuoteApp.EvRemoveSelected 0;
                             KanyeQuoteApp.EvQuit])
                      (KanyeQuoteApp.started
                         (loaded (with_favorites_file (Holds ["B"; "A"]) fresh_world)),
                       with_favorites_file (Holds ["B"; "A"]) fresh_world))))).
Proof.
  assert (Hfile : file_unique
                    (favorites_file
                       (with_favorites_file (Holds ["B"; "A"]) fresh_world))).
  { intros v Hv. injection Hv as <-.
    repeat constructor; simpl; intuition discriminate. }
  destruct (@favorites_stay_unique
              (with_favorites_file (Holds ["B"; "A"]) fresh_world)
              (loaded (with_favorites_file (Holds ["B"; "A"]) fresh_world))
              (with_favorites_file (Holds ["B"; "A"]) fresh_world)
              (fetch_cycle KanyeQuoteApp.Timeout 1 "t"
                 ++ [KanyeQuoteApp.EvToggleFavorite;
                     KanyeQuoteApp.EvRemoveSelected 0;
                     KanyeQuoteApp.EvQuit])
              Hfile eq_refl) as (H1 & H2 & _).
  split; [exact H1 | exact H2].
Defined.

(** C8 as stated fails at construction: from a favorites file that lists
    "A" twice, [_load_data] takes the list as it is, and the manager starts
    with "A" twice among its favorites. *)
Lemma duplicates_survive_loading :
  QuoteManager.new twice_listed_world = (Ok twice_listed, twice_listed_world) /\
  QuoteManager.favorites twice_listed = ["A"; "A"] /\
  ~ NoDup (QuoteManager.favorites twice_listed).
Proof.
  repeat split. simpl. intros H. inversion H as [|x l Hx Hl]; subst.
  apply Hx. simpl. auto.
Qed.

(** C10: a freshly constructed manager has the empty string as current
    quote, whatever history it loaded; along every sequence of events that
    follows, the history is the loaded one followed by the entries added in
    this session, and the current quote is the quote of the last entry
    added, hence still empty as long as none was; [add_to_history q] is
    what sets it, to [q]. *)
Theorem fresh_manager_has_no_current_quote
        (w : world) (m : QuoteManager.t) (w' : world)
        (evs : list KanyeQuoteApp.event) :
  QuoteManager.new w = (Ok m, w') ->
  QuoteManager.current_quote m = "" /\
  (forall v, history_file w = Holds v -> QuoteManager.history m = v) /\
  (exists added,
      QuoteManager.history
        (KanyeQuoteApp.quote_manager
           (fst (KanyeQuoteApp.run evs (KanyeQuoteApp.started m, w'))))
        = QuoteManager.history m ++ added /\
      QuoteManager.current_quote
        (KanyeQuoteApp.quote_manager
           (fst (KanyeQuoteApp.run evs (KanyeQuoteApp.started m, w'))))
        = last (map quote added) "") /\
  (forall q now m1 w1,
      exists m2,
        QuoteManager.add_to_history q now (m1, w1) = (Ok tt, (m2, w1)) /\
        QuoteManager.current_quote m2 = q /\
        QuoteManager.history m2
          = QuoteManager.history m1 ++ [ {| quote := q; timestamp := now |} ]).
Proof.
  intros Hnew. destruct (@new_returns _ _ _ Hnew) as (_ & -> & ->).
  split; [reflexivity|]. split.
  { intros v Hv. unfold loaded. simpl. rewrite Hv. reflexivity. }
  split.
  - assert (H : (fun s => continues (loaded w)
                            (KanyeQuoteApp.quote_manager (fst s)))
                  (KanyeQuoteApp.run evs (KanyeQuoteApp.started (loaded w), w))).
    { apply run_invariant.
      - intros ev [a w0] Ha. simpl in Ha.
        destruct (step_effect ev a w0) as [Hmove _].
        exact (manager_move_continues Hmove Ha).
      - exists []. simpl. rewrite app_nil_r. auto. }
    exact H.
  - intros q now m1 w1. rewrite add_to_history_run.
    eexists. split; [reflexivity|]. simpl. auto.
Qed.

(** Construction from a history file with two entries: the history is
    loaded, the current quote is empty. *)
Lemma fresh_manager_has_no_current_quote_witness :
  QuoteManager.current_quote
    (loaded (with_history_file (Holds [numbered 1; numbered 2]) fresh_world)) = "" /\
  QuoteManager.history
    (loaded (with_history_file (Holds [numbered 1; numbered 2]) fresh_world))
    = [numbered 1; numbered 2].
Proof.
  destruct (@fresh_manager_has_no_current_quote
              (with_history_file (Holds [numbered 1; numbered 2]) fresh_world)
              (loaded (with_history_file (Holds [numbered 1; numbered 2]) fresh_world))
              (with_history_file (Holds [numbered 1; numbered 2]) fresh_world)
              [] eq_refl) as (H1 & H2 & _).
  split; [exact H1 | exact (H2 _ eq_refl)].
Defined.

End Runs.

(* ================================================================== *)
(** ** The guards of the handlers *)

Section Guards.
Import Py IO Props.

(** C2, as amended: with no current quote, the application's
    [toggle_favorite] returns at its guard.  It hands back [None], not
    [False], as it does on every path; the application and the world are
    exactly as before: favorites, history and current quote untouched, no
    file opened for writing, nothing printed, no message flashed.  The
    guard is the application's: [QuoteManager.toggle_favorite] has none,
    and called on the empty string, not yet a favorite, it appends it and
    returns [True]. *)
Theorem toggle_favorite_without_quote (a : KanyeQuoteApp.t) (w : world) :
  QuoteManager.current_quote (KanyeQuoteApp.quote_manager a) = "" ->
  KanyeQuoteApp.toggle_favorite (a, w) = (Ok PyNone, (a, w)) /\
  (forall a0 w0, fst (KanyeQuoteApp.toggle_favorite (a0, w0)) = Ok PyNone) /\
  (forall m0 w0,
      ~ In "" (QuoteManager.favorites m0) ->
      QuoteManager.toggle_favorite "" (m0, w0)
        = (Ok true,
           (QuoteManager.with_favorites (QuoteManager.favorites m0 ++ [""]) m0,
            w0))).
Proof.
  intros H. split; [|split].
  - unfold KanyeQuoteApp.toggle_favorite, bind, KanyeQuoteApp.this. simpl.
    rewrite H. reflexivity.
  - intros a0 w0.
    destruct (app_toggle_favorite_run a0 w0) as (a' & w' & E & _).
    rewrite E. reflexivity.
  - intros m0 w0 Hn. rewrite toggle_favorite_run.
    apply py_in_false in Hn. rewrite Hn. reflexivity.
Qed.

Lemma toggle_favorite_without_quote_witness :
  KanyeQuoteApp.toggle_favorite first_start = (Ok PyNone, first_start).
Proof.
  exact (proj1 (@toggle_favorite_without_quote
                  (KanyeQuoteApp.started QuoteManager.blank) fresh_world
                  eq_refl)).
Defined.

(** C2 as stated fails on the value returned, for either function the
    claim can be read of: at start-up, with no current quote, the
    application's [toggle_favorite] returns [None], which is not [False];
    and the manager's [toggle_favorite] of the empty string returns [True]
    and makes the empty string a favorite. *)
Lemma toggle_favorite_of_empty_quote_is_not_false :
  QuoteManager.current_quote (KanyeQuoteApp.quote_manager (fst first_start)) = "" /\
  fst (KanyeQuoteApp.toggle_favorite first_start) = Ok PyNone /\
  fst (KanyeQuoteApp.toggle_favorite first_start) <> Ok (PyBool false) /\
  QuoteManager.toggle_favorite "" (QuoteManager.blank, fresh_world)
    = (Ok true,
       (QuoteManager.with_favorites [""] QuoteManager.blank, fresh_world)).
Proof.
  split; [reflexivity|]. split; [reflexivity|].
  split; [discriminate | reflexivity].
Qed.

(** Once the loading flag is set, [get_quote] does nothing. *)
Lemma get_quote_while_loading (a : KanyeQuoteApp.t) (w : world) :
  KanyeQuoteApp.is_loading a = true ->
  KanyeQuoteApp.step KanyeQuoteApp.EvGetQuote (a, w) = (a, w).
Proof.
  intros H. simpl.
  unfold KanyeQuoteApp.dispatch, KanyeQuoteApp.get_quote, bind,
    KanyeQuoteApp.this.
  simpl. rewrite H. reflexivity.
Qed.

(** While the flag is not set, [get_quote] starts one more thread, whatever
    is in flight. *)
Lemma get_quote_while_not_loading (a : KanyeQuoteApp.t) (w : world) :
  KanyeQuoteApp.is_loading a = false ->
  KanyeQuoteApp.fetches_started
    (fst (KanyeQuoteApp.step KanyeQuoteApp.EvGetQuote (a, w)))
    = S (KanyeQuoteApp.fetches_started a).
Proof.
  intros H. simpl.
  unfold KanyeQuoteApp.dispatch, KanyeQuoteApp.get_quote, bind,
    KanyeQuoteApp.this, KanyeQuoteApp.fetches_started.
  simpl. rewrite H. simpl. rewrite length_app. simpl. lia.
Qed.

(** The callback that completes a cycle adds exactly one history entry. *)
Lemma completing_callback_adds_one_entry
      (cb : KanyeQuoteApp.callback) (r : nat) (now : string)
      (a : KanyeQuoteApp.t) (w : world) :
  KanyeQuoteApp.completes_cycle cb = true ->
  List.length
    (QuoteManager.history
       (KanyeQuoteApp.quote_manager
          (fst (snd (KanyeQuoteApp.run_callback cb r now (a, w))))))
    = S (List.length (QuoteManager.history (KanyeQuoteApp.quote_manager a))).
Proof.
  destruct cb as [show|q|e|]; simpl; try discriminate; intros _.
  - destruct (display_quote_run q now a w) as (a' & -> & Hm & _). simpl.
    rewrite Hm. simpl. rewrite length_app. simpl. lia.
  - destruct (handle_error_run e r now a w)
      as (fb & a' & line & _ & _ & -> & Hm & _). simpl.
    rewrite Hm. simpl. rewrite length_app. simpl. lia.
Qed.

(** [_handle_error] opens no file: both files and the log of writes are
    as they were. *)
Lemma handle_error_leaves_files
      (error_type : string) (r : nat) (now : string)
      (a : KanyeQuoteApp.t) (w : world) :
  let w' := snd (snd (KanyeQuoteApp._handle_error error_type r now (a, w))) in
  favorites_file w' = favorites_file w /\
  history_file w' = history_file w /\
  writes w' = writes w.
Proof.
  cbv zeta.
  destruct (handle_error_run error_type r now a w)
    as (fb & a' & line & _ & _ & -> & _).
  simpl. auto.
Qed.

End Guards.

(* ================================================================== *)
(** ** Two places where the handlers fall short of the manager's contract *)

Section Shortfalls.
Import Py IO Props.

(** C1, evaluated on a fetch that times out right after start-up, with
    the draw 3 of the random generator: the fallback quote is one of the
    corpus, it becomes the single history entry and the current quote, but
    no file is opened for writing and the history file stays absent, so a
    manager constructed from this storage knows nothing of the entry.  The
    same quote arriving from the remote source is written to the history
    file by [_display_quote]. *)
Theorem fallback_quote_is_not_saved :
  let s_fail :=
    KanyeQuoteApp.run (fetch_cycle KanyeQuoteApp.Timeout 3 "t") first_start in
  let s_ok :=
    KanyeQuoteApp.run
      (fetch_cycle (KanyeQuoteApp.Json (Some fourth_fallback)) 3 "t")
      first_start in
  In fourth_fallback Config.FALLBACK_QUOTES /\
  QuoteManager.history (KanyeQuoteApp.quote_manager (fst s_fail))
    = [ {| quote := fourth_fallback; timestamp := "t" |} ] /\
  QuoteManager.current_quote (KanyeQuoteApp.quote_manager (fst s_fail))
    = fourth_fallback /\
  history_file (snd s_fail) = Absent /\
  writes (snd s_fail) = [] /\
  fst (QuoteManager.new (snd s_fail)) = Ok QuoteManager.blank /\
  history_file (snd s_ok)
    = Holds [ {| quote := fourth_fallback; timestamp := "t" |} ] /\
  writes (snd s_ok) = [FAVORITES_FILE; HISTORY_FILE].
Proof.
  cbv zeta. split.
  - simpl. do 3 right. left. reflexivity.
  - repeat split.
Qed.

(** C9, evaluated on two calls of [get_quote] in a row right after
    start-up: after the first call a fetch is in flight but the loading
    flag is still unset, since only a queued callback sets it; the second
    call passes the guard and starts a second thread; when both threads
    and the main loop have run, two requests were made and the history has
    one entry for each. *)
Theorem second_get_quote_starts_second_fetch :
  let s1 := KanyeQuoteApp.step KanyeQuoteApp.EvGetQuote first_start in
  let s2 := KanyeQuoteApp.step KanyeQuoteApp.EvGetQuote s1 in
  let s_end := KanyeQuoteApp.run overlapping_fetches s2 in
  KanyeQuoteApp.in_flight (fst s1) = true /\
  KanyeQuoteApp.is_loading (fst s1) = false /\
  KanyeQuoteApp.fetches_started (fst s1) = 1 /\
  KanyeQuoteApp.fetches_started (fst s2) = 2 /\
  s2 <> s1 /\
  requests_made (snd s_end) = 2 /\
  map quote (QuoteManager.history (KanyeQuoteApp.quote_manager (fst s_end)))
    = ["a"; "b"].
Proof.
  cbv zeta. repeat split.
  intros H.
  apply (f_equal (fun s => KanyeQuoteApp.fetches_started (fst s))) in H.
  discriminate H.
Qed.

End Shortfalls.

(* ================================================================== *)
(** * Further properties *)

(** ** A random favorite *)

Section RandomFavorite.
Import Py IO Props Props2.

(** X1: [get_random_favorite] never raises and changes nothing; it returns
    the empty string when there are no favorites and otherwise one of the
    favorites, and every favorite is returned for some draw of the
    generator. *)
Theorem get_random_favorite_spec (m : QuoteManager.t) (w : world) :
  (forall r,
      exists q,
        QuoteManager.get_random_favorite r (m, w) = (Ok q, (m, w)) /\
        (QuoteManager.favorites m = [] -> q = "") /\
        (QuoteManager.favorites m <> [] -> In q (QuoteManager.favorites m))) /\
  (forall q,
      In q (QuoteManager.favorites m) ->
      exists r, QuoteManager.get_random_favorite r (m, w) = (Ok q, (m, w))).
Proof.
  split.
  - intros r. apply get_random_favorite_returns.
  - unfold QuoteManager.get_random_favorite, bind, QuoteManager.self, ret.
    simpl. intros q Hq. destruct (QuoteManager.favorites m) as [|x l] eqn:F;
      [contradiction|].
    apply In_nth_error in Hq. destruct Hq as [i Hi].
    assert (Hlt : i < List.length (x :: l)).
    { apply nth_error_Some. congruence. }
    exists i. unfold random_choice.
    rewrite Nat.mod_small by exact Hlt. rewrite Hi. reflexivity.
Qed.

End RandomFavorite.

(* ================================================================== *)
(** ** The handlers, as equations on the whole application *)

Section HandlerEquations.
Import Py IO Props Props2.

Ltac reduce_handlers :=
  cbv beta iota zeta delta
    [bind ret raise try_except get put modify in_world fst snd print
     KanyeQuoteApp.this KanyeQuoteApp.update KanyeQuoteApp.on_manager
     KanyeQuoteApp.after0 KanyeQuoteApp.after1500
     KanyeQuoteApp._update_stats KanyeQuoteApp._show_loading
     KanyeQuoteApp._update_favorite_indicator KanyeQuoteApp._flash_message
     KanyeQuoteApp.dispatch
     QuoteManager.is_favorite QuoteManager.add_to_history QuoteManager.self
     QuoteManager.set_history QuoteManager.set_favorites
     QuoteManager.set_current_quote].

Lemma display_quote_eq (q now : string) (a : KanyeQuoteApp.t) (w : world) :
  KanyeQuoteApp._display_quote q now (a, w) =
    (Ok tt,
     (displayed q now a,
      after_save (recorded q now (KanyeQuoteApp.quote_manager a)) w)).
Proof.
  destruct a as [m ld qt lt fi sl qb aq tm th].
  unfold KanyeQuoteApp._display_quote. reduce_handlers. simpl.
  rewrite save_data_run. reduce_handlers. reflexivity.
Qed.

Lemma handle_error_eq (error_type : string) (r : nat) (now fallback : string)
      (a : KanyeQuoteApp.t) (w : world) :
  random_choice r Config.FALLBACK_QUOTES = Some fallback ->
  exists line,
    KanyeQuoteApp._handle_error error_type r now (a, w) =
      (Ok tt, (displayed fallback now a, snd (print line w))).
Proof.
  intros E. destruct a as [m ld qt lt fi sl qb aq tm th].
  unfold KanyeQuoteApp._handle_error. rewrite E. reduce_handlers.
  eexists. reflexivity.
Qed.

(** The application's [toggle_favorite] behind its guard. *)
Lemma app_toggle_favorite_eq (a : KanyeQuoteApp.t) (w : world) :
  str_truthy (QuoteManager.current_quote (KanyeQuoteApp.quote_manager a)) = true ->
  exists b m',
    QuoteManager.toggle_favorite
      (QuoteManager.current_quote (KanyeQuoteApp.quote_manager a))
      (KanyeQuoteApp.quote_manager a, w) = (Ok b, (m', w)) /\
    KanyeQuoteApp.toggle_favorite (a, w) =
      (Ok PyNone,
       (refreshed_with m'
          (if b then "Added to favorites!" else "Removed from favorites") a,
        after_save m' w)).
Proof.
  intros Hq. destruct a as [m ld qt lt fi sl qb aq tm th]. simpl in *.
  destruct (toggle_favorite_returns (QuoteManager.current_quote m) m w)
    as (b & m' & T).
  exists b, m'. split; [exact T|].
  unfold KanyeQuoteApp.toggle_favorite. reduce_handlers. simpl.
  rewrite Hq. simpl. rewrite T. reduce_handlers. simpl.
  rewrite save_data_run. reduce_handlers. simpl.
  destruct b; reduce_handlers; reflexivity.
Qed.

(** [remove_selected] on a row that exists. *)
Lemma remove_selected_eq (index : nat) (q : string) (l : list string)
      (a : KanyeQuoteApp.t) (w : world) :
  nth_error (QuoteManager.favorites (KanyeQuoteApp.quote_manager a)) index = Some q ->
  list_remove q (QuoteManager.favorites (KanyeQuoteApp.quote_manager a)) = Some l ->
  KanyeQuoteApp.remove_selected index (a, w) =
    (Ok tt,
     (after_removal l a,
      after_save (QuoteManager.with_favorites l (KanyeQuoteApp.quote_manager a)) w)).
Proof.
  intros Hn Hr. destruct a as [m ld qt lt fi sl qb aq tm th]. simpl in *.
  unfold KanyeQuoteApp.remove_selected. reduce_handlers. simpl.
  rewrite Hn, Hr. reduce_handlers. simpl.
  rewrite save_data_run. reduce_handlers. reflexivity.
Qed.

(** An element of a list can be removed from it. *)
Lemma nth_error_list_remove (index : nat) (q : string) (l : list string) :
  nth_error l index = Some q -> exists r, list_remove q l = Some r.
Proof.
  intros H. destruct (list_remove q l) as [r|] eqn:R; [eauto|].
  apply list_remove_None in R. apply nth_error_In in H. contradiction.
Qed.

(** [remove_selected] on a row that does not exist raises before anything
    changed. *)
Lemma remove_selected_out_of_range (index : nat) (a : KanyeQuoteApp.t) (w : world) :
  nth_error (QuoteManager.favorites (KanyeQuoteApp.quote_manager a)) index = None ->
  KanyeQuoteApp.remove_selected index (a, w) =
    (Raise (IndexError "list index out of range"), (a, w)).
Proof.
  intros Hn. unfold KanyeQuoteApp.remove_selected. reduce_handlers.
  rewrite Hn. reflexivity.
Qed.

Lemma after_save_same_faults (m : QuoteManager.t) (w : world) :
  same_faults w (after_save m w).
Proof.
  unfold same_faults, after_save. destruct w as [d ff fh f h ws n out].
  simpl. destruct d, ff, fh; simpl; auto.
Qed.

Lemma after_save_synced (m : QuoteManager.t) (w : world) :
  unhindered w = true -> synced m (after_save m w).
Proof.
  unfold unhindered, synced, after_save. destruct w as [d ff fh f h ws n out].
  simpl. destruct d, ff, fh; simpl; intros H; try discriminate. auto.
Qed.

Lemma same_faults_unhindered (w w' : world) :
  same_faults w w' -> unhindered w' = unhindered w.
Proof.
  intros (H1 & H2 & H3). unfold unhindered. rewrite H1, H2, H3. reflexivity.
Qed.

Lemma app_toggle_favorite_guard (a : KanyeQuoteApp.t) (w : world) :
  str_truthy (QuoteManager.current_quote (KanyeQuoteApp.quote_manager a)) = false ->
  KanyeQuoteApp.toggle_favorite (a, w) = (Ok PyNone, (a, w)).
Proof.
  intros H. unfold KanyeQuoteApp.toggle_favorite. reduce_handlers.
  rewrite H. reflexivity.
Qed.

Lemma show_loading_eq (show : bool) (a : KanyeQuoteApp.t) (w : world) :
  KanyeQuoteApp._show_loading show (a, w) = (Ok tt, (shown_loading show a, w)).
Proof. destruct show; reflexivity. Qed.

Lemma run_callback_moves (cb : KanyeQuoteApp.callback) (r : nat) (now : string)
      (s : KanyeQuoteApp.t * world) :
  cb_moves cb s (snd (KanyeQuoteApp.run_callback cb r now s)).
Proof.
  destruct s as [a w]. destruct cb as [show|q|e|]; simpl.
  - rewrite show_loading_eq. constructor.
  - rewrite display_quote_eq. constructor.
  - destruct (@random_choice_nonempty string r Config.FALLBACK_QUOTES)
      as [fallback E]; [discriminate|].
    destruct (@handle_error_eq e r now fallback a w E) as [line ->]. simpl.
    constructor. exact (random_choice_In _ _ E).
  - constructor.
Qed.

(** Every event of the application is one of the moves. *)
Lemma step_moves (ev : KanyeQuoteApp.event) (s : KanyeQuoteApp.t * world) :
  exists k,
    (k = Removal -> is_removal ev = true) /\
    unrequested k = (if shows_favorite ev s then 1 else 0) /\
    moves k s (KanyeQuoteApp.step ev s).
Proof.
  destruct s as [a w].
  destruct ev as [|i resp|r now| | |index|index now|r now|]; simpl.
  - exists Plain; split; [discriminate|]; split; [reflexivity|].
    unfold KanyeQuoteApp.get_quote. reduce_handlers.
    destruct (KanyeQuoteApp.is_loading a) eqn:L; simpl.
    + apply mv_nothing.
    + apply mv_get_quote. exact L.
  - exists Plain; split; [discriminate|]; split; [reflexivity|].
    destruct (nth_error (KanyeQuoteApp.threads a) i) as [[| |]|] eqn:T;
      [ | | apply mv_nothing | apply mv_nothing ].
    + exact (@mv_schedule i a w T).
    + unfold KanyeQuoteApp._fetch_quote_request, count_request.
      reduce_handlers.
      destruct resp as [[q|]| | |msg]; simpl.
      * destruct (str_truthy q); simpl.
        -- replace (stdout w) with (stdout w ++ []) by apply app_nil_r.
           apply (@mv_request i (KanyeQuoteApp.CbDisplayQuote q) [] a w T eq_refl).
        -- apply (@mv_request i (KanyeQuoteApp.CbHandleError "unknown")
                    ["API Error: Empty quote received"] a w T eq_refl).
      * apply (@mv_request i (KanyeQuoteApp.CbHandleError "unknown")
                 ["API Error: Empty quote received"] a w T eq_refl).
      * replace (stdout w) with (stdout w ++ []) by apply app_nil_r.
        apply (@mv_request i (KanyeQuoteApp.CbHandleError "timeout") [] a w T eq_refl).
      * replace (stdout w) with (stdout w ++ []) by apply app_nil_r.
        apply (@mv_request i (KanyeQuoteApp.CbHandleError "connection") [] a w T eq_refl).
      * apply (@mv_request i (KanyeQuoteApp.CbHandleError "unknown")
                 [String.append "API Error: " msg] a w T eq_refl).
  - exists Plain; split; [discriminate|]; split; [reflexivity|].
    destruct (KanyeQuoteApp.after_queue a) as [|cb rest] eqn:Q; [apply mv_nothing|].
    reduce_handlers. eapply mv_mainloop; [exact Q|].
    apply (run_callback_moves cb r now (KanyeQuoteApp.with_after_queue rest a, w)).
  - exists Plain; split; [discriminate|]; split; [reflexivity|].
    destruct (KanyeQuoteApp.timers a) as [|cb rest] eqn:Q; [apply mv_nothing|].
    reduce_handlers. eapply mv_timer; [exact Q|].
    apply (run_callback_moves cb 0 "" (KanyeQuoteApp.with_timers rest a, w)).
  - exists Plain; split; [discriminate|]; split; [reflexivity|].
    unfold KanyeQuoteApp.dispatch.
    destruct (str_truthy (QuoteManager.current_quote (KanyeQuoteApp.quote_manager a)))
      eqn:G.
    + destruct (@app_toggle_favorite_eq a w G) as (b & m' & T & ->). simpl.
      apply mv_toggle; assumption.
    + rewrite (@app_toggle_favorite_guard a w G). apply mv_nothing.
  - unfold KanyeQuoteApp.dispatch.
    destruct (nth_error (QuoteManager.favorites (KanyeQuoteApp.quote_manager a)) index)
      as [q|] eqn:N.
    + destruct (@nth_error_list_remove _ _ _ N) as [l R].
      rewrite (@remove_selected_eq index q l a w N R). simpl.
      exists Removal. split; [reflexivity|]. split; [reflexivity|].
      eapply mv_remove; eassumption.
    + rewrite (@remove_selected_out_of_range index a w N).
      exists Plain. split; [discriminate|]. split; [reflexivity|].
      apply mv_nothing.
  - unfold KanyeQuoteApp.dispatch, KanyeQuoteApp.use_selected, bind,
      KanyeQuoteApp.this. cbn [fst snd].
    destruct (nth_error (QuoteManager.favorites (KanyeQuoteApp.quote_manager a)) index)
      as [q|] eqn:N.
    + assert (L : Nat.ltb index
                    (List.length
                       (QuoteManager.favorites (KanyeQuoteApp.quote_manager a)))
                  = true).
      { apply Nat.ltb_lt. apply nth_error_Some. congruence. }
      rewrite L, display_quote_eq. exists Shown.
      split; [discriminate|]. split; [reflexivity|]. apply mv_shown.
    + assert (L : Nat.ltb index
                    (List.length
                       (QuoteManager.favorites (KanyeQuoteApp.quote_manager a)))
                  = false).
      { apply Nat.ltb_ge. apply nth_error_None. exact N. }
      rewrite L. exists Plain.
      split; [discriminate|]. split; [reflexivity|]. apply mv_nothing.
  - destruct (get_random_favorite_returns r (KanyeQuoteApp.quote_manager a) w)
      as (q & E & _).
    unfold KanyeQuoteApp.dispatch, KanyeQuoteApp.random_favorite, bind,
      KanyeQuoteApp.on_manager. cbn [fst snd]. rewrite E. cbn [fst snd].
    rewrite with_quote_manager_same, display_quote_eq. exists Shown.
    split; [discriminate|]. split; [reflexivity|]. apply mv_shown.
  - exists Plain; split; [discriminate|]; split; [reflexivity|].
    unfold KanyeQuoteApp.quit_app_save, KanyeQuoteApp.dispatch.
    rewrite on_manager_save_data. apply mv_quit.
Qed.

End HandlerEquations.

(* ================================================================== *)
(** ** What the window shows, along every run *)

Section Display.
Import Py IO Props Props2.

Lemma run_moves_invariant (P : KanyeQuoteApp.t * world -> Prop) :
  (forall b s s', moves b s s' -> P s -> P s') ->
  forall evs s, P s -> P (KanyeQuoteApp.run evs s).
Proof.
  intros Hmove. apply run_invariant. intros ev s Hs.
  destruct (step_moves ev s) as (b & _ & _ & Hm). exact (Hmove b _ _ Hm Hs).
Qed.

Lemma cb_moves_stats (cb : KanyeQuoteApp.callback)
      (s s' : KanyeQuoteApp.t * world) :
  cb_moves cb s s' -> stats_current (fst s) -> stats_current (fst s').
Proof.
  unfold stats_current.
  intros H; destruct H as [show a w|q now a w|e fb now line a w Hin|a w];
    destruct a as [m ld qt lt fi sl qb aq tm th]; simpl; intros Hs;
    try destruct show; simpl; try assumption; reflexivity.
Qed.

Lemma moves_stats (b : kind) (s s' : KanyeQuoteApp.t * world) :
  moves b s s' -> stats_current (fst s) -> stats_current (fst s').
Proof.
  intros H.
  destruct H as [a w|a w L|i a w T|i cb lines a w T C|cb rest a w s' Q Hcb
                |cb rest a w s' Q Hcb|b m' a w G T|index q l a w N R|q now a w|a w];
    try (intros Hs; apply (cb_moves_stats Hcb);
         unfold stats_current in *;
         destruct a as [m ld qt lt fi sl qb aq tm th]; simpl in *; exact Hs);
    unfold stats_current;
    destruct a as [m ld qt lt fi sl qb aq tm th]; simpl; intros Hs;
    try assumption; reflexivity.
Qed.

(** X2: along every run of the application the statistics label shows the
    number of history entries and the number of favorites the manager has
    at that moment. *)
Theorem stats_label_is_current
        (m : QuoteManager.t) (w : world) (evs : list KanyeQuoteApp.event) :
  stats_current (fst (KanyeQuoteApp.run evs (KanyeQuoteApp.started m, w))).
Proof.
  apply (run_moves_invariant (fun s => stats_current (fst s))).
  - intros b s s'. apply moves_stats.
  - reflexivity.
Qed.


Lemma cb_moves_indicator (cb : KanyeQuoteApp.callback)
      (s s' : KanyeQuoteApp.t * world) :
  cb_moves cb s s' -> indicator_current (fst s) -> indicator_current (fst s').
Proof.
  unfold indicator_current.
  intros H; destruct H as [show a w|q now a w|e fb now line a w Hin|a w];
    destruct a as [m ld qt lt fi sl qb aq tm th]; simpl; intros Hs;
    try destruct show; simpl; try assumption; reflexivity.
Qed.

Lemma moves_indicator (k : kind) (s s' : KanyeQuoteApp.t * world) :
  moves k s s' -> k <> Removal ->
  indicator_current (fst s) -> indicator_current (fst s').
Proof.
  intros H Hb.
  destruct H as [a w|a w L|i a w T|i cb lines a w T C|cb rest a w s' Q Hcb
                |cb rest a w s' Q Hcb|b' m' a w G T|index q l a w N R|q now a w|a w];
    try (exfalso; apply Hb; reflexivity);
    try (intros Hs; apply (cb_moves_indicator Hcb);
         unfold indicator_current in *;
         destruct a as [m ld qt lt fi sl qb aq tm th]; simpl in *; exact Hs);
    unfold indicator_current;
    destruct a as [m ld qt lt fi sl qb aq tm th]; simpl; intros Hs;
    try assumption; reflexivity.
Qed.

(** X3: when at start-up the current quote of the manager is not among its
    favorites, then along every run without removals in the favorites
    window the heart is shown exactly when the current quote is a
    favorite. *)
Theorem favorite_indicator_is_current
        (m : QuoteManager.t) (w : world) (evs : list KanyeQuoteApp.event) :
  ~ In (QuoteManager.current_quote m) (QuoteManager.favorites m) ->
  forallb (fun ev => negb (is_removal ev)) evs = true ->
  indicator_current (fst (KanyeQuoteApp.run evs (KanyeQuoteApp.started m, w))).
Proof.
  intros Hstart.
  assert (H0 : indicator_current (fst (KanyeQuoteApp.started m, w))).
  { unfold indicator_current. simpl. symmetry. apply py_in_false, Hstart. }
  revert H0. generalize (KanyeQuoteApp.started m, w).
  induction evs as [|ev evs IH]; simpl; intros s Hs Hevs.
  - exact Hs.
  - apply andb_prop in Hevs. destruct Hevs as [Hev Hevs].
    apply IH; [|exact Hevs].
    destruct (step_moves ev s) as (k & Hk & _ & Hm).
    apply (moves_indicator Hm); [|exact Hs].
    intros E. rewrite (Hk E) in Hev. discriminate.
Qed.

Lemma favorite_indicator_is_current_witness :
  indicator_current
    (fst (KanyeQuoteApp.run
            (fetch_cycle (KanyeQuoteApp.Json (Some "A")) 0 "t"
               ++ [KanyeQuoteApp.EvToggleFavorite])
            first_start)).
Proof.
  apply (@favorite_indicator_is_current QuoteManager.blank fresh_world
           (fetch_cycle (KanyeQuoteApp.Json (Some "A")) 0 "t"
              ++ [KanyeQuoteApp.EvToggleFavorite])).
  - simpl. tauto.
  - reflexivity.
Defined.

(** X4: a removal in the favorites window does not refresh the heart: when
    the row removed holds the current quote, which occurs once among the
    favorites, and the heart is shown, then after [remove_selected] the
    current quote is no longer a favorite and the heart is still shown. *)
Theorem removal_leaves_indicator
        (index : nat) (a : KanyeQuoteApp.t) (w : world) :
  nth_error (QuoteManager.favorites (KanyeQuoteApp.quote_manager a)) index
    = Some (QuoteManager.current_quote (KanyeQuoteApp.quote_manager a)) ->
  count_occ string_dec (QuoteManager.favorites (KanyeQuoteApp.quote_manager a))
            (QuoteManager.current_quote (KanyeQuoteApp.quote_manager a)) = 1 ->
  KanyeQuoteApp.favorite_indicator a = true ->
  exists a' w',
    KanyeQuoteApp.remove_selected index (a, w) = (Ok tt, (a', w')) /\
    QuoteManager.current_quote (KanyeQuoteApp.quote_manager a')
      = QuoteManager.current_quote (KanyeQuoteApp.quote_manager a) /\
    fst (QuoteManager.is_favorite
           (QuoteManager.current_quote (KanyeQuoteApp.quote_manager a'))
           (KanyeQuoteApp.quote_manager a', w')) = Ok false /\
    KanyeQuoteApp.favorite_indicator a' = true.
Proof.
  intros N C F.
  destruct (@nth_error_list_remove _ _ _ N) as [l R].
  rewrite (@remove_selected_eq index _ l a w N R).
  do 2 eexists. split; [reflexivity|].
  destruct a as [m ld qt lt fi sl qb aq tm th]. simpl in *.
  split; [reflexivity|]. split; [|exact F].
  unfold QuoteManager.is_favorite, bind, QuoteManager.self, ret. simpl.
  f_equal.
  pose proof (@list_remove_count _ (QuoteManager.current_quote m) _ _ R) as K.
  rewrite String.eqb_refl, C in K. simpl in K.
  destruct (py_in (QuoteManager.current_quote m) l) eqn:P; [|reflexivity].
  apply py_in_count in P. lia.
Qed.

Lemma removal_leaves_indicator_witness :
  exists a' w',
    KanyeQuoteApp.remove_selected 0
      (KanyeQuoteApp.with_favorite_indicator true
         (KanyeQuoteApp.started
            {| QuoteManager.history := [];
               QuoteManager.favorites := ["A"; "B"];
               QuoteManager.current_quote := "A" |}),
       fresh_world) = (Ok tt, (a', w')) /\
    QuoteManager.current_quote (KanyeQuoteApp.quote_manager a') = "A" /\
    fst (QuoteManager.is_favorite
           (QuoteManager.current_quote (KanyeQuoteApp.quote_manager a'))
           (KanyeQuoteApp.quote_manager a', w')) = Ok false /\
    KanyeQuoteApp.favorite_indicator a' = true.
Proof.
  exact (@removal_leaves_indicator 0
           (KanyeQuoteApp.with_favorite_indicator true
              (KanyeQuoteApp.started
                 {| QuoteManager.history := [];
                    QuoteManager.favorites := ["A"; "B"];
                    QuoteManager.current_quote := "A" |}))
           fresh_world eq_refl eq_refl eq_refl).
Defined.

End Display.

(* ================================================================== *)
(** ** Storage along a run *)

Section WriteThrough.
Import Py IO Props Props2.

Lemma same_faults_refl (w : world) : same_faults w w.
Proof. unfold same_faults. auto. Qed.

Lemma cb_moves_faults (cb : KanyeQuoteApp.callback)
      (s s' : KanyeQuoteApp.t * world) :
  cb_moves cb s s' -> same_faults (snd s) (snd s').
Proof.
  intros H; destruct H as [show a w|q now a w|e fb now line a w Hin|a w]; simpl.
  - apply same_faults_refl.
  - apply after_save_same_faults.
  - unfold same_faults. simpl. auto.
  - apply same_faults_refl.
Qed.

(** No event changes whether the directory can be made or a file can be
    written. *)
Lemma moves_faults (b : kind) (s s' : KanyeQuoteApp.t * world) :
  moves b s s' -> same_faults (snd s) (snd s').
Proof.
  intros H.
  destruct H as [a w|a w L|i a w T|i cb lines a w T C|cb rest a w s' Q Hcb
                |cb rest a w s' Q Hcb|b m' a w G T|index q l a w N R|q now a w|a w];
    simpl;
    try apply same_faults_refl;
    try apply after_save_same_faults;
    try exact (cb_moves_faults Hcb).
  unfold same_faults. simpl. auto.
Qed.

Lemma run_unhindered (evs : list KanyeQuoteApp.event)
      (s : KanyeQuoteApp.t * world) :
  unhindered (snd (KanyeQuoteApp.run evs s)) = unhindered (snd s).
Proof.
  revert s. induction evs as [|ev evs IH]; simpl; intros s; [reflexivity|].
  rewrite IH. destruct (step_moves ev s) as (b & _ & _ & Hm).
  apply same_faults_unhindered. exact (moves_faults Hm).
Qed.

(** X5: write-through.  In a world where nothing hinders a save, each of
    [_display_quote], [toggle_favorite] with a current quote, and
    [remove_selected] on an existing row leaves storage holding exactly the
    favorites in memory and the last 50 entries of the history in memory. *)
Theorem saving_handlers_write_through (a : KanyeQuoteApp.t) (w : world) :
  unhindered w = true ->
  (forall q now,
      synced
        (KanyeQuoteApp.quote_manager
           (fst (snd (KanyeQuoteApp._display_quote q now (a, w)))))
        (snd (snd (KanyeQuoteApp._display_quote q now (a, w))))) /\
  (QuoteManager.current_quote (KanyeQuoteApp.quote_manager a) <> "" ->
   synced
     (KanyeQuoteApp.quote_manager (fst (snd (KanyeQuoteApp.toggle_favorite (a, w)))))
     (snd (snd (KanyeQuoteApp.toggle_favorite (a, w))))) /\
  (forall index,
      index < List.length (QuoteManager.favorites (KanyeQuoteApp.quote_manager a)) ->
      synced
        (KanyeQuoteApp.quote_manager
           (fst (snd (KanyeQuoteApp.remove_selected index (a, w)))))
        (snd (snd (KanyeQuoteApp.remove_selected index (a, w))))).
Proof.
  intros U. split; [|split].
  - intros q now. rewrite display_quote_eq. simpl.
    destruct a as [m ld qt lt fi sl qb aq tm th]. simpl.
    apply after_save_synced, U.
  - intros Hq.
    assert (G : str_truthy
                  (QuoteManager.current_quote (KanyeQuoteApp.quote_manager a)) = true).
    { destruct (QuoteManager.current_quote (KanyeQuoteApp.quote_manager a));
        [congruence | reflexivity]. }
    destruct (@app_toggle_favorite_eq a w G) as (b & m' & _ & ->). simpl.
    destruct a as [m ld qt lt fi sl qb aq tm th]. simpl.
    apply after_save_synced, U.
  - intros index Hi.
    destruct (nth_error (QuoteManager.favorites (KanyeQuoteApp.quote_manager a)) index)
      as [q|] eqn:N; [|apply nth_error_None in N; lia].
    destruct (@nth_error_list_remove _ _ _ N) as [l R].
    rewrite (@remove_selected_eq index q l a w N R). simpl.
    destruct a as [m ld qt lt fi sl qb aq tm th]. simpl.
    apply after_save_synced, U.
Qed.

Lemma saving_handlers_write_through_witness :
  synced
    (KanyeQuoteApp.quote_manager
       (fst (snd (KanyeQuoteApp._display_quote "A" "t" first_start))))
    (snd (snd (KanyeQuoteApp._display_quote "A" "t" first_start))).
Proof.
  exact (proj1 (@saving_handlers_write_through
                  (KanyeQuoteApp.started QuoteManager.blank) fresh_world eq_refl)
               "A" "t").
Defined.

(** X7: what a restart shows.  After a save that nothing hindered, the
    application started on the same storage counts
    as quotes viewed the smaller of 50 and the number of history entries the
    old session had, shows the same number of favorites, and has no current
    quote. *)
Theorem restart_counts (m : QuoteManager.t) (w : world) :
  unhindered w = true ->
  exists m',
    QuoteManager.new (snd (snd (QuoteManager.save_data (m, w))))
      = (Ok m', snd (snd (QuoteManager.save_data (m, w)))) /\
    KanyeQuoteApp.stats_label (KanyeQuoteApp.started m')
      = (Nat.min 50 (List.length (QuoteManager.history m)),
         List.length (QuoteManager.favorites m)) /\
    QuoteManager.current_quote m' = "" /\
    KanyeQuoteApp.favorite_indicator (KanyeQuoteApp.started m') = false.
Proof.
  intros U. rewrite save_data_run. simpl.
  pose proof (after_save_synced m w U) as [Hf Hh].
  pose proof (after_save_same_faults m w) as (Hd & _).
  unfold unhindered in U. apply andb_prop in U. destruct U as [D _].
  rewrite new_run. unfold startable. rewrite Hd, D, Hf, Hh. simpl.
  eexists. split; [reflexivity|]. unfold loaded. simpl.
  rewrite Hf, Hh. rewrite slice_last_length. auto.
Qed.

Lemma restart_counts_witness :
  exists m',
    QuoteManager.new (snd (snd (QuoteManager.save_data (long_session, fresh_world))))
      = (Ok m', snd (snd (QuoteManager.save_data (long_session, fresh_world)))) /\
    KanyeQuoteApp.stats_label (KanyeQuoteApp.started m') = (50, 2) /\
    QuoteManager.current_quote m' = "" /\
    KanyeQuoteApp.favorite_indicator (KanyeQuoteApp.started m') = false.
Proof.
  exact (@restart_counts long_session fresh_world eq_refl).
Defined.

End WriteThrough.

(* ================================================================== *)
(** ** Requests and history entries *)

Section Requests.
Import Py IO Props Props2.


Lemma after_save_requests (m : QuoteManager.t) (w : world) :
  requests_made (after_save m w) = requests_made w.
Proof.
  unfold after_save. destruct w as [d ff fh f h ws n out]. simpl.
  destruct d, ff, fh; reflexivity.
Qed.






End Requests.

Section FetchCycle.
Import Py IO Props Props2.

Lemma fallback_quotes_nonempty (q : string) :
  In q Config.FALLBACK_QUOTES -> str_truthy q = true.
Proof.
  assert (H : forallb str_truthy Config.FALLBACK_QUOTES = true) by reflexivity.
  intros Hq. exact (proj1 (forallb_forall _ _) H q Hq).
Qed.

(** The callback [_fetch_quote] queues for each outcome of the request, and
    what it prints. *)
Lemma fetch_cycle_before_callback
      (resp : KanyeQuoteApp.response) (now : string)
      (m : QuoteManager.t) (w : world) :
  KanyeQuoteApp.run
    [ KanyeQuoteApp.EvGetQuote; KanyeQuoteApp.EvThread 0 resp;
      KanyeQuoteApp.EvMainloop 0 now; KanyeQuoteApp.EvThread 0 resp ]
    (KanyeQuoteApp.started m, w)
  = (KanyeQuoteApp.with_threads [KanyeQuoteApp.Finished]
       (KanyeQuoteApp.with_after_queue
          [ match resp with
            | KanyeQuoteApp.Json (Some q) =>
                if str_truthy q then KanyeQuoteApp.CbDisplayQuote q
                else KanyeQuoteApp.CbHandleError "unknown"
            | KanyeQuoteApp.Json None => KanyeQuoteApp.CbHandleError "unknown"
            | KanyeQuoteApp.Timeout => KanyeQuoteApp.CbHandleError "timeout"
            | KanyeQuoteApp.ConnectionError =>
                KanyeQuoteApp.CbHandleError "connection"
            | KanyeQuoteApp.OtherError _ => KanyeQuoteApp.CbHandleError "unknown"
            end ]
          (shown_loading true (KanyeQuoteApp.started m))),
     requested
       match resp with
       | KanyeQuoteApp.Json (Some q) =>
           if str_truthy q then [] else ["API Error: Empty quote received"]
       | KanyeQuoteApp.Json None => ["API Error: Empty quote received"]
       | KanyeQuoteApp.OtherError msg => [String.append "API Error: " msg]
       | _ => []
       end
       w).
Proof.
  destruct w as [d ff fh f h ws n out].
  destruct resp as [[q|]| | |msg]; try destruct (str_truthy q) eqn:Q.
  all: cbn -[str_truthy].
  all: unfold KanyeQuoteApp.dispatch, KanyeQuoteApp._fetch_quote_request, bind.
  all: cbn -[str_truthy].
  all: rewrite ?Q.
  all: cbn.
  all: unfold requested; simpl; rewrite ?app_nil_r; reflexivity.
Qed.

Lemma run_app (evs1 evs2 : list KanyeQuoteApp.event)
      (s : KanyeQuoteApp.t * world) :
  KanyeQuoteApp.run (evs1 ++ evs2) s
    = KanyeQuoteApp.run evs2 (KanyeQuoteApp.run evs1 s).
Proof.
  revert s. induction evs1 as [|ev evs1 IH]; simpl; intros s; [reflexivity|].
  apply IH.
Qed.

Lemma mainloop_step (cb : KanyeQuoteApp.callback)
      (rest : list KanyeQuoteApp.callback) (r : nat) (now : string)
      (a : KanyeQuoteApp.t) (w : world) :
  KanyeQuoteApp.after_queue a = cb :: rest ->
  KanyeQuoteApp.step (KanyeQuoteApp.EvMainloop r now) (a, w)
    = snd (KanyeQuoteApp.run_callback cb r now
             (KanyeQuoteApp.with_after_queue rest a, w)).
Proof. intros Q. simpl. rewrite Q. reflexivity. Qed.

(** X9: one undisturbed fetch cycle always ends with a quote on display.
    Whatever the remote source answers, after the cycle the loading flag is
    off, the button is enabled, no fetch is in flight, one request was made,
    and a non-empty quote is the current quote, the text on the canvas and
    the one new history entry with the time of the callback.  It is the
    remote quote when the answer carries a non-empty "quote" field, and one
    of the fallback corpus in every other case: timeout, connection error,
    any other error, a missing or an empty field. *)
Theorem fetch_cycle_shows_a_quote
        (resp : KanyeQuoteApp.response) (r : nat) (now : string)
        (m : QuoteManager.t) (w : world) :
  let s := KanyeQuoteApp.run (fetch_cycle resp r now) (KanyeQuoteApp.started m, w) in
  exists q,
    str_truthy q = true /\
    KanyeQuoteApp.quote_manager (fst s) = recorded q now m /\
    KanyeQuoteApp.quote_text (fst s) = quoted q /\
    KanyeQuoteApp.is_loading (fst s) = false /\
    KanyeQuoteApp.quote_button_enabled (fst s) = true /\
    KanyeQuoteApp.in_flight (fst s) = false /\
    requests_made (snd s) = S (requests_made w) /\
    match resp with
    | KanyeQuoteApp.Json (Some q') =>
        if str_truthy q' then q = q' else In q Config.FALLBACK_QUOTES
    | _ => In q Config.FALLBACK_QUOTES
    end.
Proof.
  cbv zeta.
  change (fetch_cycle resp r now)
    with ([ KanyeQuoteApp.EvGetQuote; KanyeQuoteApp.EvThread 0 resp;
            KanyeQuoteApp.EvMainloop 0 now; KanyeQuoteApp.EvThread 0 resp ]
            ++ [KanyeQuoteApp.EvMainloop r now]).
  rewrite run_app, fetch_cycle_before_callback.
  destruct (@random_choice_nonempty string r Config.FALLBACK_QUOTES)
    as [fallback E]; [discriminate|].
  pose proof (random_choice_In _ _ E) as Hin.
  pose proof (@fallback_quotes_nonempty fallback Hin) as Hne.
  change (KanyeQuoteApp.run [KanyeQuoteApp.EvMainloop r now] ?s)
    with (KanyeQuoteApp.step (KanyeQuoteApp.EvMainloop r now) s).
  match goal with
  | |- context [KanyeQuoteApp.step _ (KanyeQuoteApp.with_threads ?t
                   (KanyeQuoteApp.with_after_queue [?cb] ?a0), ?w0)] =>
      rewrite (@mainloop_step cb [] r now
                 (KanyeQuoteApp.with_threads t
                    (KanyeQuoteApp.with_after_queue [cb] a0)) w0 eq_refl)
  end.
  assert (Hfall : forall e a0 w0,
    KanyeQuoteApp.run_callback (KanyeQuoteApp.CbHandleError e) r now (a0, w0)
      = KanyeQuoteApp._handle_error e r now (a0, w0)) by reflexivity.
  destruct resp as [[q|]| | |msg]; try destruct (str_truthy q) eqn:Q.
  2-6: rewrite Hfall;
       match goal with
       | |- context [KanyeQuoteApp._handle_error ?e _ _ (?a0, ?w0)] =>
           destruct (@handle_error_eq e r now fallback a0 w0 E) as [line ->]
       end;
       exists fallback; simpl; repeat split; assumption.
  exists q.
  change (KanyeQuoteApp.run_callback (KanyeQuoteApp.CbDisplayQuote q) r now ?s)
    with (KanyeQuoteApp._display_quote q now s).
  rewrite display_quote_eq. simpl.
  rewrite after_save_requests. simpl. repeat split. exact Q.
Qed.

End FetchCycle.

(* ================================================================== *)
(** ** Copying and sharing the current quote *)

Section CopyAndShare.
Import Py IO Props Props2.

Lemma str_truthy_false (s : string) : str_truthy s = false <-> s = "".
Proof. destruct s; simpl; split; congruence. Qed.

(** X10: [copy_quote] never raises.  With no current quote it changes
    nothing.  Otherwise it opens no URL and leaves the manager alone; when
    pyperclip or, failing that, the Tk clipboard works, the clipboard holds
    the quote in double quotes followed by " - Kanye West" and the success
    message is flashed; when both fail the failure message is flashed, and
    the clipboard is as before if [clipboard_clear] raised but empty if
    only [clipboard_append] raised. *)
Theorem copy_quote_never_raises
        (a : KanyeQuoteApp.t) (w : world) (e : Desktop.env) :
  let q := QuoteManager.current_quote (KanyeQuoteApp.quote_manager a) in
  let full_quote := String.append (quoted q) " - Kanye West" in
  exists a' e',
    Desktop.copy_quote ((a, w), e) = (Ok PyNone, ((a', w), e')) /\
    Desktop.opened e' = Desktop.opened e /\
    KanyeQuoteApp.quote_manager a' = KanyeQuoteApp.quote_manager a /\
    (q = "" -> a' = a /\ e' = e) /\
    (q <> "" ->
     (Desktop.pyperclip_works e = true \/ Desktop.tk_clipboard e = Desktop.TkOk ->
      Desktop.clipboard e' = full_quote /\
      a' = flashed "Copied to clipboard!" a) /\
     (Desktop.pyperclip_works e = false ->
      Desktop.tk_clipboard e = Desktop.ClearFails ->
      Desktop.clipboard e' = Desktop.clipboard e /\
      a' = flashed "Could not copy" a) /\
     (Desktop.pyperclip_works e = false ->
      Desktop.tk_clipboard e = Desktop.AppendFails ->
      Desktop.clipboard e' = "" /\
      a' = flashed "Could not copy" a)).
Proof.
  cbv zeta.
  destruct a as [m ld qt lt fi sl qb aq tm th].
  destruct e as [pw tk cl op].
  unfold Desktop.copy_quote, Desktop.on_app, Desktop.on_env, bind, try_except,
    ret, KanyeQuoteApp.this, KanyeQuoteApp._flash_message,
    KanyeQuoteApp.update, KanyeQuoteApp.after1500, modify,
    Desktop.pyperclip_copy, Desktop.clipboard_clear, Desktop.clipboard_append.
  simpl.
  destruct (str_truthy (QuoteManager.current_quote m)) eqn:Q; simpl.
  - assert (Hq : QuoteManager.current_quote m <> "").
    { intros H. apply str_truthy_false in H. congruence. }
    destruct pw, tk; simpl; do 2 eexists;
      (split; [reflexivity|]); simpl;
      (split; [reflexivity|]); (split; [reflexivity|]);
      (split; [intros H; contradiction|]); intros _;
      repeat split; intros; try reflexivity; try congruence;
      match goal with
      | H : _ \/ _ |- _ => destruct H; congruence
      end.
  - apply str_truthy_false in Q.
    do 2 eexists. split; [reflexivity|]. simpl.
    repeat split; intros; try reflexivity; congruence.
Qed.

Lemma hex_digit_safe (n : nat) :
  n < 16 -> Desktop.always_safe (Desktop.hex_digit n) = true.
Proof.
  intros H. do 16 (destruct n as [|n]; [reflexivity|]). lia.
Qed.

Lemma url_char_hex (n : nat) : n < 16 -> url_char (Desktop.hex_digit n) = true.
Proof.
  intros H. unfold url_char. rewrite (hex_digit_safe H). reflexivity.
Qed.

(** What [urllib.parse.quote_from_bytes] returns has only letters, digits,
    the marks [_.-~/] and percent signs. *)
Lemma quote_from_bytes_chars (s : string) :
  all_chars url_char (Desktop.quote_from_bytes s) = true.
Proof.
  induction s as [|c s IH]; [reflexivity|].
  cbn [Desktop.quote_from_bytes].
  destruct (Desktop.always_safe c) eqn:S; cbn [all_chars].
  - unfold url_char at 1. rewrite S, IH. reflexivity.
  - pose proof (nat_ascii_bounded c) as B.
    rewrite IH, !url_char_hex.
    + reflexivity.
    + apply Nat.mod_upper_bound. discriminate.
    + apply Nat.Div0.div_lt_upper_bound. simpl. exact B.
Qed.

(** A text followed by one that starts below 0xA0 has a lone surrogate
    exactly when one of the two has. *)
Lemma has_lone_surrogate_app (s : string) (c0 : ascii) (t : string) :
  Nat.leb 160 (nat_of_ascii c0) = false ->
  Desktop.has_lone_surrogate (String.append s (String c0 t))
    = Desktop.has_lone_surrogate s || Desktop.has_lone_surrogate (String c0 t).
Proof.
  intros H0. induction s as [|c s IH]; [reflexivity|].
  cbn [String.append].
  change (Desktop.has_lone_surrogate (String c (String.append s (String c0 t))))
    with ((Nat.eqb (nat_of_ascii c) 237 &&
           match String.append s (String c0 t) with
           | String c' _ =>
               Nat.leb 160 (nat_of_ascii c') && Nat.leb (nat_of_ascii c') 191
           | EmptyString => false
           end)
          || Desktop.has_lone_surrogate (String.append s (String c0 t))).
  change (Desktop.has_lone_surrogate (String c s))
    with ((Nat.eqb (nat_of_ascii c) 237 &&
           match s with
           | String c' _ =>
               Nat.leb 160 (nat_of_ascii c') && Nat.leb (nat_of_ascii c') 191
           | EmptyString => false
           end)
          || Desktop.has_lone_surrogate s).
  rewrite IH. destruct s as [|c1 s1]; cbn [String.append].
  - rewrite H0. cbn [andb]. rewrite andb_false_r. reflexivity.
  - rewrite orb_assoc. reflexivity.
Qed.

(** The tweet text has a lone surrogate exactly when the quote has. *)
Lemma tweet_text_surrogate (q : string) :
  Desktop.has_lone_surrogate
    (String.append (quoted q) " - Kanye West #KanyeSays")
  = Desktop.has_lone_surrogate q.
Proof.
  unfold quoted, dquote. cbn [String.append].
  change (Desktop.has_lone_surrogate
            (String (ascii_of_nat 34)
               (String.append (String.append q (String (ascii_of_nat 34) ""))
                  " - Kanye West #KanyeSays")))
    with (false
          || Desktop.has_lone_surrogate
               (String.append (String.append q (String (ascii_of_nat 34) ""))
                  " - Kanye West #KanyeSays")).
  cbn [orb].
  rewrite (@has_lone_surrogate_app _ " "%char "- Kanye West #KanyeSays" eq_refl).
  rewrite (@has_lone_surrogate_app q (ascii_of_nat 34) "" eq_refl).
  change (Desktop.has_lone_surrogate (String (ascii_of_nat 34) "")) with false.
  change (Desktop.has_lone_surrogate " - Kanye West #KanyeSays") with false.
  rewrite !orb_false_r. reflexivity.
Qed.

(** X11: what [share_quote] does, and the one way it fails.  With no
    current quote it returns at its guard and changes nothing.  With a
    current quote that holds no lone surrogate it hands exactly one URL to
    the browser, the tweet-intent address followed by the percent-encoded
    text, in which only letters, digits, [_.-~/] and the percent sign occur
    (so no space, quote, hash or ampersand), flashes its message and leaves
    manager, storage and clipboard alone.  With a current quote that holds
    a lone surrogate, [urllib.parse.quote] raises and the handler with it:
    no URL is opened, no message flashed, nothing changed. *)
Theorem share_quote_opens_encoded_url
        (a : KanyeQuoteApp.t) (w : world) (e : Desktop.env) :
  let q := QuoteManager.current_quote (KanyeQuoteApp.quote_manager a) in
  let tweet_text := String.append (quoted q) " - Kanye West #KanyeSays" in
  (q = "" -> Desktop.share_quote ((a, w), e) = (Ok PyNone, ((a, w), e))) /\
  (q <> "" -> Desktop.has_lone_surrogate q = false ->
   Desktop.share_quote ((a, w), e)
     = (Ok PyNone,
        ((flashed "Opening Twitter..." a, w),
         Desktop.with_opened
           (Desktop.opened e
              ++ [String.append Desktop.TWEET_INTENT
                    (Desktop.quote_from_bytes tweet_text)]) e)) /\
   all_chars url_char (Desktop.quote_from_bytes tweet_text) = true) /\
  (q <> "" -> Desktop.has_lone_surrogate q = true ->
   exists msg,
     Desktop.share_quote ((a, w), e) = (Raise (ValueError msg), ((a, w), e))).
Proof.
  cbv zeta.
  destruct a as [m ld qt lt fi sl qb aq tm th].
  destruct e as [pw tk cl op].
  unfold Desktop.share_quote, Desktop.on_app, Desktop.on_env, bind, ret, lift,
    Desktop.urllib_quote,
    KanyeQuoteApp.this, KanyeQuoteApp._flash_message,
    KanyeQuoteApp.update, KanyeQuoteApp.after1500, modify,
    Desktop.webbrowser_open.
  cbn -[Desktop.quote_from_bytes Desktop.has_lone_surrogate quoted String.append].
  rewrite tweet_text_surrogate.
  destruct (str_truthy (QuoteManager.current_quote m)) eqn:Q;
    cbn -[Desktop.quote_from_bytes Desktop.has_lone_surrogate quoted String.append].
  - split; [|split].
    + intros H. apply str_truthy_false in H. congruence.
    + intros _ S. rewrite S. split; [reflexivity|].
      apply quote_from_bytes_chars.
    + intros _ S. rewrite S. eexists. reflexivity.
  - apply str_truthy_false in Q. split; [|split].
    + reflexivity.
    + intros H. congruence.
    + intros H. congruence.
Qed.

(** A quote with a lone surrogate, the bytes of U+D800: [share_quote]
    raises and opens nothing. *)
Example share_quote_of_lone_surrogate :
  let q := String (ascii_of_nat 237)
             (String (ascii_of_nat 160) (String (ascii_of_nat 128) "")) in
  let a := KanyeQuoteApp.started
             (QuoteManager.with_current_quote q QuoteManager.blank) in
  let e := {| Desktop.pyperclip_works := true; Desktop.tk_clipboard := Desktop.TkOk;
              Desktop.clipboard := ""; Desktop.opened := [] |} in
  fst (Desktop.share_quote ((a, fresh_world), e))
    = Raise (ValueError "'utf-8' codec can't encode character: surrogates not allowed") /\
  Desktop.opened (snd (snd (Desktop.share_quote ((a, fresh_world), e)))) = [].
Proof. split; reflexivity. Qed.

End CopyAndShare.

(* ================================================================== *)
(** ** The favorites window *)

Section Window.
Import Py IO Props Props2.

Lemma enumerate_combine {A : Type} (start : nat) (l : list A) :
  FavoritesWindow.enumerate start l = combine (seq start (List.length l)) l.
Proof.
  revert start. induction l as [|x l IH]; simpl; intros start; [reflexivity|].
  rewrite IH. reflexivity.
Qed.

(** On a list without duplicates, [l.remove(l[i])] removes position [i]. *)
Lemma list_remove_nth (i : nat) (q : string) (l : list string) :
  NoDup l -> nth_error l i = Some q ->
  list_remove q l = Some (FavoritesWindow.delete_row i l).
Proof.
  revert i. induction l as [|x l IH]; intros [|i] Hnd Hn; simpl in *;
    try discriminate.
  - injection Hn as ->. rewrite String.eqb_refl. reflexivity.
  - inversion Hnd as [|? ? Hx Hl]; subst.
    destruct (String.eqb_spec x q) as [E|E].
    + subst x. exfalso. apply Hx. exact (nth_error_In _ _ Hn).
    + rewrite (IH i Hl Hn). reflexivity.
Qed.

Lemma delete_row_length {A : Type} (i : nat) (l : list A) :
  List.length (FavoritesWindow.delete_row i l)
    = if Nat.ltb i (List.length l) then List.length l - 1 else List.length l.
Proof.
  revert i. induction l as [|x l IH]; intros [|i]; simpl; try reflexivity.
  - lia.
  - rewrite IH. change (Nat.ltb (S i) (S (List.length l)))
      with (Nat.ltb i (List.length l)).
    destruct (Nat.ltb_spec i (List.length l)); lia.
Qed.

Lemma delete_row_combine {A B : Type} (i : nat) (l : list A) (k : list B) :
  FavoritesWindow.delete_row i (combine l k)
    = combine (FavoritesWindow.delete_row i l) (FavoritesWindow.delete_row i k).
Proof.
  revert i k. induction l as [|x l IH]; intros i [|y k]; simpl.
  - destruct i; reflexivity.
  - destruct i; reflexivity.
  - destruct i; simpl; [destruct l; reflexivity|].
    destruct (FavoritesWindow.delete_row i l); reflexivity.
  - destruct i; simpl; [reflexivity|]. rewrite IH. reflexivity.
Qed.

Lemma delete_row_map {A B : Type} (f : A -> B) (i : nat) (l : list A) :
  FavoritesWindow.delete_row i (map f l) = map f (FavoritesWindow.delete_row i l).
Proof.
  revert i. induction l as [|x l IH]; intros [|i]; simpl; try reflexivity.
  rewrite IH. reflexivity.
Qed.

Lemma delete_row_In (i : nat) (x : string) (l : list string) :
  In x (FavoritesWindow.delete_row i l) -> In x l.
Proof.
  revert i. induction l as [|y l IH]; intros [|i]; simpl; try tauto.
  intros [H|H]; [left; exact H | right; exact (IH i H)].
Qed.

Lemma delete_row_NoDup (i : nat) (l : list string) :
  NoDup l -> NoDup (FavoritesWindow.delete_row i l).
Proof.
  revert i. induction l as [|x l IH]; intros [|i] Hnd; simpl.
  - constructor.
  - constructor.
  - inversion Hnd; assumption.
  - inversion Hnd as [|? ? Hx Hl]; subst. constructor.
    + intros Hin. apply Hx. exact (@delete_row_In _ _ _ Hin).
    + apply IH, Hl.
Qed.

Lemma rows_show_delete (i : nat) (rows favs : list string) :
  rows_show rows favs ->
  rows_show (FavoritesWindow.delete_row i rows) (FavoritesWindow.delete_row i favs).
Proof.
  intros (numbers & Hlen & ->).
  exists (FavoritesWindow.delete_row i numbers). split.
  - rewrite !delete_row_length, Hlen. reflexivity.
  - rewrite delete_row_map, delete_row_combine. reflexivity.
Qed.

(** One click on Remove, with the favorites free of duplicates. *)
Lemma window_remove_selected_run (index : nat) (v : FavoritesWindow.win)
      (a : KanyeQuoteApp.t) (w : world) :
  NoDup (QuoteManager.favorites (KanyeQuoteApp.quote_manager a)) ->
  let out := FavoritesWindow.remove_selected (Some index) (v, (a, w)) in
  (index < List.length (QuoteManager.favorites (KanyeQuoteApp.quote_manager a)) ->
   fst out = Ok tt /\
   FavoritesWindow.rows (fst (snd out))
     = FavoritesWindow.delete_row index (FavoritesWindow.rows v) /\
   QuoteManager.favorites (KanyeQuoteApp.quote_manager (fst (snd (snd out))))
     = FavoritesWindow.delete_row index
         (QuoteManager.favorites (KanyeQuoteApp.quote_manager a))) /\
  (List.length (QuoteManager.favorites (KanyeQuoteApp.quote_manager a)) <= index ->
   out = (Raise (IndexError "list index out of range"), (v, (a, w)))).
Proof.
  intros Hnd. cbv zeta.
  unfold FavoritesWindow.remove_selected, FavoritesWindow.on_app,
    FavoritesWindow.on_win, bind, KanyeQuoteApp.this, modify.
  simpl.
  destruct (nth_error (QuoteManager.favorites (KanyeQuoteApp.quote_manager a)) index)
    as [q|] eqn:N.
  - rewrite (@list_remove_nth _ _ _ Hnd N). split.
    + intros _.
      unfold KanyeQuoteApp.on_manager. simpl.
      rewrite save_data_run. simpl.
      destruct a as [m ld qt lt fi sl qb aq tm th]. simpl. auto.
    + intros Hle. apply nth_error_None in Hle. congruence.
  - split.
    + intros Hlt. apply nth_error_None in N. lia.
    + intros _. reflexivity.
Qed.

(** X12: the rows of the favorites window stay in step with the favorites.
    When the favorites have no duplicates and the window was just opened by
    [show_favorites], then after any sequence of clicks on Remove, on rows
    that exist or not, row [k] of the listbox is still the row of favorite
    [k] for every [k], and the favorites still have no duplicates. *)
Theorem window_rows_follow_favorites
        (a : KanyeQuoteApp.t) (w : world) (v : FavoritesWindow.win)
        (clicks : list nat) :
  NoDup (QuoteManager.favorites (KanyeQuoteApp.quote_manager a)) ->
  FavoritesWindow.show_favorites a = FavoritesWindow.Window v ->
  let s :=
    fold_left
      (fun s index => snd (FavoritesWindow.remove_selected (Some index) s))
      clicks (v, (a, w)) in
  rows_show (FavoritesWindow.rows (fst s))
            (QuoteManager.favorites (KanyeQuoteApp.quote_manager (fst (snd s)))) /\
  NoDup (QuoteManager.favorites (KanyeQuoteApp.quote_manager (fst (snd s)))).
Proof.
  intros Hnd Hshow. cbv zeta.
  assert (H0 : rows_show (FavoritesWindow.rows v)
                 (QuoteManager.favorites (KanyeQuoteApp.quote_manager a))).
  { unfold FavoritesWindow.show_favorites in Hshow.
    destruct (QuoteManager.favorites (KanyeQuoteApp.quote_manager a))
      as [|x l] eqn:F; [discriminate|].
    injection Hshow as <-. simpl FavoritesWindow.rows.
    exists (seq 1 (List.length (x :: l))). split; [apply length_seq|].
    rewrite enumerate_combine. reflexivity. }
  clear Hshow. revert v a w Hnd H0.
  induction clicks as [|index clicks IH]; intros v a w Hnd H0;
    cbn [fold_left fst snd].
  - split; assumption.
  - pose proof (@window_remove_selected_run index v a w Hnd) as [Hin Hout].
    cbv zeta in Hin, Hout.
    destruct (FavoritesWindow.remove_selected (Some index) (v, (a, w)))
      as [r [v' [a' w']]] eqn:E.
    cbn [fst snd] in *.
    destruct (Nat.lt_ge_cases index
                (List.length (QuoteManager.favorites (KanyeQuoteApp.quote_manager a))))
      as [Hlt|Hge].
    + destruct (Hin Hlt) as (_ & Hr & Hf).
      apply IH.
      * rewrite Hf. apply delete_row_NoDup, Hnd.
      * rewrite Hr, Hf. apply rows_show_delete, H0.
    + specialize (Hout Hge). injection Hout as _ -> -> ->.
      apply IH; assumption.
Qed.

Lemma window_rows_follow_favorites_witness :
  rows_show
    (FavoritesWindow.rows
       (fst (fold_left
               (fun s index => snd (FavoritesWindow.remove_selected (Some index) s))
               [1; 5; 0]
               ({| FavoritesWindow.rows := ["1. A"; "2. B"; "3. C"];
                   FavoritesWindow.destroyed := false |},
                (KanyeQuoteApp.started
                   {| QuoteManager.history := [];
                      QuoteManager.favorites := ["A"; "B"; "C"];
                      QuoteManager.current_quote := "" |},
                 fresh_world)))))
    ["C"].
Proof.
  assert (Hnd : NoDup ["A"; "B"; "C"]).
  { repeat constructor; simpl; intuition discriminate. }
  exact (proj1 (@window_rows_follow_favorites
                  (KanyeQuoteApp.started
                     {| QuoteManager.history := [];
                        QuoteManager.favorites := ["A"; "B"; "C"];
                        QuoteManager.current_quote := "" |})
                  fresh_world
                  {| FavoritesWindow.rows := ["1. A"; "2. B"; "3. C"];
                     FavoritesWindow.destroyed := false |}
                  [1; 5; 0] Hnd eq_refl)).
Defined.

(** X13: Use This Quote.  With no row selected nothing happens; with a
    selection that is no index of the favorites the handler raises before
    anything changed and the window stays; and with a selection on favorite
    [q] the window is destroyed and [q] is displayed like a fetched quote:
    it is the current quote and the text on the canvas, the history has one
    more entry, for [q] at the time of the click, the heart is shown, and
    the state was saved. *)
Theorem use_selected_displays_favorite
        (now : string) (v : FavoritesWindow.win)
        (a : KanyeQuoteApp.t) (w : world) :
  FavoritesWindow.use_selected None now (v, (a, w)) = (Ok tt, (v, (a, w))) /\
  (forall index,
      nth_error (QuoteManager.favorites (KanyeQuoteApp.quote_manager a)) index = None ->
      FavoritesWindow.use_selected (Some index) now (v, (a, w))
        = (Raise (IndexError "list index out of range"), (v, (a, w)))) /\
  (forall index q,
      nth_error (QuoteManager.favorites (KanyeQuoteApp.quote_manager a)) index = Some q ->
      exists a',
        FavoritesWindow.use_selected (Some index) now (v, (a, w))
          = (Ok tt,
             ({| FavoritesWindow.rows := FavoritesWindow.rows v;
                 FavoritesWindow.destroyed := true |},
              (a', after_save (recorded q now (KanyeQuoteApp.quote_manager a)) w))) /\
        KanyeQuoteApp.quote_manager a' = recorded q now (KanyeQuoteApp.quote_manager a) /\
        KanyeQuoteApp.quote_text a' = quoted q /\
        KanyeQuoteApp.favorite_indicator a' = true).
Proof.
  split; [reflexivity|]. split.
  - intros index N.
    unfold FavoritesWindow.use_selected, FavoritesWindow.on_app, bind,
      KanyeQuoteApp.this.
    simpl. rewrite N. reflexivity.
  - intros index q N. exists (displayed q now a).
    unfold FavoritesWindow.use_selected, FavoritesWindow.on_app, bind,
      KanyeQuoteApp.this.
    cbn [fst snd]. rewrite N. cbn [fst snd].
    rewrite display_quote_eq. cbn [fst snd]. split; [reflexivity|].
    destruct a as [m ld qt lt fi sl qb aq tm th]. simpl in *.
    repeat split. apply py_in_In. exact (nth_error_In _ _ N).
Qed.

(** X14: Random Favorite.  The button always destroys the window and
    displays what [get_random_favorite] returned: one of the favorites,
    with the heart shown, when there are favorites; and when there are none
    (every one was removed in the window) the empty string, which then is
    the current quote and the quote of a new history entry. *)
Theorem random_favorite_button
        (r : nat) (now : string) (v : FavoritesWindow.win)
        (a : KanyeQuoteApp.t) (w : world) :
  exists q,
    FavoritesWindow.random_favorite r now (v, (a, w))
      = (Ok tt,
         ({| FavoritesWindow.rows := FavoritesWindow.rows v;
             FavoritesWindow.destroyed := true |},
          (displayed q now a,
           after_save (recorded q now (KanyeQuoteApp.quote_manager a)) w))) /\
    KanyeQuoteApp.quote_manager (displayed q now a)
      = recorded q now (KanyeQuoteApp.quote_manager a) /\
    (QuoteManager.favorites (KanyeQuoteApp.quote_manager a) = [] -> q = "") /\
    (QuoteManager.favorites (KanyeQuoteApp.quote_manager a) <> [] ->
     In q (QuoteManager.favorites (KanyeQuoteApp.quote_manager a)) /\
     KanyeQuoteApp.favorite_indicator (displayed q now a) = true).
Proof.
  destruct (get_random_favorite_returns r (KanyeQuoteApp.quote_manager a) w)
    as (q & E & Hempty & Hsome).
  exists q.
  unfold FavoritesWindow.random_favorite, FavoritesWindow.on_app, bind,
    KanyeQuoteApp.on_manager.
  cbn [fst snd]. rewrite E. cbn [fst snd].
  rewrite with_quote_manager_same, display_quote_eq. cbn [fst snd].
  split; [reflexivity|].
  destruct a as [m ld qt lt fi sl qb aq tm th]. simpl in *.
  split; [reflexivity|]. split; [exact Hempty|].
  intros Hne. split; [exact (Hsome Hne)|]. apply py_in_In. exact (Hsome Hne).
Qed.

(** The events of the application that stand for the three buttons of
    the window do to the application and the world what the handlers with
    the window do. *)
Lemma window_buttons_as_events
      (v : FavoritesWindow.win) (s : KanyeQuoteApp.t * world) :
  (forall index now,
      snd (snd (FavoritesWindow.use_selected (Some index) now (v, s)))
        = KanyeQuoteApp.step (KanyeQuoteApp.EvUseSelected index now) s) /\
  (forall r now,
      snd (snd (FavoritesWindow.random_favorite r now (v, s)))
        = KanyeQuoteApp.step (KanyeQuoteApp.EvRandomFavorite r now) s) /\
  (forall index,
      snd (snd (FavoritesWindow.remove_selected (Some index) (v, s)))
        = KanyeQuoteApp.step (KanyeQuoteApp.EvRemoveSelected index) s).
Proof.
  destruct s as [a w]. split; [|split].
  - intros index now.
    unfold FavoritesWindow.use_selected, FavoritesWindow.on_app, bind,
      KanyeQuoteApp.this.
    cbn [KanyeQuoteApp.step]. unfold KanyeQuoteApp.dispatch,
      KanyeQuoteApp.use_selected, bind, KanyeQuoteApp.this.
    cbn [fst snd].
    destruct (nth_error (QuoteManager.favorites (KanyeQuoteApp.quote_manager a))
                        index) as [q|]; [|reflexivity].
    cbn [fst snd]. rewrite display_quote_eq. reflexivity.
  - intros r now.
    destruct (get_random_favorite_returns r (KanyeQuoteApp.quote_manager a) w)
      as (q & E & _).
    unfold FavoritesWindow.random_favorite, FavoritesWindow.on_app, bind,
      KanyeQuoteApp.on_manager.
    cbn [KanyeQuoteApp.step]. unfold KanyeQuoteApp.dispatch,
      KanyeQuoteApp.random_favorite, bind, KanyeQuoteApp.on_manager.
    cbn [fst snd]. rewrite E. cbn [fst snd].
    rewrite with_quote_manager_same, display_quote_eq. reflexivity.
  - intros index.
    cbn [KanyeQuoteApp.step]. unfold KanyeQuoteApp.dispatch.
    unfold FavoritesWindow.remove_selected, FavoritesWindow.on_app, bind,
      KanyeQuoteApp.this. cbn [fst snd].
    destruct (nth_error (QuoteManager.favorites (KanyeQuoteApp.quote_manager a))
                        index) as [q|] eqn:N.
    + destruct (@nth_error_list_remove _ _ _ N) as [l R].
      rewrite (@remove_selected_eq index q l a w N R). rewrite R.
      destruct a as [m ld qt lt fi sl qb aq tm th]. cbn [fst snd].
      unfold KanyeQuoteApp.on_manager, QuoteManager.set_favorites, modify,
        FavoritesWindow.on_win, modify, KanyeQuoteApp._update_stats, bind,
        KanyeQuoteApp.this, KanyeQuoteApp.update, modify.
      cbn [fst snd KanyeQuoteApp.quote_manager KanyeQuoteApp.with_quote_manager].
      rewrite save_data_run. reflexivity.
    + rewrite (@remove_selected_out_of_range index a w N). reflexivity.
Qed.

End Window.

(* ================================================================== *)
(** ** Auto-refresh *)

Section AutoRefreshFacts.
Import Py IO Props Props2.

Lemma start_auto_refresh_run (u : AutoRefresh.auto)
      (sw : KanyeQuoteApp.t * world) :
  AutoRefresh._start_auto_refresh (u, sw) =
    (Ok tt,
     ({| AutoRefresh.auto_refresh_var := AutoRefresh.auto_refresh_var u;
         AutoRefresh.auto_refresh_id := Some (AutoRefresh.next_id u);
         AutoRefresh.scheduled := AutoRefresh.scheduled u ++ [AutoRefresh.next_id u];
         AutoRefresh.next_id := S (AutoRefresh.next_id u) |},
      KanyeQuoteApp.step KanyeQuoteApp.EvGetQuote sw)).
Proof.
  destruct sw as [a w].
  unfold AutoRefresh._start_auto_refresh, AutoRefresh.after10000,
    AutoRefresh.set_auto_refresh_id, AutoRefresh.on_auto, AutoRefresh.the_auto,
    AutoRefresh.on_app, bind, modify, ret.
  simpl. unfold KanyeQuoteApp.dispatch, KanyeQuoteApp.get_quote, bind,
    KanyeQuoteApp.this, KanyeQuoteApp.update, modify, ret.
  simpl. destruct (KanyeQuoteApp.is_loading a); reflexivity.
Qed.

Lemma stop_auto_refresh_run (u : AutoRefresh.auto)
      (sw : KanyeQuoteApp.t * world) :
  AutoRefresh._stop_auto_refresh (u, sw) =
    (Ok tt,
     (match AutoRefresh.auto_refresh_id u with
      | Some id =>
          {| AutoRefresh.auto_refresh_var := AutoRefresh.auto_refresh_var u;
             AutoRefresh.auto_refresh_id := None;
             AutoRefresh.scheduled :=
               filter (fun j => negb (Nat.eqb j id)) (AutoRefresh.scheduled u);
             AutoRefresh.next_id := AutoRefresh.next_id u |}
      | None => u
      end, sw)).
Proof.
  unfold AutoRefresh._stop_auto_refresh, AutoRefresh.after_cancel,
    AutoRefresh.set_auto_refresh_id, AutoRefresh.on_auto, AutoRefresh.the_auto,
    bind, modify, ret.
  simpl. destruct (AutoRefresh.auto_refresh_id u); reflexivity.
Qed.

Lemma step_one_timer (ev : AutoRefresh.event)
      (s : AutoRefresh.auto * (KanyeQuoteApp.t * world)) :
  one_timer (fst s) -> one_timer (fst (AutoRefresh.step ev s)).
Proof.
  destruct s as [u sw]. destruct u as [var id sch nxt].
  unfold one_timer. simpl. intros (Hs & Hv & Hb).
  destruct ev as [| tick | | ev]; simpl.
  - (* the checkbox *)
    unfold AutoRefresh.dispatch, AutoRefresh._toggle_auto_refresh,
      AutoRefresh.on_auto, AutoRefresh.the_auto, bind, modify.
    simpl. destruct var; simpl.
    + rewrite stop_auto_refresh_run. simpl.
      destruct id as [i|]; simpl; subst sch; simpl.
      * rewrite Nat.eqb_refl. simpl. repeat split; auto.
        intros j [].
      * repeat split; auto.
    + rewrite start_auto_refresh_run. simpl.
      rewrite (Hv eq_refl) in Hs. subst sch. simpl.
      repeat split; try discriminate.
      intros j [<-|[]]. lia.
  - (* a scheduled callback fires *)
    destruct (existsb (Nat.eqb tick) sch) eqn:E; simpl.
    + unfold AutoRefresh.dispatch, AutoRefresh.on_auto, bind, modify. simpl.
      rewrite start_auto_refresh_run. simpl.
      destruct id as [i|]; subst sch; simpl in *; [|discriminate].
      destruct (Nat.eqb_spec tick i) as [->|Hne]; [|discriminate].
      rewrite Nat.eqb_refl. simpl. repeat split.
      * intros Hvar. specialize (Hv Hvar). discriminate.
      * intros j [<-|[]]. lia.
    + repeat split; assumption.
  - (* quit *)
    unfold AutoRefresh.dispatch, AutoRefresh.quit_app, bind.
    rewrite stop_auto_refresh_run. simpl.
    unfold AutoRefresh.on_app. simpl.
    destruct (KanyeQuoteApp.on_manager QuoteManager.save_data sw)
      as [r sw']. simpl.
    destruct id as [i|]; simpl; subst sch; simpl.
    + rewrite Nat.eqb_refl. simpl. repeat split; auto. intros j [].
    + repeat split; auto.
  - repeat split; assumption.
Qed.

(** X15: at most one auto-refresh callback is ever scheduled.  Starting
    from the attributes [__init__] sets, after any sequence of clicks on
    the checkbox, firings of scheduled callbacks, quits and events of the
    application, the callbacks still scheduled are exactly the one whose
    identifier [auto_refresh_id] holds, or none when it holds [None]; and
    whenever the box is unchecked none is scheduled. *)
Theorem auto_refresh_has_one_timer
        (evs : list AutoRefresh.event) (sw : KanyeQuoteApp.t * world) :
  one_timer (fst (AutoRefresh.run evs (AutoRefresh.initial, sw))).
Proof.
  assert (H0 : one_timer (fst (AutoRefresh.initial, sw))).
  { unfold one_timer. simpl. repeat split. intros j []. }
  revert H0. generalize (AutoRefresh.initial, sw).
  induction evs as [|ev evs IH]; simpl; intros s Hs; [exact Hs|].
  apply IH, step_one_timer, Hs.
Qed.

Lemma run_one_timer (evs : list AutoRefresh.event)
      (s : AutoRefresh.auto * (KanyeQuoteApp.t * world)) :
  one_timer (fst s) -> one_timer (fst (AutoRefresh.run evs s)).
Proof.
  revert s. induction evs as [|ev evs IH]; simpl; intros s Hs; [exact Hs|].
  apply IH, step_one_timer, Hs.
Qed.

(** What an event of the application with auto-refresh does to the
    application and the world is what some events of the application do:
    the timer only ever calls [get_quote], and [quit_app] saves. *)
Lemma step_as_application (ev : AutoRefresh.event)
      (s : AutoRefresh.auto * (KanyeQuoteApp.t * world)) :
  exists evs, snd (AutoRefresh.step ev s) = KanyeQuoteApp.run evs (snd s).
Proof.
  destruct s as [u sw]. destruct ev as [| tick | | ev]; simpl.
  - unfold AutoRefresh.dispatch, AutoRefresh._toggle_auto_refresh,
      AutoRefresh.on_auto, AutoRefresh.the_auto, bind, modify.
    simpl. destruct (AutoRefresh.auto_refresh_var u); simpl.
    + rewrite stop_auto_refresh_run. exists []. reflexivity.
    + rewrite start_auto_refresh_run. exists [KanyeQuoteApp.EvGetQuote].
      reflexivity.
  - destruct (existsb (Nat.eqb tick) (AutoRefresh.scheduled u)).
    + unfold AutoRefresh.dispatch, AutoRefresh.on_auto, bind, modify. simpl.
      rewrite start_auto_refresh_run. exists [KanyeQuoteApp.EvGetQuote].
      reflexivity.
    + exists []. reflexivity.
  - unfold AutoRefresh.dispatch, AutoRefresh.quit_app, bind.
    rewrite stop_auto_refresh_run. cbn [fst snd].
    unfold AutoRefresh.on_app. cbn [fst snd].
    exists [KanyeQuoteApp.EvQuit]. destruct sw as [a w].
    rewrite on_manager_save_data. simpl.
    unfold KanyeQuoteApp.dispatch, KanyeQuoteApp.quit_app_save.
    rewrite on_manager_save_data. reflexivity.
  - exists [ev]. reflexivity.
Qed.

Lemma run_as_application (evs : list AutoRefresh.event)
      (s : AutoRefresh.auto * (KanyeQuoteApp.t * world)) :
  exists evs', snd (AutoRefresh.run evs s) = KanyeQuoteApp.run evs' (snd s).
Proof.
  revert s. induction evs as [|ev evs IH]; simpl; intros s.
  - exists []. reflexivity.
  - destruct (IH (AutoRefresh.step ev s)) as [evs2 E2].
    destruct (step_as_application ev s) as [evs1 E1].
    exists (evs1 ++ evs2). rewrite E2, E1. symmetry. apply run_app.
Qed.

(** X6: a clean quit persists the session and stops the timer.  After any
    sequence of clicks on the auto-refresh box, firings of its timer and
    events of the application, fallback quotes that [_handle_error]
    recorded without saving included, [quit_app] in a world where nothing
    hinders a save returns normally; it cancels the scheduled auto-refresh
    callback and sets [auto_refresh_id] to [None], leaves the checkbox, the
    manager and the widgets as they were, and leaves storage holding the
    favorites and the last 50 history entries of the manager. *)
Theorem quit_persists_session
        (evs : list AutoRefresh.event) (sw : KanyeQuoteApp.t * world) :
  unhindered (snd sw) = true ->
  let s := AutoRefresh.run evs (AutoRefresh.initial, sw) in
  let s' := AutoRefresh.step AutoRefresh.EvQuitApp s in
  AutoRefresh.quit_app s = (Ok tt, s') /\
  AutoRefresh.auto_refresh_id (fst s') = None /\
  AutoRefresh.scheduled (fst s') = [] /\
  AutoRefresh.auto_refresh_var (fst s') = AutoRefresh.auto_refresh_var (fst s) /\
  fst (snd s') = fst (snd s) /\
  synced (KanyeQuoteApp.quote_manager (fst (snd s))) (snd (snd s')).
Proof.
  intros U. cbv zeta.
  assert (T : one_timer (fst (AutoRefresh.run evs (AutoRefresh.initial, sw)))).
  { apply run_one_timer. unfold one_timer. simpl. repeat split. intros j []. }
  destruct (run_as_application evs (AutoRefresh.initial, sw)) as [evs' E].
  assert (U' : unhindered
                 (snd (snd (AutoRefresh.run evs (AutoRefresh.initial, sw))))
               = true).
  { rewrite E. cbn [snd]. rewrite run_unhindered. exact U. }
  clear E.
  destruct (AutoRefresh.run evs (AutoRefresh.initial, sw)) as [u [a w]].
  cbn [fst snd] in *.
  unfold AutoRefresh.step, AutoRefresh.dispatch, AutoRefresh.quit_app, bind.
  rewrite stop_auto_refresh_run. cbn [fst snd].
  unfold AutoRefresh.on_app. cbn [fst snd].
  rewrite on_manager_save_data. cbn [fst snd].
  destruct u as [var id sch nxt]. destruct T as (Hs & _ & _).
  cbn [AutoRefresh.auto_refresh_id AutoRefresh.scheduled
       AutoRefresh.auto_refresh_var] in *.
  split; [reflexivity|].
  destruct id as [i|]; subst sch; simpl.
  - rewrite Nat.eqb_refl. simpl.
    repeat split; try reflexivity; apply after_save_synced, U'.
  - repeat split; try reflexivity; apply after_save_synced, U'.
Qed.

Lemma quit_persists_session_witness :
  let s := AutoRefresh.run auto_session (AutoRefresh.initial, first_start) in
  let s' := AutoRefresh.step AutoRefresh.EvQuitApp s in
  AutoRefresh.quit_app s = (Ok tt, s') /\
  AutoRefresh.auto_refresh_id (fst s') = None /\
  AutoRefresh.scheduled (fst s') = [] /\
  AutoRefresh.auto_refresh_var (fst s') = AutoRefresh.auto_refresh_var (fst s) /\
  fst (snd s') = fst (snd s) /\
  synced (KanyeQuoteApp.quote_manager (fst (snd s))) (snd (snd s')).
Proof.
  exact (@quit_persists_session auto_session first_start eq_refl).
Defined.

(** The session of the witness: before the quit the timer is scheduled
    and the fallback quote is in memory only; the quit writes it. *)
Example auto_session_before_quit :
  let s := AutoRefresh.run auto_session (AutoRefresh.initial, first_start) in
  AutoRefresh.scheduled (fst s) = [0] /\
  List.length (QuoteManager.history (KanyeQuoteApp.quote_manager (fst (snd s)))) = 1 /\
  history_file (snd (snd s)) = Absent.
Proof. repeat split. Qed.

(** Unchecking the box cancels the scheduled callback and nothing
    else: the application, with its fetch threads and queued callbacks, and
    the world are as before, so a fetch in flight still completes; and
    checking the box calls [get_quote] once at once. *)
Lemma auto_refresh_checkbox
        (u : AutoRefresh.auto) (sw : KanyeQuoteApp.t * world) :
  (AutoRefresh.auto_refresh_var u = true ->
   snd (AutoRefresh.step AutoRefresh.EvCheckbox (u, sw)) = sw /\
   AutoRefresh.auto_refresh_id
     (fst (AutoRefresh.step AutoRefresh.EvCheckbox (u, sw))) = None) /\
  (AutoRefresh.auto_refresh_var u = false ->
   snd (AutoRefresh.step AutoRefresh.EvCheckbox (u, sw))
     = KanyeQuoteApp.step KanyeQuoteApp.EvGetQuote sw /\
   AutoRefresh.auto_refresh_id
     (fst (AutoRefresh.step AutoRefresh.EvCheckbox (u, sw)))
     = Some (AutoRefresh.next_id u)).
Proof.
  destruct u as [var id sch nxt]. simpl.
  unfold AutoRefresh.dispatch, AutoRefresh._toggle_auto_refresh,
    AutoRefresh.on_auto, AutoRefresh.the_auto, bind, modify.
  simpl. split; intros ->; simpl.
  - rewrite stop_auto_refresh_run. simpl. destruct id; auto.
  - rewrite start_auto_refresh_run. simpl. auto.
Qed.

End AutoRefreshFacts.

(* ================================================================== *)
(** ** The loading indicator *)

Section Loading.
Import Py IO Props Props2.

Lemma flag_after_app (flag : bool) (q1 q2 : list KanyeQuoteApp.callback) :
  flag_after flag (q1 ++ q2) = flag_after (flag_after flag q1) q2.
Proof. unfold flag_after. apply fold_left_app. Qed.

Lemma flag_after_stays (queue : list KanyeQuoteApp.callback) :
  Forall (fun cb => cb <> KanyeQuoteApp.CbShowLoading false) queue ->
  existsb KanyeQuoteApp.completes_cycle queue = false ->
  flag_after true queue = true.
Proof.
  induction queue as [|cb queue IH]; intros Hok Hno; [reflexivity|].
  inversion Hok as [|? ? Hcb Hrest]; subst.
  simpl in Hno. apply orb_false_elim in Hno. destruct Hno as [Hc Hq].
  destruct cb as [[|]|q|e|]; simpl in *; try discriminate; try congruence;
    apply IH; assumption.
Qed.

Lemma set_nth_at_request (i : nat) (old : KanyeQuoteApp.thread_pc)
      (l : list KanyeQuoteApp.thread_pc) :
  nth_error l i = Some old ->
  existsb at_request (KanyeQuoteApp.set_nth i KanyeQuoteApp.AtRequest l) = true.
Proof.
  revert i. induction l as [|x l IH]; intros [|i]; simpl; try discriminate.
  - reflexivity.
  - intros H. rewrite (IH i H). apply orb_true_r.
Qed.

Lemma cb_moves_settles (cb : KanyeQuoteApp.callback) (rest : list KanyeQuoteApp.callback)
      (a : KanyeQuoteApp.t) (w : world) (s' : KanyeQuoteApp.t * world) :
  cb_moves cb (a, w) s' ->
  cb <> KanyeQuoteApp.CbShowLoading false ->
  KanyeQuoteApp.quote_button_enabled a = negb (KanyeQuoteApp.is_loading a) ->
  KanyeQuoteApp.quote_button_enabled (fst s')
    = negb (KanyeQuoteApp.is_loading (fst s')) /\
  KanyeQuoteApp.timers (fst s') = KanyeQuoteApp.timers a /\
  KanyeQuoteApp.after_queue (fst s') = KanyeQuoteApp.after_queue a /\
  KanyeQuoteApp.threads (fst s') = KanyeQuoteApp.threads a /\
  KanyeQuoteApp.is_loading (fst s')
    = flag_after (KanyeQuoteApp.is_loading a) [cb].
Proof.
  intros H. remember (a, w) as s eqn:Es.
  destruct H as [show a0 w0|q now a0 w0|e fb now line a0 w0 Hin|a0 w0];
    injection Es as -> ->; intros Hcb Hb;
    destruct a as [m ld qt lt fi sl qb aq tm th]; simpl in *;
    try destruct show; simpl; auto.
Qed.

Lemma flag_after_unset (flag : bool) (queue : list KanyeQuoteApp.callback) :
  flag_after flag queue = false -> flag_after false queue = false.
Proof.
  revert flag. unfold flag_after.
  induction queue as [|cb queue IH]; intros flag; simpl.
  - reflexivity.
  - destruct cb; simpl; auto. apply IH.
Qed.

Lemma moves_settles (b : kind) (s s' : KanyeQuoteApp.t * world) :
  moves b s s' -> settles (fst s) -> settles (fst s').
Proof.
  intros H.
  destruct H as [a w|a w L|i a w T|i cb lines a w T C|cb rest a w s' Q Hcb
                |cb rest a w s' Q Hcb|b m' a w G T|index q l a w N R|q now a w|a w];
    unfold settles; cbn [fst]; intros (Hb & Ht & Hq & Hf).
  - auto.
  - destruct a as [m ld qt lt fi sl qb aq tm th]. simpl in *.
    repeat split; try assumption.
    intros Hex. rewrite existsb_app in Hex.
    apply orb_false_elim in Hex. exact (Hf (proj1 Hex)).
  - destruct a as [m ld qt lt fi sl qb aq tm th]. simpl in *.
    repeat split; try assumption.
    + apply Forall_app. split; [exact Hq|]. repeat constructor. discriminate.
    + intros Hex. rewrite (@set_nth_at_request i _ _ T) in Hex. discriminate.
  - destruct a as [m ld qt lt fi sl qb aq tm th]. simpl in *.
    repeat split; try assumption.
    + apply Forall_app. split; [exact Hq|]. repeat constructor.
      intros ->. discriminate.
    + intros _. rewrite flag_after_app.
      destruct cb; simpl in *; try discriminate; reflexivity.
  - rewrite Q in Hq, Hf. inversion Hq as [|? ? Hcb0 Hrest]; subst.
    assert (Hb' : KanyeQuoteApp.quote_button_enabled
                    (KanyeQuoteApp.with_after_queue rest a)
                  = negb (KanyeQuoteApp.is_loading
                            (KanyeQuoteApp.with_after_queue rest a))).
    { destruct a as [m ld qt lt fi sl qb aq tm th]. simpl in *. exact Hb. }
    destruct (@cb_moves_settles cb rest _ w s' Hcb Hcb0 Hb') as (E1 & E2 & E3 & E4 & E5).
    rewrite E1, E2, E3, E4, E5.
    destruct a as [m ld qt lt fi sl qb aq tm th]. simpl in *.
    repeat split; try assumption.
  - rewrite Q in Ht. inversion Ht as [|? ? Hcb0 Hrest]; subst.
    assert (Hb' : KanyeQuoteApp.quote_button_enabled
                    (KanyeQuoteApp.with_timers rest a)
                  = negb (KanyeQuoteApp.is_loading
                            (KanyeQuoteApp.with_timers rest a))).
    { destruct a as [m ld qt lt fi sl qb aq tm th]. simpl in *. exact Hb. }
    assert (Hne : KanyeQuoteApp.CbClearLoadingText
                  <> KanyeQuoteApp.CbShowLoading false) by discriminate.
    destruct (@cb_moves_settles _ rest _ w s' Hcb Hne Hb') as (E1 & E2 & E3 & E4 & E5).
    rewrite E1, E2, E3, E4, E5.
    destruct a as [m ld qt lt fi sl qb aq tm th]. simpl in *.
    repeat split; try assumption.
  - destruct a as [m ld qt lt fi sl qb aq tm th]. simpl in *.
    repeat split; try assumption.
    apply Forall_app. split; [exact Ht|]. repeat constructor.
  - destruct a as [m ld qt lt fi sl qb aq tm th]. simpl in *.
    repeat split; assumption.
  - destruct a as [m ld qt lt fi sl qb aq tm th]. simpl in *.
    repeat split; try assumption.
    intros Hex. exact (flag_after_unset _ _ (Hf Hex)).
  - repeat split; assumption.
Qed.

(** X16: the loading indicator never sticks.  Along every run of the
    application the quote button is disabled exactly while the loading flag
    is set, and whenever the flag is set a fetch is in flight: a thread has
    not finished, or the callback that ends the cycle and unsets the flag
    is in the queue of the main loop. *)
Theorem loading_flag_never_sticks
        (m : QuoteManager.t) (w : world) (evs : list KanyeQuoteApp.event) :
  let a := fst (KanyeQuoteApp.run evs (KanyeQuoteApp.started m, w)) in
  KanyeQuoteApp.quote_button_enabled a = negb (KanyeQuoteApp.is_loading a) /\
  (KanyeQuoteApp.is_loading a = true -> KanyeQuoteApp.in_flight a = true).
Proof.
  cbv zeta.
  assert (H : settles (fst (KanyeQuoteApp.run evs (KanyeQuoteApp.started m, w)))).
  { apply (run_moves_invariant (fun s => settles (fst s))).
    - intros b s s'. apply moves_settles.
    - unfold settles. simpl. repeat split; constructor. }
  destruct H as (Hb & _ & Hq & Hf). split; [exact Hb|].
  intros L. unfold KanyeQuoteApp.in_flight.
  destruct (existsb KanyeQuoteApp.running
              (KanyeQuoteApp.threads
                 (fst (KanyeQuoteApp.run evs (KanyeQuoteApp.started m, w)))))
    eqn:R; [reflexivity|].
  simpl.
  destruct (existsb KanyeQuoteApp.completes_cycle
              (KanyeQuoteApp.after_queue
                 (fst (KanyeQuoteApp.run evs (KanyeQuoteApp.started m, w)))))
    eqn:C; [reflexivity|].
  exfalso.
  assert (Hno : existsb at_request
                  (KanyeQuoteApp.threads
                     (fst (KanyeQuoteApp.run evs (KanyeQuoteApp.started m, w))))
                = false).
  { clear - R.
    induction (KanyeQuoteApp.threads
                 (fst (KanyeQuoteApp.run evs (KanyeQuoteApp.started m, w))))
      as [|pc l IH]; [reflexivity|].
    simpl in *. apply orb_false_elim in R. destruct R as [R1 R2].
    rewrite (IH R2). destruct pc; simpl in *; try discriminate; reflexivity. }
  specialize (Hf Hno). rewrite L in Hf.
  rewrite (@flag_after_stays _ Hq C) in Hf. discriminate.
Qed.

End Loading.
